(** * PhaserAI lambda functions: a shallow embedding and its properties

    The development follows the Python sources under
    [infra/lambda-functions]:

    - [db_utils.py]   : [execute_query], [lambda_response], the event extractors;
    - [users.py]      : [create_or_update_user], [update_user];
    - [languages.py]  : [create_language], [update_language];
    - [words.py]      : [get_words], [get_language_words], [create_word],
                        [update_word];
    - [migration.py]  : the [MigrationRunner] class.

    Python values are a small inductive type, dictionaries are association
    lists in insertion order, and every function that touches the database
    lives in a state-and-exception monad over a [world] that holds the
    committed database, the open connection and the log of driver calls. *)

From Stdlib Require Import String Ascii List ZArith Bool Arith Lia DecimalString Sorted.
Import ListNotations.
Local Open Scope string_scope.
Local Open Scope list_scope.
Set Warnings "-register-all".

(* ===================================================================== *)
(** ** Python values *)
(* ===================================================================== *)

Module Py.

(** The values that travel through the handlers: what [json.loads] builds,
    plus the timestamps psycopg2 returns for [TIMESTAMP] columns.  A float is
    kept as the decimal literal it was read from. *)
Inductive value : Type :=
| PNone
| PBool (b : bool)
| PInt (z : Z)
| PFloat (lexeme : string)
| PStr (s : string)
| PList (items : list value)
| PDict (entries : list (string * value))
| PDatetime (t : nat).

Definition dict := list (string * value).

(** [d.get(k)] / [k in d] / [d[k] = v] on an insertion-ordered dict. *)
Fixpoint dict_get (d : dict) (k : string) : option value :=
  match d with
  | [] => None
  | (k', v) :: d' => if String.eqb k k' then Some v else dict_get d' k
  end.

Definition dict_in (k : string) (d : dict) : bool :=
  match dict_get d k with Some _ => true | None => false end.

Definition get_or (d : dict) (k : string) (default : value) : value :=
  match dict_get d k with Some v => v | None => default end.

Fixpoint dict_set (d : dict) (k : string) (v : value) : dict :=
  match d with
  | [] => [(k, v)]
  | (k', v') :: d' =>
      if String.eqb k k' then (k', v) :: d' else (k', v') :: dict_set d' k v
  end.

(** [dict(zip(columns, row))]: pairs are taken while both lists last, a
    repeated column keeps its first position and its last value. *)
Definition zip_dict (columns : list string) (row : list value) : dict :=
  fold_left (fun acc cv => dict_set acc (fst cv) (snd cv)) (combine columns row) [].

(** The digits of a float literal before its exponent are all zero (and there
    is one): the literal denotes [0.0] or [-0.0].  A literal so small that
    it rounds to zero is not detected. *)
Fixpoint mantissa_zero (seen_digit : bool) (cs : list ascii) : bool :=
  match cs with
  | [] => seen_digit
  | c :: cs' =>
      if (Ascii.eqb c "e" || Ascii.eqb c "E")%bool then seen_digit
      else if Ascii.eqb c "0" then mantissa_zero true cs'
      else if (Ascii.eqb c "-" || Ascii.eqb c ".")%bool then mantissa_zero seen_digit cs'
      else false
  end.

Definition float_is_zero (lexeme : string) : bool :=
  mantissa_zero false (list_ascii_of_string lexeme).

(** [bool(v)], the test behind [if v:] and [if not v:]. *)
Definition truthy (v : value) : bool :=
  match v with
  | PNone => false
  | PBool b => b
  | PInt z => negb (Z.eqb z 0)
  | PFloat f => negb (float_is_zero f)
  | PStr s => negb (String.eqb s EmptyString)
  | PList l => match l with [] => false | _ => true end
  | PDict d => match d with [] => false | _ => true end
  | PDatetime _ => true
  end.

(** [a == b].  Exact when either side is a string or [None], and on
    booleans and integers; a float equals only a float with the same
    literal, and dicts are compared pair by pair in order. *)
Fixpoint py_eq (a b : value) {struct a} : bool :=
  match a, b with
  | PNone, PNone => true
  | PBool x, PBool y => Bool.eqb x y
  | PBool x, PInt y | PInt y, PBool x => Z.eqb y (if x then 1 else 0)
  | PInt x, PInt y => Z.eqb x y
  | PFloat x, PFloat y => String.eqb x y
  | PStr x, PStr y => String.eqb x y
  | PList xs, PList ys =>
      (fix all2 (xs : list value) (ys : list value) {struct xs} : bool :=
         match xs, ys with
         | [], [] => true
         | x :: xs', y :: ys' => py_eq x y && all2 xs' ys'
         | _, _ => false
         end) xs ys
  | PDict xs, PDict ys =>
      (fix all2 (xs : list (string * value)) (ys : dict) {struct xs} : bool :=
         match xs, ys with
         | [], [] => true
         | (k, x) :: xs', (k', y) :: ys' => String.eqb k k' && py_eq x y && all2 xs' ys'
         | _, _ => false
         end) xs ys
  | PDatetime x, PDatetime y => Nat.eqb x y
  | _, _ => false
  end.

(** [a != b] *)
Definition py_ne (a b : value) : bool := negb (py_eq a b).

(** An optional string ([Optional[str]], as [dict.get] of a parameter
    mapping gives it) under [if x:]. *)
Definition given (x : option string) : bool :=
  match x with
  | Some s => negb (String.eqb s EmptyString)
  | None => false
  end.

Definition of_option (x : option string) : value :=
  match x with Some s => PStr s | None => PNone end.

(** The first field of the list that the payload lacks: the loop
    [for field in required_fields: if field not in data: return ...]. *)
Fixpoint first_missing (required_fields : list string) (data : dict) : option string :=
  match required_fields with
  | [] => None
  | field :: rest =>
      if dict_in field data then first_missing rest data else Some field
  end.

End Py.

(* ===================================================================== *)
(** ** Exceptions *)
(* ===================================================================== *)

(** The exception classes the modelled code can meet, each with its
    message (for a [KeyError], the key).  Messages of the decoder and of the
    server are abridged: no positions, no object names. *)
Inductive exn : Type :=
| OperationalError (msg : string)   (* psycopg2: connection and server failures *)
| ProgrammingError (msg : string)   (* psycopg2: misuse of the cursor, SQL errors *)
| IntegrityError (msg : string)     (* psycopg2: constraint violations *)
| DataError (msg : string)          (* psycopg2: values the column type refuses *)
| JSONDecodeError (msg : string)
| TypeError (msg : string)
| AttributeError (msg : string)
| KeyError (msg : string)
| IndexError (msg : string)
| ValueError (msg : string).

(** [str(e)]; a [KeyError] shows its key between quotes. *)
Definition str_of_exn (e : exn) : string :=
  match e with
  | OperationalError m | ProgrammingError m | IntegrityError m | DataError m
  | JSONDecodeError m | TypeError m | AttributeError m
  | IndexError m | ValueError m => m
  | KeyError k => "'" ++ k ++ "'"
  end.

Inductive outcome (A : Type) : Type :=
| Returned (a : A)
| Raised (e : exn).
Arguments Returned {A} a.
Arguments Raised {A} e.

(* ===================================================================== *)
(** ** [json.loads] *)
(* ===================================================================== *)

(** The decoder of Python's [json] module, as far as [extract_body] needs it:
    the JSON grammar with Python's extensions ([NaN], [Infinity],
    [-Infinity]), strict string scanning, integers as [int], other numbers
    as [float], a repeated key keeping its last value.  Text is a string
    of UTF-8 bytes. *)
Module Json.
Import Py.
Local Open Scope nat_scope.

Definition dquote : ascii := "034"%char.
Definition backslash : ascii := "092"%char.

Definition is_ws (c : ascii) : bool :=
  (Ascii.eqb c " " || Ascii.eqb c "009" || Ascii.eqb c "010" || Ascii.eqb c "013")%bool.

Fixpoint skip_ws (s : list ascii) : list ascii :=
  match s with
  | c :: s' => if is_ws c then skip_ws s' else s
  | [] => []
  end.

Definition is_digit (c : ascii) : bool :=
  let n := N_of_ascii c in (48 <=? n)%N && (n <=? 57)%N.

Definition hex_digit (c : ascii) : option N :=
  let n := N_of_ascii c in
  if (48 <=? n)%N && (n <=? 57)%N then Some (n - 48)%N
  else if (65 <=? n)%N && (n <=? 70)%N then Some (n - 55)%N
  else if (97 <=? n)%N && (n <=? 102)%N then Some (n - 87)%N
  else None.

(** Four hexadecimal digits after a backslash-u. *)
Definition hex4 (s : list ascii) : option (N * list ascii) :=
  match s with
  | a :: b :: c :: d :: r =>
      match hex_digit a, hex_digit b, hex_digit c, hex_digit d with
      | Some x, Some y, Some z, Some w => Some ((((x * 16 + y) * 16 + z) * 16 + w)%N, r)
      | _, _, _, _ => None
      end
  | _ => None
  end.

(** The UTF-8 bytes of a code point. *)
Definition utf8 (cp : N) : list ascii :=
  (if cp <? 128 then [ascii_of_N cp]
   else if cp <? 2048 then
     [ascii_of_N (192 + cp / 64); ascii_of_N (128 + cp mod 64)]
   else if cp <? 65536 then
     [ascii_of_N (224 + cp / 4096); ascii_of_N (128 + (cp / 64) mod 64);
      ascii_of_N (128 + cp mod 64)]
   else
     [ascii_of_N (240 + cp / 262144); ascii_of_N (128 + (cp / 4096) mod 64);
      ascii_of_N (128 + (cp / 64) mod 64); ascii_of_N (128 + cp mod 64)])%N.

(** The characters of a string literal after its opening quote, up to and
    past the closing one. *)
Fixpoint scan_string (fuel : nat) (acc : list ascii) (s : list ascii)
  : option (string * list ascii) :=
  match fuel with
  | 0 => None
  | S fuel' =>
      match s with
      | [] => None
      | c :: r =>
          if Ascii.eqb c dquote then Some (string_of_list_ascii (rev acc), r)
          else if Ascii.eqb c backslash then
            match r with
            | [] => None
            | e :: r' =>
                if Ascii.eqb e dquote then scan_string fuel' (dquote :: acc) r'
                else if Ascii.eqb e backslash then scan_string fuel' (backslash :: acc) r'
                else if Ascii.eqb e "/" then scan_string fuel' ("/"%char :: acc) r'
                else if Ascii.eqb e "b" then scan_string fuel' ("008"%char :: acc) r'
                else if Ascii.eqb e "f" then scan_string fuel' ("012"%char :: acc) r'
                else if Ascii.eqb e "n" then scan_string fuel' ("010"%char :: acc) r'
                else if Ascii.eqb e "r" then scan_string fuel' ("013"%char :: acc) r'
                else if Ascii.eqb e "t" then scan_string fuel' ("009"%char :: acc) r'
                else if Ascii.eqb e "u" then
                  match hex4 r' with
                  | None => None
                  | Some (hi, r2) =>
                      let single := scan_string fuel' (rev (utf8 hi) ++ acc) r2 in
                      if (55296 <=? hi)%N && (hi <=? 56319)%N then
                        match r2 with
                        | b1 :: u1 :: r3 =>
                            if Ascii.eqb b1 backslash && Ascii.eqb u1 "u" then
                              match hex4 r3 with
                              | Some (lo, r4) =>
                                  if (56320 <=? lo)%N && (lo <=? 57343)%N then
                                    scan_string fuel'
                                      (rev (utf8 (65536 + (hi - 55296) * 1024 + (lo - 56320))%N)
                                         ++ acc) r4
                                  else single
                              | None => single
                              end
                            else single
                        | _ => single
                        end
                      else single
                  end
                else None
            end
          else if (N_of_ascii c <? 32)%N then None
          else scan_string fuel' (c :: acc) r
      end
  end.

Fixpoint take_digits (s : list ascii) : list ascii * list ascii :=
  match s with
  | c :: r => if is_digit c then let (ds, r') := take_digits r in (c :: ds, r')
              else ([], s)
  | [] => ([], [])
  end.

Definition digits_value (ds : list ascii) : Z :=
  fold_left (fun acc c => (acc * 10 + (Z.of_N (N_of_ascii c) - 48))%Z) ds 0%Z.

(** The integer part of a number: an optional minus sign, then a single
    zero or a digit from 1 to 9 followed by any digits. *)
Definition scan_int (s : list ascii) : option (list ascii * list ascii) :=
  let (sign, r) := match s with
                   | c :: r => if Ascii.eqb c "-" then (["-"%char], r) else ([], s)
                   | [] => ([], [])
                   end in
  match r with
  | c :: r' =>
      if Ascii.eqb c "0" then Some (sign ++ ["0"%char], r')
      else if is_digit c then
        let (ds, r'') := take_digits r' in Some (sign ++ c :: ds, r'')
      else None
  | [] => None
  end.

(** An optional fraction: a dot and at least one digit. *)
Definition scan_frac (s : list ascii) : list ascii * list ascii :=
  match s with
  | c :: r =>
      if Ascii.eqb c "." then
        match take_digits r with
        | ([], _) => ([], s)
        | (ds, r') => (c :: ds, r')
        end
      else ([], s)
  | [] => ([], [])
  end.

(** An optional exponent: e or E, an optional sign, at least one digit. *)
Definition scan_exp (s : list ascii) : list ascii * list ascii :=
  match s with
  | c :: r =>
      if (Ascii.eqb c "e" || Ascii.eqb c "E")%bool then
        let (sg, r1) := match r with
                        | c1 :: r1 =>
                            if (Ascii.eqb c1 "-" || Ascii.eqb c1 "+")%bool
                            then ([c1], r1) else ([], r)
                        | [] => ([], [])
                        end in
        match take_digits r1 with
        | ([], _) => ([], s)
        | (ds, r') => (c :: sg ++ ds, r')
        end
      else ([], s)
  | [] => ([], [])
  end.

Definition scan_number (s : list ascii) : option (value * list ascii) :=
  match scan_int s with
  | None => None
  | Some (ip, r) =>
      let (fp, r1) := scan_frac r in
      let (ep, r2) := scan_exp r1 in
      match fp, ep with
      | [], [] =>
          let z := match ip with
                   | c :: ds => if Ascii.eqb c "-" then (- digits_value ds)%Z
                                else digits_value ip
                   | [] => 0%Z
                   end in
          Some (PInt z, r2)
      | _, _ => Some (PFloat (string_of_list_ascii (ip ++ fp ++ ep)), r2)
      end
  end.

(** [s] starts with the characters of [word]. *)
Fixpoint strip_prefix (word s : list ascii) : option (list ascii) :=
  match word, s with
  | [], _ => Some s
  | w :: word', c :: s' => if Ascii.eqb w c then strip_prefix word' s' else None
  | _ :: _, [] => None
  end.

Section Containers.
(** The scanner of one value, as the container loops call it back. *)
Variable scan_value : list ascii -> option (value * list ascii).

(** The items of an array after its first bracket, when it is not empty:
    value, then a comma and the next value, or the closing bracket. *)
Fixpoint scan_items (n : nat) (acc : list value) (s : list ascii)
  : option (value * list ascii) :=
  match n with
  | 0 => None
  | S n' =>
      match scan_value (skip_ws s) with
      | None => None
      | Some (v, r) =>
          match skip_ws r with
          | c :: r' =>
              if Ascii.eqb c "," then scan_items n' (v :: acc) r'
              else if Ascii.eqb c "]" then Some (PList (rev (v :: acc)), r')
              else None
          | [] => None
          end
      end
  end.

(** The pairs of an object after its brace, when it is not empty: a quoted
    key, a colon, a value, then a comma and the next pair, or the closing
    brace. *)
Fixpoint scan_pairs (n : nat) (acc : dict) (s : list ascii)
  : option (value * list ascii) :=
  match n with
  | 0 => None
  | S n' =>
      match skip_ws s with
      | q :: r0 =>
          if Ascii.eqb q dquote then
            match scan_string (S (length r0)) [] r0 with
            | None => None
            | Some (k, r1) =>
                match skip_ws r1 with
                | c :: r2 =>
                    if Ascii.eqb c ":" then
                      match scan_value (skip_ws r2) with
                      | None => None
                      | Some (v, r3) =>
                          match skip_ws r3 with
                          | d :: r4 =>
                              if Ascii.eqb d "," then scan_pairs n' (dict_set acc k v) r4
                              else if Ascii.eqb d "}" then Some (PDict (dict_set acc k v), r4)
                              else None
                          | [] => None
                          end
                      end
                    else None
                | [] => None
                end
            end
          else None
      | [] => None
      end
  end.
End Containers.

(** One JSON value at the head of [s] (no leading blanks). *)
Fixpoint scan_once (fuel : nat) (s : list ascii) : option (value * list ascii) :=
  match fuel with
  | 0 => None
  | S fuel' =>
      match s with
      | [] => None
      | c :: r =>
          if Ascii.eqb c dquote then
            match scan_string (S (length r)) [] r with
            | Some (str, r') => Some (PStr str, r')
            | None => None
            end
          else if Ascii.eqb c "{" then
            match skip_ws r with
            | c' :: r' =>
                if Ascii.eqb c' "}" then Some (PDict [], r')
                else scan_pairs (scan_once fuel') (length r) [] r
            | [] => None
            end
          else if Ascii.eqb c "[" then
            match skip_ws r with
            | c' :: r' =>
                if Ascii.eqb c' "]" then Some (PList [], r')
                else scan_items (scan_once fuel') (length r) [] r
            | [] => None
            end
          else
            match strip_prefix (list_ascii_of_string "null") s with
            | Some r' => Some (PNone, r')
            | None =>
            match strip_prefix (list_ascii_of_string "true") s with
            | Some r' => Some (PBool true, r')
            | None =>
            match strip_prefix (list_ascii_of_string "false") s with
            | Some r' => Some (PBool false, r')
            | None =>
            match scan_number s with
            | Some res => Some res
            | None =>
            match strip_prefix (list_ascii_of_string "NaN") s with
            | Some r' => Some (PFloat "NaN", r')
            | None =>
            match strip_prefix (list_ascii_of_string "Infinity") s with
            | Some r' => Some (PFloat "Infinity", r')
            | None =>
            match strip_prefix (list_ascii_of_string "-Infinity") s with
            | Some r' => Some (PFloat "-Infinity", r')
            | None => None
            end end end end end end end
      end
  end.

(** [json.loads(s)]: one value between optional blanks, and nothing after. *)
Definition loads (s : string) : outcome value :=
  let cs := list_ascii_of_string s in
  match scan_once (S (length cs)) (skip_ws cs) with
  | None => Raised (JSONDecodeError "Expecting value")
  | Some (v, r) =>
      match skip_ws r with
      | [] => Returned v
      | _ :: _ => Raised (JSONDecodeError "Extra data")
      end
  end.

End Json.

(* ===================================================================== *)
(** ** The database: schema, statements and their meaning *)
(* ===================================================================== *)

Module Db.
Import Py.

(** Rows of the tables [get_initial_schema_migration] creates.  [TEXT] and
    [UUID] columns hold strings, [JSONB] columns the document, timestamps a
    reading of the database clock. *)
Record user_row := {
  u_user_id : string; u_email : string; u_username : string; u_created_at : nat }.

Record language_row := {
  l_id : string; l_user_id : string; l_name : string;
  l_phonemes : value; l_alphabet_mappings : value;
  l_syllables : string; l_rules : string; l_created_at : nat }.

Record word_row := {
  w_id : string; w_language_id : string; w_word : string; w_ipa : string;
  w_pos : list string; w_is_root : bool; w_embedding : value; w_created_at : nat }.

Record translation_row := {
  t_id : string; t_word_id : string; t_language_code : string;
  t_meaning : string; t_created_at : nat }.

(** A row of the ledger [schema_migrations] ([checksum] is never written). *)
Record ledger_row := {
  m_version : string; m_applied_at : nat;
  m_execution_time_ms : Z; m_description : string }.

(** The three SQL scripts embedded in [MigrationRunner]. *)
Inductive script : Type :=
| initial_schema_migration
| etymology_tables_migration
| user_preferences_migration.

Record database := {
  users : list user_row;
  languages : list language_row;
  words : list word_row;
  translations : list translation_row;
  schema_migrations : option (list ledger_row);  (* [None]: no such table yet *)
  scripts_run : list script;                     (* scripts executed, oldest first *)
  clock : nat                                    (* source of NOW() and of fresh ids *)
}.

(** The statements the modelled functions send, with their bound parameters. *)
Inductive statement : Type :=
(* SELECT id FROM app_8b514_languages WHERE id = %s AND user_id = %s *)
| SelectLanguageIdOwned (language_id user_id : value)
(* SELECT w.*, COALESCE(json_agg(... ORDER BY t.created_at) FILTER (...), '[]')
   AS app_8b514_translations FROM app_8b514_words w LEFT JOIN
   app_8b514_translations t ON w.id = t.word_id [WHERE w.language_id = %s]
   GROUP BY w.id ORDER BY w.created_at DESC *)
| SelectWordsTranslated (language_id : option value)
(* INSERT INTO app_8b514_words (language_id, word, ipa, pos, is_root, embedding)
   VALUES (...) RETURNING * *)
| InsertWord (language_id word ipa pos is_root embedding : value)
(* INSERT INTO app_8b514_translations (word_id, language_code, meaning) VALUES (...) *)
| InsertTranslation (word_id language_code meaning : value)
(* SELECT w.id FROM app_8b514_words w JOIN app_8b514_languages l
   ON w.language_id = l.id WHERE w.id = %s AND l.user_id = %s *)
| SelectWordIdOwned (word_id user_id : value)
(* UPDATE app_8b514_words SET <col = %s, ...> WHERE id = %s RETURNING * *)
| UpdateWord (assignments : list (string * value)) (word_id : value)
(* DELETE FROM app_8b514_translations WHERE word_id = %s *)
| DeleteTranslations (word_id : value)
(* INSERT INTO app_8b514_languages (user_id, name, phonemes, alphabet_mappings,
   syllables, rules) VALUES (...) RETURNING * ; the two JSONB parameters are
   given as the documents [json.dumps] writes out *)
| InsertLanguage (user_id name phonemes alphabet_mappings syllables rules : value)
(* SELECT user_id FROM app_8b514_languages WHERE id = %s *)
| SelectLanguageOwner (language_id : value)
(* UPDATE app_8b514_languages SET <col = %s, ...> WHERE id = %s RETURNING * *)
| UpdateLanguage (assignments : list (string * value)) (language_id : value)
(* INSERT INTO app_8b514_users (user_id, email, username) VALUES (...)
   ON CONFLICT (user_id) DO UPDATE SET email = EXCLUDED.email,
   username = EXCLUDED.username RETURNING * *)
| UpsertUser (user_id email username : value)
(* UPDATE app_8b514_users SET <col = %s, ...> WHERE user_id = %s RETURNING * *)
| UpdateUser (assignments : list (string * value)) (user_id : value)
(* CREATE TABLE IF NOT EXISTS schema_migrations (...) *)
| CreateLedgerTable
(* SELECT version FROM schema_migrations ORDER BY version *)
| SelectVersions
(* one of the embedded scripts, BEGIN; ...; COMMIT; *)
| RunScript (sql : script)
(* INSERT INTO schema_migrations (version, applied_at, execution_time_ms,
   description) VALUES (%s, NOW(), %s, %s) ON CONFLICT (version) DO UPDATE SET
   applied_at = NOW(), execution_time_ms = %s *)
| UpsertLedger (version execution_time description : value).

(** What a cursor holds after [execute]: [description] is [None] when the
    statement produced no result set. *)
Record cursor := {
  description : option (list string);
  tuples : list (list value);
  rowcount : Z }.

Definition fresh_cursor : cursor :=
  {| description := None; tuples := []; rowcount := (-1)%Z |}.

Definition result_set (columns : list string) (rows : list (list value)) : cursor :=
  {| description := Some columns; tuples := rows; rowcount := Z.of_nat (length rows) |}.

Definition command_ok (n : nat) : cursor :=
  {| description := None; tuples := []; rowcount := Z.of_nat n |}.

(** *** Parameters against column types *)

Definition as_text (v : value) : option string :=
  match v with PStr s => Some s | _ => None end.

Definition as_bool (v : value) : option bool :=
  match v with PBool b => Some b | _ => None end.

Definition as_int (v : value) : option Z :=
  match v with PInt z => Some z | _ => None end.

Fixpoint as_texts (l : list value) : option (list string) :=
  match l with
  | [] => Some []
  | v :: l' =>
      match as_text v, as_texts l' with
      | Some s, Some ss => Some (s :: ss)
      | _, _ => None
      end
  end.

(** [TEXT[]] *)
Definition as_text_array (v : value) : option (list string) :=
  match v with PList l => as_texts l | _ => None end.

Definition is_number (v : value) : bool :=
  match v with PInt _ | PFloat _ => true | _ => false end.

(** [FLOAT[] NULL] *)
Definition as_float_array (v : value) : option value :=
  match v with
  | PNone => Some PNone
  | PList l => if forallb is_number l then Some v else None
  | _ => None
  end.

(** *** Helpers *)

Definition fresh_id (n : nat) : string :=
  "id-" ++ NilEmpty.string_of_uint (Nat.to_uint n).

Definition timestamp_text (t : nat) : string :=
  NilEmpty.string_of_uint (Nat.to_uint t).

Fixpoint insert_sorted {A : Type} (le : A -> A -> bool) (x : A) (l : list A) : list A :=
  match l with
  | [] => [x]
  | y :: l' => if le x y then x :: l else y :: insert_sorted le x l'
  end.

(** A stable sort, for ORDER BY. *)
Definition sort_by {A : Type} (le : A -> A -> bool) (l : list A) : list A :=
  fold_right (insert_sorted le) [] l.

Definition tick (d : database) : database :=
  {| users := users d; languages := languages d; words := words d;
     translations := translations d; schema_migrations := schema_migrations d;
     scripts_run := scripts_run d; clock := S (clock d) |}.

Definition with_users (d : database) (us : list user_row) : database :=
  {| users := us; languages := languages d; words := words d;
     translations := translations d; schema_migrations := schema_migrations d;
     scripts_run := scripts_run d; clock := clock d |}.

Definition with_languages (d : database) (ls : list language_row) : database :=
  {| users := users d; languages := ls; words := words d;
     translations := translations d; schema_migrations := schema_migrations d;
     scripts_run := scripts_run d; clock := clock d |}.

Definition with_words (d : database) (ws : list word_row) : database :=
  {| users := users d; languages := languages d; words := ws;
     translations := translations d; schema_migrations := schema_migrations d;
     scripts_run := scripts_run d; clock := clock d |}.

Definition with_translations (d : database) (ts : list translation_row) : database :=
  {| users := users d; languages := languages d; words := words d;
     translations := ts; schema_migrations := schema_migrations d;
     scripts_run := scripts_run d; clock := clock d |}.

Definition with_ledger (d : database) (l : option (list ledger_row)) : database :=
  {| users := users d; languages := languages d; words := words d;
     translations := translations d; schema_migrations := l;
     scripts_run := scripts_run d; clock := clock d |}.

Definition with_script (d : database) (s : script) : database :=
  {| users := users d; languages := languages d; words := words d;
     translations := translations d; schema_migrations := schema_migrations d;
     scripts_run := scripts_run d ++ [s]; clock := clock d |}.

(** *** Result columns *)

Definition user_columns : list string := ["user_id"; "email"; "username"; "created_at"].

Definition user_tuple (u : user_row) : list value :=
  [PStr (u_user_id u); PStr (u_email u); PStr (u_username u); PDatetime (u_created_at u)].

Definition language_columns : list string :=
  ["id"; "user_id"; "name"; "phonemes"; "alphabet_mappings"; "syllables"; "rules";
   "created_at"].

Definition language_tuple (l : language_row) : list value :=
  [PStr (l_id l); PStr (l_user_id l); PStr (l_name l); l_phonemes l;
   l_alphabet_mappings l; PStr (l_syllables l); PStr (l_rules l);
   PDatetime (l_created_at l)].

Definition word_columns : list string :=
  ["id"; "language_id"; "word"; "ipa"; "pos"; "is_root"; "embedding"; "created_at"].

Definition word_tuple (w : word_row) : list value :=
  [PStr (w_id w); PStr (w_language_id w); PStr (w_word w); PStr (w_ipa w);
   PList (map PStr (w_pos w)); PBool (w_is_root w); w_embedding w;
   PDatetime (w_created_at w)].

(** [json_build_object('id', t.id, 'language_code', ..., 'meaning', ...,
    'created_at', ...)] *)
Definition translation_object (t : translation_row) : value :=
  PDict [("id", PStr (t_id t)); ("language_code", PStr (t_language_code t));
         ("meaning", PStr (t_meaning t));
         ("created_at", PStr (timestamp_text (t_created_at t)))].

(** The aggregate column of the word listing: the word's translations by
    creation time, the empty list when it has none. *)
Definition translations_of (d : database) (word_id : string) : list translation_row :=
  sort_by (fun a b => (t_created_at a <=? t_created_at b)%nat)
    (filter (fun t => String.eqb (t_word_id t) word_id) (translations d)).

Definition word_listing_tuple (d : database) (w : word_row) : list value :=
  word_tuple w ++ [PList (map translation_object (translations_of d (w_id w)))].

(** *** Updates by column *)

Fixpoint assign_word (assignments : list (string * value)) (w : word_row)
  : option word_row :=
  match assignments with
  | [] => Some w
  | (col, v) :: rest =>
      let next :=
        if String.eqb col "word" then
          option_map (fun s => {| w_id := w_id w; w_language_id := w_language_id w;
                                  w_word := s; w_ipa := w_ipa w; w_pos := w_pos w;
                                  w_is_root := w_is_root w; w_embedding := w_embedding w;
                                  w_created_at := w_created_at w |}) (as_text v)
        else if String.eqb col "ipa" then
          option_map (fun s => {| w_id := w_id w; w_language_id := w_language_id w;
                                  w_word := w_word w; w_ipa := s; w_pos := w_pos w;
                                  w_is_root := w_is_root w; w_embedding := w_embedding w;
                                  w_created_at := w_created_at w |}) (as_text v)
        else if String.eqb col "pos" then
          option_map (fun p => {| w_id := w_id w; w_language_id := w_language_id w;
                                  w_word := w_word w; w_ipa := w_ipa w; w_pos := p;
                                  w_is_root := w_is_root w; w_embedding := w_embedding w;
                                  w_created_at := w_created_at w |}) (as_text_array v)
        else if String.eqb col "is_root" then
          option_map (fun b => {| w_id := w_id w; w_language_id := w_language_id w;
                                  w_word := w_word w; w_ipa := w_ipa w; w_pos := w_pos w;
                                  w_is_root := b; w_embedding := w_embedding w;
                                  w_created_at := w_created_at w |}) (as_bool v)
        else if String.eqb col "embedding" then
          option_map (fun e => {| w_id := w_id w; w_language_id := w_language_id w;
                                  w_word := w_word w; w_ipa := w_ipa w; w_pos := w_pos w;
                                  w_is_root := w_is_root w; w_embedding := e;
                                  w_created_at := w_created_at w |}) (as_float_array v)
        else None in
      match next with
      | Some w' => assign_word rest w'
      | None => None
      end
  end.

Fixpoint assign_language (assignments : list (string * value)) (l : language_row)
  : option language_row :=
  match assignments with
  | [] => Some l
  | (col, v) :: rest =>
      let next :=
        if String.eqb col "name" then
          option_map (fun s => {| l_id := l_id l; l_user_id := l_user_id l; l_name := s;
                                  l_phonemes := l_phonemes l;
                                  l_alphabet_mappings := l_alphabet_mappings l;
                                  l_syllables := l_syllables l; l_rules := l_rules l;
                                  l_created_at := l_created_at l |}) (as_text v)
        else if String.eqb col "phonemes" then
          Some {| l_id := l_id l; l_user_id := l_user_id l; l_name := l_name l;
                  l_phonemes := v; l_alphabet_mappings := l_alphabet_mappings l;
                  l_syllables := l_syllables l; l_rules := l_rules l;
                  l_created_at := l_created_at l |}
        else if String.eqb col "alphabet_mappings" then
          Some {| l_id := l_id l; l_user_id := l_user_id l; l_name := l_name l;
                  l_phonemes := l_phonemes l; l_alphabet_mappings := v;
                  l_syllables := l_syllables l; l_rules := l_rules l;
                  l_created_at := l_created_at l |}
        else if String.eqb col "syllables" then
          option_map (fun s => {| l_id := l_id l; l_user_id := l_user_id l;
                                  l_name := l_name l; l_phonemes := l_phonemes l;
                                  l_alphabet_mappings := l_alphabet_mappings l;
                                  l_syllables := s; l_rules := l_rules l;
                                  l_created_at := l_created_at l |}) (as_text v)
        else if String.eqb col "rules" then
          option_map (fun s => {| l_id := l_id l; l_user_id := l_user_id l;
                                  l_name := l_name l; l_phonemes := l_phonemes l;
                                  l_alphabet_mappings := l_alphabet_mappings l;
                                  l_syllables := l_syllables l; l_rules := s;
                                  l_created_at := l_created_at l |}) (as_text v)
        else None in
      match next with
      | Some l' => assign_language rest l'
      | None => None
      end
  end.

Fixpoint assign_user (assignments : list (string * value)) (u : user_row)
  : option user_row :=
  match assignments with
  | [] => Some u
  | (col, v) :: rest =>
      let next :=
        if String.eqb col "email" then
          option_map (fun s => {| u_user_id := u_user_id u; u_email := s;
                                  u_username := u_username u;
                                  u_created_at := u_created_at u |}) (as_text v)
        else if String.eqb col "username" then
          option_map (fun s => {| u_user_id := u_user_id u; u_email := u_email u;
                                  u_username := s;
                                  u_created_at := u_created_at u |}) (as_text v)
        else None in
      match next with
      | Some u' => assign_user rest u'
      | None => None
      end
  end.

(** UPDATE ... WHERE key = k RETURNING *: every row the test selects is
    rewritten by [f]; the rewritten rows are returned.  [None] when [f]
    refuses a value. *)
Fixpoint update_where {A : Type} (sel : A -> bool) (f : A -> option A) (rows : list A)
  : option (list A * list A) :=
  match rows with
  | [] => Some ([], [])
  | r :: rows' =>
      match update_where sel f rows' with
      | None => None
      | Some (all, hit) =>
          if sel r then
            match f r with
            | Some r' => Some (r' :: all, r' :: hit)
            | None => None
            end
          else Some (r :: all, hit)
      end
  end.

(** UNIQUE (email), among the rows of other users. *)
Definition email_taken (d : database) (user_id email : string) : bool :=
  existsb (fun u => String.eqb (u_email u) email && negb (String.eqb (u_user_id u) user_id))
    (users d).

Definition bad_parameter : exn := DataError "invalid parameter for the column type".

(** INSERT ... ON CONFLICT (version) DO UPDATE SET applied_at = NOW(),
    execution_time_ms = ...: a recorded version keeps its row and its
    description, with a new time stamp and timing; a new one is added. *)
Definition ledger_upsert (rows : list ledger_row) (v : string) (ms : Z) (ds : string)
  (now : nat) : list ledger_row :=
  if existsb (fun r => String.eqb (m_version r) v) rows then
    map (fun r => if String.eqb (m_version r) v
                  then {| m_version := m_version r; m_applied_at := now;
                          m_execution_time_ms := ms; m_description := m_description r |}
                  else r) rows
  else rows ++ [{| m_version := v; m_applied_at := now;
                   m_execution_time_ms := ms; m_description := ds |}].

(** *** The meaning of a statement

    [run q d] is what the server does with [q] on the transaction's view [d]:
    the cursor contents and the new view, or the error it reports.  Foreign
    keys, NOT NULL, UNIQUE and the column types come from the schema. *)
Definition run (q : statement) (d : database) : outcome (cursor * database) :=
  match q with
  | SelectLanguageIdOwned language_id user_id =>
      match as_text language_id, as_text user_id with
      | Some lid, Some uid =>
          Returned
            (result_set ["id"]
               (map (fun l => [PStr (l_id l)])
                  (filter (fun l => String.eqb (l_id l) lid && String.eqb (l_user_id l) uid)
                     (languages d))), d)
      | _, _ => Raised bad_parameter
      end
  | SelectWordsTranslated language_id =>
      let listed (ws : list word_row) :=
        Returned
          (result_set (word_columns ++ ["app_8b514_translations"])
             (map (word_listing_tuple d)
                (sort_by (fun a b => (w_created_at b <=? w_created_at a)%nat) ws)), d) in
      match language_id with
      | None => listed (words d)
      | Some p =>
          match as_text p with
          | Some lid => listed (filter (fun w => String.eqb (w_language_id w) lid) (words d))
          | None => Raised bad_parameter
          end
      end
  | InsertWord language_id word ipa pos is_root embedding =>
      match as_text language_id, as_text word, as_text ipa,
            as_text_array pos, as_bool is_root, as_float_array embedding with
      | Some lid, Some wd, Some ip, Some ps, Some rt, Some em =>
          if existsb (fun l => String.eqb (l_id l) lid) (languages d) then
            let w := {| w_id := fresh_id (clock d); w_language_id := lid; w_word := wd;
                        w_ipa := ip; w_pos := ps; w_is_root := rt; w_embedding := em;
                        w_created_at := clock d |} in
            Returned (result_set word_columns [word_tuple w],
                      tick (with_words d (words d ++ [w])))
          else Raised (IntegrityError "violates foreign key constraint on language_id")
      | _, _, _, _, _, _ => Raised bad_parameter
      end
  | InsertTranslation word_id language_code meaning =>
      match as_text word_id, as_text language_code, as_text meaning with
      | Some wid, Some code, Some mn =>
          if existsb (fun w => String.eqb (w_id w) wid) (words d) then
            let t := {| t_id := fresh_id (clock d); t_word_id := wid;
                        t_language_code := code; t_meaning := mn;
                        t_created_at := clock d |} in
            Returned (command_ok 1, tick (with_translations d (translations d ++ [t])))
          else Raised (IntegrityError "violates foreign key constraint on word_id")
      | _, _, _ => Raised bad_parameter
      end
  | SelectWordIdOwned word_id user_id =>
      match as_text word_id, as_text user_id with
      | Some wid, Some uid =>
          Returned
            (result_set ["id"]
               (map (fun w => [PStr (w_id w)])
                  (filter
                     (fun w =>
                        String.eqb (w_id w) wid &&
                        existsb (fun l => String.eqb (l_id l) (w_language_id w) &&
                                          String.eqb (l_user_id l) uid) (languages d))
                     (words d))), d)
      | _, _ => Raised bad_parameter
      end
  | UpdateWord assignments word_id =>
      match as_text word_id with
      | Some wid =>
          match update_where (fun w => String.eqb (w_id w) wid)
                  (assign_word assignments) (words d) with
          | Some (all, hit) =>
              Returned (result_set word_columns (map word_tuple hit), with_words d all)
          | None => Raised bad_parameter
          end
      | None => Raised bad_parameter
      end
  | DeleteTranslations word_id =>
      match as_text word_id with
      | Some wid =>
          let gone := filter (fun t => String.eqb (t_word_id t) wid) (translations d) in
          let kept := filter (fun t => negb (String.eqb (t_word_id t) wid)) (translations d) in
          Returned (command_ok (length gone), with_translations d kept)
      | None => Raised bad_parameter
      end
  | InsertLanguage user_id name phonemes alphabet_mappings syllables rules =>
      match as_text user_id, as_text name, as_text syllables, as_text rules with
      | Some uid, Some nm, Some sy, Some ru =>
          if existsb (fun u => String.eqb (u_user_id u) uid) (users d) then
            let l := {| l_id := fresh_id (clock d); l_user_id := uid; l_name := nm;
                        l_phonemes := phonemes; l_alphabet_mappings := alphabet_mappings;
                        l_syllables := sy; l_rules := ru; l_created_at := clock d |} in
            Returned (result_set language_columns [language_tuple l],
                      tick (with_languages d (languages d ++ [l])))
          else Raised (IntegrityError "violates foreign key constraint on user_id")
      | _, _, _, _ => Raised bad_parameter
      end
  | SelectLanguageOwner language_id =>
      match as_text language_id with
      | Some lid =>
          Returned
            (result_set ["user_id"]
               (map (fun l => [PStr (l_user_id l)])
                  (filter (fun l => String.eqb (l_id l) lid) (languages d))), d)
      | None => Raised bad_parameter
      end
  | UpdateLanguage assignments language_id =>
      match as_text language_id with
      | Some lid =>
          match update_where (fun l => String.eqb (l_id l) lid)
                  (assign_language assignments) (languages d) with
          | Some (all, hit) =>
              Returned (result_set language_columns (map language_tuple hit),
                        with_languages d all)
          | None => Raised bad_parameter
          end
      | None => Raised bad_parameter
      end
  | UpsertUser user_id email username =>
      match as_text user_id, as_text email, as_text username with
      | Some uid, Some em, Some un =>
          if email_taken d uid em then
            Raised (IntegrityError "duplicate key value violates unique constraint on email")
          else if existsb (fun u => String.eqb (u_user_id u) uid) (users d) then
            match update_where (fun u => String.eqb (u_user_id u) uid)
                    (fun u => Some {| u_user_id := u_user_id u; u_email := em;
                                      u_username := un;
                                      u_created_at := u_created_at u |}) (users d) with
            | Some (all, hit) =>
                Returned (result_set user_columns (map user_tuple hit), with_users d all)
            | None => Raised bad_parameter
            end
          else
            let u := {| u_user_id := uid; u_email := em; u_username := un;
                        u_created_at := clock d |} in
            Returned (result_set user_columns [user_tuple u],
                      tick (with_users d (users d ++ [u])))
      | _, _, _ => Raised bad_parameter
      end
  | UpdateUser assignments user_id =>
      match as_text user_id with
      | Some uid =>
          match update_where (fun u => String.eqb (u_user_id u) uid)
                  (assign_user assignments) (users d) with
          | Some (all, hit) =>
              if existsb (fun u => email_taken d uid (u_email u)) hit then
                Raised (IntegrityError
                          "duplicate key value violates unique constraint on email")
              else Returned (result_set user_columns (map user_tuple hit), with_users d all)
          | None => Raised bad_parameter
          end
      | None => Raised bad_parameter
      end
  | CreateLedgerTable =>
      match schema_migrations d with
      | Some _ => Returned (command_ok 0, d)
      | None => Returned (command_ok 0, with_ledger d (Some []))
      end
  | SelectVersions =>
      match schema_migrations d with
      | Some rows =>
          Returned
            (result_set ["version"]
               (map (fun v => [PStr v]) (sort_by String.leb (map m_version rows))), d)
      | None => Raised (ProgrammingError "relation schema_migrations does not exist")
      end
  | RunScript sql => Returned (command_ok 0, with_script d sql)
  | UpsertLedger version execution_time description =>
      match schema_migrations d, as_text version, as_int execution_time,
            as_text description with
      | Some rows, Some v, Some ms, Some ds =>
          Returned (command_ok 1, tick (with_ledger d (Some (ledger_upsert rows v ms ds (clock d)))))
      | None, _, _, _ =>
          Raised (ProgrammingError "relation schema_migrations does not exist")
      | _, _, _, _ => Raised bad_parameter
      end
  end.

(** The embedded scripts end with COMMIT: what they did is durable as soon
    as they have run, whatever the client does next.  What the client sends
    after a script stays in its transaction until it commits. *)
Definition commits_itself (q : statement) : bool :=
  match q with RunScript _ => true | _ => false end.

End Db.

(* ===================================================================== *)
(** ** The world a lambda runs in, and the psycopg2 calls *)
(* ===================================================================== *)

Module Driver.
Import Py Db.

(** Calls made on the driver, as they are logged. *)
Inductive call : Type :=
| Connect
| OpenCursor
| Execute (q : statement)
| Fetchall
| Commit
| Rollback
| CloseCursor
| CloseConnection.

(** - [store]: the committed database;
    - [session]: the view of the open connection's transaction, if one is open;
    - [cur]: the contents of the open cursor, if one is open;
    - [secret_arn]: the environment variable SECRET_ARN;
    - [faults]: what the next calls that can fail for reasons outside the
      program (connecting, executing, committing) meet, in order: an error
      to raise, or [None] for success; past its end all succeed;
    - [timings]: the elapsed milliseconds the next migrations measure;
    - [calls]: the driver calls made so far, oldest first. *)
Record world := {
  store : database;
  session : option database;
  cur : option cursor;
  secret_arn : option string;
  faults : list (option exn);
  timings : list Z;
  calls : list call }.

Definition M (A : Type) : Type := world -> outcome A * world.

Definition ret {A : Type} (a : A) : M A := fun w => (Returned a, w).

Definition raise {A : Type} (e : exn) : M A := fun w => (Raised e, w).

Definition bind {A B : Type} (c : M A) (k : A -> M B) : M B :=
  fun w => match c w with
           | (Returned a, w') => k a w'
           | (Raised e, w') => (Raised e, w')
           end.

Definition lift {A : Type} (o : outcome A) : M A := fun w => (o, w).

(** [try: c  except Exception as e: h e] *)
Definition try_except {A : Type} (c : M A) (h : exn -> M A) : M A :=
  fun w => match c w with
           | (Returned a, w') => (Returned a, w')
           | (Raised e, w') => h e w'
           end.

(** [try: c  finally: f]: [f] runs on both exits; an error of [f] replaces
    the outcome of [c]. *)
Definition try_finally {A : Type} (c : M A) (f : M unit) : M A :=
  fun w => match c w with
           | (o, w') =>
               match f w' with
               | (Returned _, w'') => (o, w'')
               | (Raised e, w'') => (Raised e, w'')
               end
           end.

Declare Scope py_scope.
Delimit Scope py_scope with py.
Notation "x <- c ;; k" := (bind c (fun x => k))
  (at level 61, c at next level, right associativity) : py_scope.
Notation "c ;; k" := (bind c (fun _ => k))
  (at level 61, right associativity) : py_scope.
Local Open Scope py_scope.

Definition logged (c : call) (w : world) : world :=
  {| store := store w; session := session w; cur := cur w;
     secret_arn := secret_arn w; faults := faults w; timings := timings w;
     calls := calls w ++ [c] |}.

Definition with_store (w : world) (d : database) : world :=
  {| store := d; session := session w; cur := cur w;
     secret_arn := secret_arn w; faults := faults w; timings := timings w;
     calls := calls w |}.

Definition with_session (w : world) (s : option database) : world :=
  {| store := store w; session := s; cur := cur w;
     secret_arn := secret_arn w; faults := faults w; timings := timings w;
     calls := calls w |}.

Definition with_cur (w : world) (c : option cursor) : world :=
  {| store := store w; session := session w; cur := c;
     secret_arn := secret_arn w; faults := faults w; timings := timings w;
     calls := calls w |}.

Definition with_faults (w : world) (f : list (option exn)) : world :=
  {| store := store w; session := session w; cur := cur w;
     secret_arn := secret_arn w; faults := f; timings := timings w;
     calls := calls w |}.

Definition with_timings (w : world) (t : list Z) : world :=
  {| store := store w; session := session w; cur := cur w;
     secret_arn := secret_arn w; faults := faults w; timings := t;
     calls := calls w |}.

(** The next entry of the fault plan. *)
Definition next_fault : M unit :=
  fun w => match faults w with
           | [] => (Returned tt, w)
           | None :: rest => (Returned tt, with_faults w rest)
           | Some e :: rest => (Raised e, with_faults w rest)
           end.

Definition closed_connection : exn := OperationalError "connection already closed".
Definition closed_cursor : exn := ProgrammingError "cursor already closed".

(** The secret lookup and [psycopg2.connect(...)]: a new connection whose
    transaction starts from the committed state. *)
Definition connect : M unit :=
  fun w => match next_fault (logged Connect w) with
           | (Returned _, w') => (Returned tt, with_session w' (Some (store w')))
           | (Raised e, w') => (Raised e, w')
           end.

(** [connection.cursor()] *)
Definition open_cursor : M unit :=
  fun w => (Returned tt, with_cur (logged OpenCursor w) (Some fresh_cursor)).

(** [cursor.execute(query, params)] *)
Definition cursor_execute (q : statement) : M unit :=
  fun w =>
    match next_fault (logged (Execute q) w) with
    | (Raised e, w') => (Raised e, w')
    | (Returned _, w') =>
        match session w', cur w' with
        | None, _ => (Raised closed_connection, w')
        | _, None => (Raised closed_cursor, w')
        | Some d, Some _ =>
            match run q d with
            | Raised e => (Raised e, w')
            | Returned (c, d') =>
                let w'' := with_cur (with_session w' (Some d')) (Some c) in
                (Returned tt, if commits_itself q then with_store w'' d' else w'')
            end
        end
    end.

(** [cursor.description] *)
Definition cursor_description : M (option (list string)) :=
  fun w => match cur w with
           | Some c => (Returned (description c), w)
           | None => (Returned None, w)
           end.

(** [cursor.rowcount] *)
Definition cursor_rowcount : M Z :=
  fun w => match cur w with
           | Some c => (Returned (rowcount c), w)
           | None => (Returned (-1)%Z, w)
           end.

(** [cursor.fetchall()]: the rows not yet fetched.  psycopg2 raises
    [ProgrammingError: no results to fetch] when the last statement produced
    no result set (or none was executed). *)
Definition cursor_fetchall : M (list (list value)) :=
  fun w =>
    let w' := logged Fetchall w in
    match cur w' with
    | None => (Raised closed_cursor, w')
    | Some c =>
        match description c with
        | None => (Raised (ProgrammingError "no results to fetch"), w')
        | Some cols =>
            (Returned (tuples c),
             with_cur w' (Some {| description := Some cols; tuples := [];
                                  rowcount := rowcount c |}))
        end
    end.

(** [connection.commit()] *)
Definition connection_commit : M unit :=
  fun w =>
    match next_fault (logged Commit w) with
    | (Raised e, w') => (Raised e, w')
    | (Returned _, w') =>
        match session w' with
        | Some d => (Returned tt, with_store w' d)
        | None => (Raised closed_connection, w')
        end
    end.

(** [connection.rollback()]: the transaction's view goes back to the
    committed state. *)
Definition connection_rollback : M unit :=
  fun w =>
    let w' := logged Rollback w in
    match session w' with
    | Some _ => (Returned tt, with_session w' (Some (store w')))
    | None => (Returned tt, w')
    end.

(** [cursor.close()] *)
Definition cursor_close : M unit :=
  fun w => (Returned tt, with_cur (logged CloseCursor w) None).

(** [connection.close()]: what was not committed is lost. *)
Definition connection_close : M unit :=
  fun w => (Returned tt, with_session (logged CloseConnection w) None).

(** *** Python operations that can raise *)

(** [v[0]] *)
Definition index0 (v : value) : outcome value :=
  match v with
  | PList (x :: _) => Returned x
  | PList [] => Raised (IndexError "list index out of range")
  | PStr s => match s with
              | String c _ => Returned (PStr (String c EmptyString))
              | EmptyString => Raised (IndexError "string index out of range")
              end
  | PDict _ => Raised (KeyError "0")
  | _ => Raised (TypeError "object is not subscriptable")
  end.

(** [v[k]] for a string key *)
Definition subscript (v : value) (k : string) : outcome value :=
  match v with
  | PDict d => match dict_get d k with
               | Some x => Returned x
               | None => Raised (KeyError k)
               end
  | PList _ | PStr _ => Raised (TypeError "indices must be integers")
  | _ => Raised (TypeError "object is not subscriptable")
  end.

(** [d[k]] on a dict *)
Definition item (d : dict) (k : string) : outcome value :=
  match dict_get d k with
  | Some x => Returned x
  | None => Raised (KeyError k)
  end.

(** [v.get(k, default)] *)
Definition method_get (v : value) (k : string) (default : value) : outcome value :=
  match v with
  | PDict d => Returned (get_or d k default)
  | _ => Raised (AttributeError "object has no attribute get")
  end.

(** The items [for x in v] visits. *)
Definition iterate (v : value) : outcome (list value) :=
  match v with
  | PList l => Returned l
  | PDict d => Returned (map (fun kv => PStr (fst kv)) d)
  | PStr s => Returned (map (fun c => PStr (String c EmptyString)) (list_ascii_of_string s))
  | _ => Raised (TypeError "object is not iterable")
  end.

End Driver.

(* ===================================================================== *)
(** ** db_utils.py *)
(* ===================================================================== *)

Module DbUtils.
Import Py Db Driver.
Local Open Scope py_scope.

(** [get_db_connection]: [os.environ['SECRET_ARN']] raises [KeyError] when
    the variable is not set; the secret lookup and the connection are one
    step that the environment may fail. *)
Definition get_db_connection : M unit :=
  fun w => match secret_arn w with
           | None => (Raised (KeyError "SECRET_ARN"), w)
           | Some _ => connect w
           end.

(** [execute_query(query, params, fetch)]: the statement stands for the
    query text with its parameters. *)
Definition execute_query (query : statement) (fetch : bool) : M value :=
  get_db_connection ;;
  open_cursor ;;
  try_finally
    (try_except
       (cursor_execute query ;;
        result <-
          (if fetch then
             d <- cursor_description ;;
             let columns := match d with Some cols => cols | None => [] end in
             rows <- cursor_fetchall ;;
             ret (PList (map (fun row => PDict (zip_dict columns row)) rows))
           else
             n <- cursor_rowcount ;;
             ret (PInt n)) ;;
        connection_commit ;;
        ret result)
       (fun e => connection_rollback ;; raise e))
    (cursor_close ;; connection_close).

(** The response envelope; [body] is the value [json.dumps(body,
    default=str)] writes out. *)
Record response := {
  statusCode : Z;
  headers : list (string * string);
  body : value }.

Definition default_headers : list (string * string) :=
  [("Content-Type", "application/json");
   ("Access-Control-Allow-Origin", "*");
   ("Access-Control-Allow-Methods", "GET, POST, PUT, DELETE, OPTIONS");
   ("Access-Control-Allow-Headers", "Content-Type, Authorization")].

(** [dict.update] on string-valued headers *)
Fixpoint header_set (h : list (string * string)) (k v : string) : list (string * string) :=
  match h with
  | [] => [(k, v)]
  | (k', v') :: h' =>
      if String.eqb k k' then (k', v) :: h' else (k', v') :: header_set h' k v
  end.

Definition lambda_response (status_code : Z) (body : value)
  (headers : option (list (string * string))) : response :=
  {| statusCode := status_code;
     headers := match headers with
                | Some (_ :: _ as hs) =>
                    fold_left (fun acc kv => header_set acc (fst kv) (snd kv)) hs
                      default_headers
                | _ => default_headers
                end;
     body := body |}.

(** The inbound envelope: [None] is a key the event does not have. *)
Record event := {
  httpMethod : option string;
  resource : option string;
  pathParameters : option value;
  queryStringParameters : option value;
  ev_body : option value }.

(** [event.get('pathParameters') or {}] *)
Definition extract_path_params (e : event) : value :=
  match pathParameters e with
  | Some v => if truthy v then v else PDict []
  | None => PDict []
  end.

(** [event.get('queryStringParameters') or {}] *)
Definition extract_query_params (e : event) : value :=
  match queryStringParameters e with
  | Some v => if truthy v then v else PDict []
  | None => PDict []
  end.

(** [extract_body]: [event.get('body', '{}')], parsed when it is a string. *)
Definition extract_body (e : event) : outcome value :=
  let body := match ev_body e with Some v => v | None => PStr "{}" end in
  match body with
  | PStr s => if truthy (PStr s) then Json.loads s else Returned (PDict [])
  | _ => Returned body
  end.

(** The error payload [{'error': msg}] *)
Definition error_body (msg : string) : value := PDict [("error", PStr msg)].

End DbUtils.

(* ===================================================================== *)
(** ** users.py *)
(* ===================================================================== *)

Module Users.
Import Py Db Driver DbUtils.
Local Open Scope py_scope.

Definition create_or_update_user (user_data : dict) : M response :=
  let required_fields := ["user_id"; "email"; "username"] in
  match first_missing required_fields user_data with
  | Some field =>
      ret (lambda_response 400 (error_body ("Missing required field: " ++ field)) None)
  | None =>
      user_id <- lift (item user_data "user_id") ;;
      email <- lift (item user_data "email") ;;
      username <- lift (item user_data "username") ;;
      result <- execute_query (UpsertUser user_id email username) true ;;
      row <- lift (index0 result) ;;
      ret (lambda_response 201 row None)
  end.

Definition update_user (user_id : option string) (user_data : dict) : M response :=
  if negb (given user_id) then
    ret (lambda_response 400 (error_body "User ID is required") None)
  else
    let update_fields :=
      (if dict_in "email" user_data
       then [("email", get_or user_data "email" PNone)] else []) ++
      (if dict_in "username" user_data
       then [("username", get_or user_data "username" PNone)] else []) in
    match update_fields with
    | [] => ret (lambda_response 400 (error_body "No fields to update") None)
    | _ :: _ =>
        result <- execute_query (UpdateUser update_fields (of_option user_id)) true ;;
        if negb (truthy result) then
          ret (lambda_response 404 (error_body "User not found") None)
        else
          row <- lift (index0 result) ;;
          ret (lambda_response 200 row None)
    end.

End Users.

(* ===================================================================== *)
(** ** languages.py *)
(* ===================================================================== *)

Module Languages.
Import Py Db Driver DbUtils.
Local Open Scope py_scope.

Definition default_phonemes : value :=
  PDict [("consonants", PList []); ("vowels", PList []); ("diphthongs", PList [])].

Definition default_alphabet_mappings : value :=
  PDict [("consonants", PDict []); ("vowels", PDict []); ("diphthongs", PDict [])].

Definition create_language (language_data : dict) : M response :=
  let required_fields := ["user_id"; "name"] in
  match first_missing required_fields language_data with
  | Some field =>
      ret (lambda_response 400 (error_body ("Missing required field: " ++ field)) None)
  | None =>
      let phonemes := get_or language_data "phonemes" default_phonemes in
      let alphabet_mappings :=
        get_or language_data "alphabet_mappings" default_alphabet_mappings in
      let syllables := get_or language_data "syllables" (PStr "CV") in
      let rules := get_or language_data "rules" (PStr EmptyString) in
      user_id <- lift (item language_data "user_id") ;;
      name <- lift (item language_data "name") ;;
      result <- execute_query
                  (InsertLanguage user_id name phonemes alphabet_mappings syllables rules)
                  true ;;
      row <- lift (index0 result) ;;
      ret (lambda_response 201 row None)
  end.

(** The SET list [update_language] builds, in the order of its tests. *)
Definition update_fields (language_data : dict) : list (string * value) :=
  (if dict_in "name" language_data
   then [("name", get_or language_data "name" PNone)] else []) ++
  (if dict_in "phonemes" language_data
   then [("phonemes", get_or language_data "phonemes" PNone)] else []) ++
  (if dict_in "alphabet_mappings" language_data
   then [("alphabet_mappings", get_or language_data "alphabet_mappings" PNone)] else []) ++
  (if dict_in "syllables" language_data
   then [("syllables", get_or language_data "syllables" PNone)] else []) ++
  (if dict_in "rules" language_data
   then [("rules", get_or language_data "rules" PNone)] else []).

(** The ownership test of [update_language], run when the body has a
    [user_id]: [Some r] is the response it returns early with. *)
Definition verify_owner (language_id : option string) (language_data : dict)
  : M (option response) :=
  match dict_get language_data "user_id" with
  | None => ret None
  | Some supplied =>
      verify_result <- execute_query (SelectLanguageOwner (of_option language_id)) true ;;
      if negb (truthy verify_result) then
        ret (Some (lambda_response 404 (error_body "Language not found") None))
      else
        first <- lift (index0 verify_result) ;;
        owner <- lift (subscript first "user_id") ;;
        if py_ne owner supplied then
          ret (Some (lambda_response 403 (error_body "Access denied") None))
        else ret None
  end.

Definition update_language (language_id : option string) (language_data : dict)
  : M response :=
  if negb (given language_id) then
    ret (lambda_response 400 (error_body "Language ID is required") None)
  else
    match update_fields language_data with
    | [] => ret (lambda_response 400 (error_body "No fields to update") None)
    | (_ :: _) as fields =>
        early <- verify_owner language_id language_data ;;
        match early with
        | Some r => ret r
        | None =>
            result <- execute_query (UpdateLanguage fields (of_option language_id)) true ;;
            if negb (truthy result) then
              ret (lambda_response 404 (error_body "Language not found") None)
            else
              row <- lift (index0 result) ;;
              ret (lambda_response 200 row None)
        end
    end.

End Languages.

(* ===================================================================== *)
(** ** words.py *)
(* ===================================================================== *)

Module Words.
Import Py Db Driver DbUtils.
Local Open Scope py_scope.

(** [query_params.get(k)] on the string-to-string mapping of the query. *)
Fixpoint param (query_params : list (string * string)) (k : string) : option string :=
  match query_params with
  | [] => None
  | (k', v) :: rest => if String.eqb k k' then Some v else param rest k
  end.

Definition get_words (query_params : list (string * string)) : M response :=
  let language_id := param query_params "languageId" in
  let user_id := param query_params "userId" in
  if given language_id && given user_id then
    verify_result <- execute_query
                       (SelectLanguageIdOwned (of_option language_id) (of_option user_id))
                       true ;;
    if negb (truthy verify_result) then
      ret (lambda_response 404 (error_body "Language not found or access denied") None)
    else
      result <- execute_query (SelectWordsTranslated (Some (of_option language_id))) true ;;
      ret (lambda_response 200 result None)
  else if given language_id then
    result <- execute_query (SelectWordsTranslated (Some (of_option language_id))) true ;;
    ret (lambda_response 200 result None)
  else
    result <- execute_query (SelectWordsTranslated None) true ;;
    ret (lambda_response 200 result None).

Definition get_language_words (language_id user_id : option string) : M response :=
  if negb (given language_id) then
    ret (lambda_response 400 (error_body "Language ID is required") None)
  else
    denied <-
      (if given user_id then
         verify_result <- execute_query
                            (SelectLanguageIdOwned (of_option language_id)
                               (of_option user_id)) true ;;
         ret (negb (truthy verify_result))
       else ret false) ;;
    if (denied : bool) then
      ret (lambda_response 404 (error_body "Language not found or access denied") None)
    else
      result <- execute_query (SelectWordsTranslated (Some (of_option language_id))) true ;;
      ret (lambda_response 200 result None).

(** The loop over the translations of a payload, shared by create and
    update: an entry whose [meaning] is truthy is inserted. *)
Fixpoint insert_translations (word_id : value) (entries : list value) : M unit :=
  match entries with
  | [] => ret tt
  | translation :: rest =>
      meaning <- lift (method_get translation "meaning" PNone) ;;
      (if truthy meaning then
         language_code <- lift (method_get translation "language_code" (PStr "en")) ;;
         meaning' <- lift (subscript translation "meaning") ;;
         execute_query (InsertTranslation word_id language_code meaning') true ;;
         ret tt
       else ret tt) ;;
      insert_translations word_id rest
  end.

Definition create_word (word_data : dict) : M response :=
  let required_fields := ["language_id"; "word"; "ipa"] in
  match first_missing required_fields word_data with
  | Some field =>
      ret (lambda_response 400 (error_body ("Missing required field: " ++ field)) None)
  | None =>
      language_id <- lift (item word_data "language_id") ;;
      denied <-
        (match dict_get word_data "user_id" with
         | Some user_id =>
             verify_result <- execute_query (SelectLanguageIdOwned language_id user_id)
                                true ;;
             ret (negb (truthy verify_result))
         | None => ret false
         end) ;;
      if (denied : bool) then
        ret (lambda_response 404 (error_body "Language not found or access denied") None)
      else
        let pos := get_or word_data "pos" (PList []) in
        let is_root := get_or word_data "is_root" (PBool false) in
        let embedding := get_or word_data "embedding" PNone in
        word <- lift (item word_data "word") ;;
        ipa <- lift (item word_data "ipa") ;;
        result <- execute_query (InsertWord language_id word ipa pos is_root embedding)
                    true ;;
        row <- lift (index0 result) ;;
        word_id <- lift (subscript row "id") ;;
        (match dict_get word_data "translations" with
         | Some translations =>
             entries <- lift (iterate translations) ;;
             insert_translations word_id entries
         | None => ret tt
         end) ;;
        row' <- lift (index0 result) ;;
        ret (lambda_response 201 row' None)
  end.

(** The SET list [update_word] builds, in the order of its tests. *)
Definition update_fields (word_data : dict) : list (string * value) :=
  (if dict_in "word" word_data
   then [("word", get_or word_data "word" PNone)] else []) ++
  (if dict_in "ipa" word_data
   then [("ipa", get_or word_data "ipa" PNone)] else []) ++
  (if dict_in "pos" word_data
   then [("pos", get_or word_data "pos" PNone)] else []) ++
  (if dict_in "is_root" word_data
   then [("is_root", get_or word_data "is_root" PNone)] else []) ++
  (if dict_in "embedding" word_data
   then [("embedding", get_or word_data "embedding" PNone)] else []).

Definition update_word (word_id : option string) (word_data : dict) : M response :=
  if negb (given word_id) then
    ret (lambda_response 400 (error_body "Word ID is required") None)
  else
    denied <-
      (match dict_get word_data "user_id" with
       | Some user_id =>
           verify_result <- execute_query (SelectWordIdOwned (of_option word_id) user_id)
                              true ;;
           ret (negb (truthy verify_result))
       | None => ret false
       end) ;;
    if (denied : bool) then
      ret (lambda_response 404 (error_body "Word not found or access denied") None)
    else
      match update_fields word_data with
      | [] => ret (lambda_response 400 (error_body "No fields to update") None)
      | (_ :: _) as fields =>
          result <- execute_query (UpdateWord fields (of_option word_id)) true ;;
          if negb (truthy result) then
            ret (lambda_response 404 (error_body "Word not found") None)
          else
            (match dict_get word_data "translations" with
             | Some translations =>
                 execute_query (DeleteTranslations (of_option word_id)) true ;;
                 entries <- lift (iterate translations) ;;
                 insert_translations (of_option word_id) entries
             | None => ret tt
             end) ;;
            row <- lift (index0 result) ;;
            ret (lambda_response 200 row None)
      end.

End Words.

(* ===================================================================== *)
(** ** migration.py *)
(* ===================================================================== *)

Module Migration.
Import Py Db Driver.
Local Open Scope py_scope.

(** An entry of [get_migrations]. *)
Record migration := {
  version : string;
  m_desc : string;
  sql : script }.

(** [MigrationRunner.get_db_connection]: [self.connection] is the open
    session of the world. *)
Definition get_db_connection : M unit :=
  fun w =>
    match session w with
    | Some _ => (Returned tt, w)
    | None =>
        if given (secret_arn w) then connect w
        else (Raised (ValueError "SECRET_ARN environment variable not set"), w)
    end.

Definition close_connection : M unit :=
  fun w =>
    match session w with
    | Some _ => connection_close w
    | None => (Returned tt, w)
    end.

Definition ensure_migrations_table : M unit :=
  get_db_connection ;;
  open_cursor ;;
  try_finally
    (try_except
       (cursor_execute CreateLedgerTable ;;
        connection_commit)
       (fun e => connection_rollback ;; raise e))
    cursor_close.

(** [[row[0] for row in rows]] *)
Fixpoint first_columns (rows : list (list value)) : outcome (list value) :=
  match rows with
  | [] => Returned []
  | row :: rest =>
      match index0 (PList row), first_columns rest with
      | Returned v, Returned vs => Returned (v :: vs)
      | Raised e, _ => Raised e
      | _, Raised e => Raised e
      end
  end.

Definition get_applied_migrations : M (list value) :=
  get_db_connection ;;
  open_cursor ;;
  try_finally
    (try_except
       (cursor_execute SelectVersions ;;
        rows <- cursor_fetchall ;;
        lift (first_columns rows))
       (fun e => ret []))
    cursor_close.

Definition get_migrations : list migration :=
  [ {| version := "20250101_120000";
       m_desc := "Initial PhaserAI database schema";
       sql := initial_schema_migration |};
    {| version := "20250102_143000";
       m_desc := "Add etymology and validation tables";
       sql := etymology_tables_migration |};
    {| version := "20250103_091500";
       m_desc := "Add user preferences table";
       sql := user_preferences_migration |} ].

(** [x in l] on a list, by [==]. *)
Definition contains (l : list value) (x : value) : bool := existsb (py_eq x) l.

Definition get_pending_migrations : M (list migration) :=
  let all_migrations := get_migrations in
  applied_versions <- get_applied_migrations ;;
  ret (filter (fun m => negb (contains applied_versions (PStr (version m))))
         all_migrations).

(** The milliseconds between [start_time] and the end of the script. *)
Definition elapsed : M Z :=
  fun w => match timings w with
           | [] => (Returned 0%Z, w)
           | t :: rest => (Returned t, with_timings w rest)
           end.

Definition apply_migration (m : migration) : M Z :=
  get_db_connection ;;
  open_cursor ;;
  try_finally
    (try_except
       (cursor_execute (RunScript (sql m)) ;;
        execution_time <- elapsed ;;
        cursor_execute (UpsertLedger (PStr (version m)) (PInt execution_time)
                          (PStr (m_desc m))) ;;
        connection_commit ;;
        ret execution_time)
       (fun e => connection_rollback ;; raise e))
    cursor_close.

(** The entry [run_migrations] appends for an applied migration. *)
Definition applied_entry (m : migration) (execution_time : Z) : value :=
  PDict [("version", PStr (version m)); ("description", PStr (m_desc m));
         ("execution_time_ms", PInt execution_time)].

(** The loop [for migration in pending] with its two accumulators. *)
Fixpoint apply_each (pending : list migration) (applied_migrations : list value)
  (total_time : Z) : M (list value * Z) :=
  match pending with
  | [] => ret (applied_migrations, total_time)
  | m :: rest =>
      execution_time <- apply_migration m ;;
      apply_each rest (applied_migrations ++ [applied_entry m execution_time])
        (total_time + execution_time)%Z
  end.

Definition count_text (n : nat) : string := NilEmpty.string_of_uint (Nat.to_uint n).

Definition failure (e : exn) : value :=
  PDict [("success", PBool false);
         ("message", PStr ("Migration failed: " ++ str_of_exn e));
         ("error", PStr (str_of_exn e))].

Definition run_migrations : M value :=
  try_except
    (ensure_migrations_table ;;
     pending <- get_pending_migrations ;;
     match pending with
     | [] =>
         ret (PDict [("success", PBool true);
                     ("message", PStr "No pending migrations");
                     ("applied_count", PInt 0);
                     ("applied_migrations", PList [])])
     | _ :: _ =>
         done <- apply_each pending [] 0%Z ;;
         let applied_migrations := fst done in
         let total_time := snd done in
         ret (PDict [("success", PBool true);
                     ("message",
                      PStr ("Applied " ++ count_text (length applied_migrations)
                              ++ " migration(s)"));
                     ("applied_count", PInt (Z.of_nat (length applied_migrations)));
                     ("applied_migrations", PList applied_migrations);
                     ("total_execution_time_ms", PInt total_time)])
     end)
    (fun e => ret (failure e)).

Definition get_status : M value :=
  try_except
    (ensure_migrations_table ;;
     let all_migrations := get_migrations in
     applied <- get_applied_migrations ;;
     pending <- get_pending_migrations ;;
     ret (PDict [("success", PBool true);
                 ("total_migrations", PInt (Z.of_nat (length all_migrations)));
                 ("applied_count", PInt (Z.of_nat (length applied)));
                 ("pending_count", PInt (Z.of_nat (length pending)));
                 ("applied_migrations", PList applied);
                 ("pending_migrations", PList (map (fun m => PStr (version m)) pending))]))
    (fun e => ret (PDict [("success", PBool false); ("error", PStr (str_of_exn e))])).

End Migration.

(* ===================================================================== *)
(** ** Vocabulary of the properties *)
(* ===================================================================== *)

Module Spec.
Import Py Db Driver DbUtils.

(** The environment of a call is in order: SECRET_ARN is set, and nothing
    the program does not control fails. *)
Definition available (w : world) : Prop :=
  given (secret_arn w) = true /\ faults w = [].




(** [user_id] owns the language of a word row with this id. *)
Definition owns_word (d : database) (user_id word_id : string) : bool :=
  existsb
    (fun w =>
       String.eqb (w_id w) word_id &&
       existsb (fun l => String.eqb (l_id l) (w_language_id w) &&
                         String.eqb (l_user_id l) user_id) (languages d))
    (words d).

Definition client_error (msg : string) : response :=
  lambda_response 400 (error_body msg) None.






(** A field is the first of [fields] that [data] lacks. *)
Definition first_absent (fields : list string) (data : dict) (field : string) : Prop :=
  exists before after,
    fields = before ++ field :: after /\
    (forall g, In g before -> dict_in g data = true) /\
    dict_in field data = false.

(** None of the listed keys is in the body. *)
Definition none_of (fields : list string) (data : dict) : Prop :=
  forall f, In f fields -> dict_in f data = false.

(** The call is an UPDATE, INSERT or DELETE on the entity tables. *)
Definition is_write (c : call) : bool :=
  match c with
  | Execute (InsertWord _ _ _ _ _ _) | Execute (InsertTranslation _ _ _)
  | Execute (UpdateWord _ _) | Execute (DeleteTranslations _)
  | Execute (InsertLanguage _ _ _ _ _ _) | Execute (UpdateLanguage _ _)
  | Execute (UpsertUser _ _ _) | Execute (UpdateUser _ _) => true
  | _ => false
  end.

(** The versions a ledger records. *)
Definition recorded (d : database) : list string :=
  match schema_migrations d with
  | Some rows => map m_version rows
  | None => []
  end.

Definition is_recorded (d : database) (v : string) : bool :=
  existsb (String.eqb v) (recorded d).

(** The known migrations whose version the ledger does not record. *)
Definition unrecorded (d : database) : list Migration.migration :=
  filter (fun m => negb (is_recorded d (Migration.version m))) Migration.get_migrations.

(** The head of a fault plan and what is left of it. *)
Definition step (plan : list (option exn)) : option exn * list (option exn) :=
  match plan with
  | [] => (None, [])
  | x :: rest => (x, rest)
  end.

(** The world after a call that opened and closed its own connection:
    database [d] committed, [plan] left of the faults, [cs] logged. *)
Definition finished (w : world) (d : database) (plan : list (option exn))
  (cs : list call) : world :=
  {| store := d; session := None; cur := None; secret_arn := secret_arn w;
     faults := plan; timings := timings w; calls := calls w ++ cs |}.

(** The records [execute_query] builds from a result set. *)
Definition records (columns : list string) (rows : list (list value)) : value :=
  PList (map (fun row => PDict (zip_dict columns row)) rows).

End Spec.

(* ===================================================================== *)
(** ** Vocabulary of the migration runner's properties *)
(* ===================================================================== *)

Module RunnerSpec.
Import Py Db Driver Spec Migration.

(** Everything the open connection has seen is committed. *)
Definition synced (w : world) : Prop :=
  session w = None \/ session w = Some (store w).

(** The runner holds a connection on database [d], all of it committed, with
    [ts] the timings and [plan] the faults still to come. *)
Definition runner_at (w : world) (d : database) (ts : list Z)
  (plan : list (option exn)) : Prop :=
  given (secret_arn w) = true /\ session w = Some d /\ store w = d /\
  timings w = ts /\ faults w = plan.

(** CREATE TABLE IF NOT EXISTS on the ledger. *)
Definition ensured (d : database) : database :=
  match schema_migrations d with
  | Some _ => d
  | None => with_ledger d (Some [])
  end.

(** The database after migration [m] ran in [t] milliseconds on a ledger
    holding [rows]. *)
Definition record_migration (d : database) (rows : list ledger_row)
  (m : migration) (t : Z) : database :=
  tick (with_ledger (with_script d (sql m))
          (Some (ledger_upsert rows (version m) t (m_desc m) (clock d)))).

(** The runner can work on database [d]: a connection on it is held, or none
    is and one can be made; nothing is left to fail. *)
Definition runner_ready (w : world) (d : database) (ts : list Z) : Prop :=
  given (secret_arn w) = true /\ (session w = None \/ session w = Some d) /\
  store w = d /\ timings w = ts /\ faults w = [].

(** What the loop of [run_migrations] leaves and reports for [ms] run with
    timings [ts]. *)
Fixpoint record_all (d : database) (ms : list migration) (ts : list Z) : database :=
  match ms with
  | [] => d
  | m :: rest =>
      match schema_migrations d with
      | Some rows => record_all (record_migration d rows m (hd 0%Z ts)) rest (tl ts)
      | None => d
      end
  end.

Fixpoint entries (ms : list migration) (ts : list Z) : list value :=
  match ms with
  | [] => []
  | m :: rest => applied_entry m (hd 0%Z ts) :: entries rest (tl ts)
  end.

Fixpoint total (ms : list migration) (ts : list Z) : Z :=
  match ms with
  | [] => 0%Z
  | _ :: rest => (hd 0%Z ts + total rest (tl ts))%Z
  end.

(** The versions the SELECT returns, in its order. *)
Definition versions_read (rows : list ledger_row) : list value :=
  map PStr (sort_by String.leb (map m_version rows)).

(** With a connection held and the ledger there, the read returns the
    recorded versions in order. *)

(** What [run_migrations] reports when it applied [ms] with timings [ts]. *)
Definition run_report (ms : list migration) (ts : list Z) : value :=
  match ms with
  | [] =>
      PDict [("success", PBool true);
             ("message", PStr "No pending migrations");
             ("applied_count", PInt 0);
             ("applied_migrations", PList [])]
  | _ :: _ =>
      PDict [("success", PBool true);
             ("message",
              PStr ("Applied " ++ count_text (length (entries ms ts)) ++ " migration(s)"));
             ("applied_count", PInt (Z.of_nat (length (entries ms ts))));
             ("applied_migrations", PList (entries ms ts));
             ("total_execution_time_ms", PInt (total ms ts))]
  end.

(** What [get_status] reports on database [d]. *)
Definition status_report (d : database) : value :=
  PDict [("success", PBool true);
         ("total_migrations", PInt (Z.of_nat (length get_migrations)));
         ("applied_count", PInt (Z.of_nat (length (recorded d))));
         ("pending_count", PInt (Z.of_nat (length (unrecorded d))));
         ("applied_migrations", PList (map PStr (sort_by String.leb (recorded d))));
         ("pending_migrations", PList (map (fun m => PStr (version m)) (unrecorded d)))].

End RunnerSpec.

(* ===================================================================== *)
(** ** Sample data *)
(* ===================================================================== *)

(** A small database and a few requests, used where a property is run on a
    concrete input. *)
Module Sample.
Import Py Db Driver DbUtils.

Definition alice : user_row :=
  {| u_user_id := "alice"; u_email := "alice@example.org"; u_username := "alice";
     u_created_at := 0 |}.

Definition mallory : user_row :=
  {| u_user_id := "mallory"; u_email := "mallory@example.org"; u_username := "mallory";
     u_created_at := 1 |}.

Definition quenya : language_row :=
  {| l_id := "L1"; l_user_id := "alice"; l_name := "Quenya";
     l_phonemes := Languages.default_phonemes;
     l_alphabet_mappings := Languages.default_alphabet_mappings;
     l_syllables := "CV"; l_rules := EmptyString; l_created_at := 2 |}.

Definition melme : word_row :=
  {| w_id := "W1"; w_language_id := "L1"; w_word := "melme"; w_ipa := "melme";
     w_pos := ["noun"]; w_is_root := true; w_embedding := PNone; w_created_at := 3 |}.

Definition translation_a : translation_row :=
  {| t_id := "TA"; t_word_id := "W1"; t_language_code := "en"; t_meaning := "A";
     t_created_at := 4 |}.

Definition translation_b : translation_row :=
  {| t_id := "TB"; t_word_id := "W1"; t_language_code := "en"; t_meaning := "B";
     t_created_at := 5 |}.

Definition data : database :=
  {| users := [alice; mallory]; languages := [quenya]; words := [melme];
     translations := [translation_a; translation_b];
     schema_migrations := None; scripts_run := []; clock := 6 |}.


Definition world_of (d : database) (plan : list (option exn)) : world :=
  {| store := d; session := None; cur := None; secret_arn := Some "arn:secret";
     faults := plan; timings := []; calls := [] |}.

Definition start : world := world_of data [].


(** The ledger with the first two migrations recorded. *)
Definition two_recorded : list ledger_row :=
  [ {| m_version := "20250101_120000"; m_applied_at := 1; m_execution_time_ms := 12;
       m_description := "Initial PhaserAI database schema" |};
    {| m_version := "20250102_143000"; m_applied_at := 2; m_execution_time_ms := 7;
       m_description := "Add etymology and validation tables" |} ].

Definition all_recorded : list ledger_row :=
  two_recorded ++
  [ {| m_version := "20250103_091500"; m_applied_at := 3; m_execution_time_ms := 5;
       m_description := "Add user preferences table" |} ].

Definition migrated (rows : option (list ledger_row)) (ran : list script) : database :=
  {| users := []; languages := []; words := []; translations := [];
     schema_migrations := rows; scripts_run := ran; clock := 10 |}.

Definition first_migration : Migration.migration :=
  {| Migration.version := "20250101_120000";
     Migration.m_desc := "Initial PhaserAI database schema";
     Migration.sql := initial_schema_migration |}.

Definition second_migration : Migration.migration :=
  {| Migration.version := "20250102_143000";
     Migration.m_desc := "Add etymology and validation tables";
     Migration.sql := etymology_tables_migration |}.

Definition third_migration : Migration.migration :=
  {| Migration.version := "20250103_091500";
     Migration.m_desc := "Add user preferences table";
     Migration.sql := user_preferences_migration |}.

(** A new runner on a database where the first two migrations are applied. *)
Definition two_applied : world :=
  world_of (migrated (Some two_recorded)
              [initial_schema_migration; etymology_tables_migration]) [].

(** A new runner on a fully migrated database. *)
Definition all_applied : world :=
  world_of (migrated (Some all_recorded)
              [initial_schema_migration; etymology_tables_migration;
               user_preferences_migration]) [].

Definition server_gone : exn := OperationalError "server closed the connection".

(** A new runner on a fully migrated database whose ledger read will fail:
    connecting, creating the table and committing succeed, the SELECT raises. *)
Definition all_applied_read_fails : world :=
  world_of (migrated (Some all_recorded)
              [initial_schema_migration; etymology_tables_migration;
               user_preferences_migration])
    [None; None; None; Some server_gone].

Definition bad_script : exn := ProgrammingError "syntax error in migration script".

(** A new runner on an empty database where the second migration's script
    will fail: the seven calls before it succeed. *)
Definition second_fails : world :=
  world_of (migrated None [])
    [None; None; None; None; None; None; None; Some bad_script].

End Sample.

(* ===================================================================== *)
(** ** migration.py: the Lambda entry point *)
(* ===================================================================== *)

Module MigrationEntry.
Import Py Db Driver Migration.

(** A PUT request that went through: its URL and the document sent as its
    body (the value [json.dumps] writes out). *)
Record request := {
  url : value;
  payload : value }.

(** What an invocation works on: the database side, the PUT requests made
    so far (oldest first), and what the next requests meet (an error to
    raise, or [None] for success; past the end all succeed). *)
Record site := {
  db : world;
  http_faults : list (option exn);
  requests : list request }.

Definition Act (A : Type) : Type := site -> outcome A * site.

Definition unit_h {A : Type} (a : A) : Act A := fun s => (Returned a, s).

Definition bind_h {A B : Type} (c : Act A) (k : A -> Act B) : Act B :=
  fun s => match c s with
           | (Returned a, s') => k a s'
           | (Raised e, s') => (Raised e, s')
           end.

(** A step of the runner, made on the database side. *)
Definition on_db {A : Type} (c : M A) : Act A :=
  fun s => match c (db s) with
           | (o, w') => (o, {| db := w'; http_faults := http_faults s;
                               requests := requests s |})
           end.

Definition lift_h {A : Type} (o : outcome A) : Act A := fun s => (o, s).

(** [try: c  except Exception as e: h e] *)
Definition try_except_h {A : Type} (c : Act A) (h : exn -> Act A) : Act A :=
  fun s => match c s with
           | (Returned a, s') => (Returned a, s')
           | (Raised e, s') => h e s'
           end.

(** [try: c  finally: f] *)
Definition try_finally_h {A : Type} (c : Act A) (f : Act unit) : Act A :=
  fun s => match c s with
           | (o, s') =>
               match f s' with
               | (Returned _, s'') => (o, s'')
               | (Raised e, s'') => (Raised e, s'')
               end
           end.

(** [http.request('PUT', url, body=..., headers=...)] *)
Definition http_put (target : value) (document : value) : Act unit :=
  fun s =>
    match http_faults s with
    | Some e :: rest =>
        (Raised e, {| db := db s; http_faults := rest; requests := requests s |})
    | plan =>
        (Returned tt,
         {| db := db s; http_faults := tl plan;
            requests := requests s ++ [{| url := target; payload := document |}] |})
    end.

(** [MigrationRunner()]: a runner without a connection. *)
Definition new_runner : M unit :=
  fun w => (Returned tt, with_session w None).

Definition send_cfn_response (event : dict) (log_stream_name : string) (status : string)
  (response_data : value) : Act unit :=
  bind_h (lift_h (item event "StackId")) (fun stack_id =>
  bind_h (lift_h (item event "RequestId")) (fun request_id =>
  bind_h (lift_h (item event "LogicalResourceId")) (fun logical_resource_id =>
  let response_body :=
    PDict [("Status", PStr status);
           ("Reason", PStr ("See CloudWatch Log Stream: " ++ log_stream_name));
           ("PhysicalResourceId", PStr log_stream_name);
           ("StackId", stack_id);
           ("RequestId", request_id);
           ("LogicalResourceId", logical_resource_id);
           ("Data", response_data)] in
  try_except_h
    (bind_h (lift_h (item event "ResponseURL")) (fun target =>
     http_put target response_body))
    (fun _ => unit_h tt)))).

Section Handler.
(** [str(v)] inside an f-string, for a value that is not a string. *)
Variable render : value -> string.

Definition format_value (v : value) : string :=
  match v with
  | PStr s => s
  | _ => render v
  end.

Definition handler (event : dict) (log_stream_name : string) : Act value :=
  bind_h (on_db new_runner) (fun _ =>
  try_finally_h
    (try_except_h
       (let request_type := get_or event "RequestType" PNone in
        if contains [PStr "Create"; PStr "Update"] request_type then
          bind_h (on_db run_migrations) (fun result =>
          bind_h (if dict_in "ResponseURL" event
                  then send_cfn_response event log_stream_name "SUCCESS" result
                  else unit_h tt) (fun _ =>
          unit_h result))
        else if py_eq request_type (PStr "Delete") then
          bind_h (if dict_in "ResponseURL" event
                  then send_cfn_response event log_stream_name "SUCCESS"
                         (PDict [("message", PStr "No action taken on stack deletion")])
                  else unit_h tt) (fun _ =>
          unit_h (PDict [("success", PBool true); ("message", PStr "No action taken")]))
        else
          let action := get_or event "action" (PStr "up") in
          if py_eq action (PStr "up") then on_db run_migrations
          else if py_eq action (PStr "status") then on_db get_status
          else unit_h (PDict [("success", PBool false);
                              ("error", PStr ("Unknown action: " ++ format_value action))]))
       (fun e =>
          let error_result := PDict [("success", PBool false); ("error", PStr (str_of_exn e))] in
          bind_h (if dict_in "ResponseURL" event
                  then send_cfn_response event log_stream_name "FAILED" error_result
                  else unit_h tt) (fun _ =>
          unit_h error_result)))
    (on_db close_connection)).
End Handler.

End MigrationEntry.

(* ===================================================================== *)
(** ** The entry points of users.py, languages.py and words.py *)
(* ===================================================================== *)

(** What the three [handler]s share: the event as API Gateway's proxy
    integration builds it, and what the functions of a resource do with a
    body that is not a JSON object. *)
Module Gateway.
Import Py Db Driver DbUtils.
Local Open Scope py_scope.

(** The proxy event: the method and the resource are strings, each
    parameter map is null or maps names to strings, the body is whatever the
    event carries.  [None] is a key the event does not have (or, for the
    maps, null). *)
Record proxy_event := {
  method : option string;
  route : option string;
  path : option (list (string * string));
  query : option (list (string * string));
  raw_body : option value }.

Definition strings (m : list (string * string)) : value :=
  PDict (map (fun kv => (fst kv, PStr (snd kv))) m).

(** The event as the functions of db_utils.py see it. *)
Definition to_event (e : proxy_event) : event :=
  {| httpMethod := method e; resource := route e;
     pathParameters := option_map strings (path e);
     queryStringParameters := option_map strings (query e);
     ev_body := raw_body e |}.

(** [event.get(key) or {}] on a parameter map. *)
Definition params (m : option (list (string * string))) : list (string * string) :=
  match m with
  | Some l => l
  | None => []
  end.

(** [event['httpMethod']] *)
Definition http_method (e : proxy_event) : outcome string :=
  match method e with
  | Some m => Returned m
  | None => Raised (KeyError "httpMethod")
  end.

(** [event.get('resource', '')] *)
Definition resource_path (e : proxy_event) : string :=
  match route e with
  | Some r => r
  | None => EmptyString
  end.

(** [needle in hay] on strings *)
Fixpoint occurs (needle hay : string) : bool :=
  (String.prefix needle hay ||
   match hay with
   | EmptyString => false
   | String _ rest => occurs needle rest
   end)%bool.

(** [k in v] for a string [k]: a key of a mapping, an item of a list, a
    part of a string; other values are not iterable. *)
Definition member (k : string) (v : value) : outcome bool :=
  match v with
  | PDict d => Returned (dict_in k d)
  | PList l => Returned (existsb (py_eq (PStr k)) l)
  | PStr s => Returned (occurs k s)
  | _ => Raised (TypeError "argument is not iterable")
  end.

(** The first of [fields] that is not in [v]: the loop over the required
    fields. *)
Fixpoint first_not_in (fields : list string) (v : value) : outcome (option string) :=
  match fields with
  | [] => Returned None
  | field :: rest =>
      match member field v with
      | Raised e => Raised e
      | Returned true => first_not_in rest v
      | Returned false => Returned (Some field)
      end
  end.

(** The first of [fields] that is in [v]: the tests that build the SET
    list. *)
Fixpoint first_in (fields : list string) (v : value) : outcome (option string) :=
  match fields with
  | [] => Returned None
  | field :: rest =>
      match member field v with
      | Raised e => Raised e
      | Returned true => Returned (Some field)
      | Returned false => first_in rest v
      end
  end.

(** [v[k]] on a list or a string *)
Definition no_string_index : exn := TypeError "indices must be integers".

(** [v.get(k)] on a list or a string *)
Definition no_get : exn := AttributeError "object has no attribute get".

(** A creating function on a body that is not a mapping: the loop over
    the required fields, then the error of the first statement that needs a
    mapping. *)
Definition create_other (required_fields : list string) (then_raises : value -> exn)
  (v : value) : M response :=
  missing <- lift (first_not_in required_fields v) ;;
  match missing with
  | Some field =>
      ret (lambda_response 400 (error_body ("Missing required field: " ++ field)) None)
  | None => raise (then_raises v)
  end.

(** An updating function on a body that is not a mapping, after its test
    of the id: the first field found is read with [v[field]]. *)
Definition update_other (fields : list string) (v : value) : M response :=
  found <- lift (first_in fields v) ;;
  match found with
  | Some _ => raise no_string_index
  | None => ret (lambda_response 400 (error_body "No fields to update") None)
  end.

End Gateway.

Module UsersEntry.
Import Py Db Driver DbUtils Gateway.
Local Open Scope py_scope.

(** [create_or_update_user] on any decoded body. *)
Definition create_or_update_user (user_data : value) : M response :=
  match user_data with
  | PDict d => Users.create_or_update_user d
  | _ => create_other ["user_id"; "email"; "username"] (fun _ => no_string_index) user_data
  end.

(** [update_user] on any decoded body. *)
Definition update_user (user_id : option string) (user_data : value) : M response :=
  match user_data with
  | PDict d => Users.update_user user_id d
  | _ =>
      if negb (given user_id) then
        ret (lambda_response 400 (error_body "User ID is required") None)
      else update_other ["email"; "username"] user_data
  end.

Section Handler.
(** [get_user], whose query is not modelled. *)
Variable get_user : option string -> M response.

Definition handler (e : proxy_event) : M response :=
  try_except
    (http_method <- lift (http_method e) ;;
     let path_params := params (path e) in
     if String.eqb http_method "GET" then
       get_user (Words.param path_params "userId")
     else if String.eqb http_method "POST" then
       body <- lift (extract_body (to_event e)) ;;
       create_or_update_user body
     else if String.eqb http_method "PUT" then
       body <- lift (extract_body (to_event e)) ;;
       update_user (Words.param path_params "userId") body
     else ret (lambda_response 405 (error_body "Method not allowed") None))
    (fun e => ret (lambda_response 500 (error_body (str_of_exn e)) None)).
End Handler.

End UsersEntry.

Module LanguagesEntry.
Import Py Db Driver DbUtils Gateway.
Local Open Scope py_scope.

(** [create_language] on any decoded body. *)
Definition create_language (language_data : value) : M response :=
  match language_data with
  | PDict d => Languages.create_language d
  | _ => create_other ["user_id"; "name"] (fun _ => no_get) language_data
  end.

(** [update_language] on any decoded body. *)
Definition update_language (language_id : option string) (language_data : value)
  : M response :=
  match language_data with
  | PDict d => Languages.update_language language_id d
  | _ =>
      if negb (given language_id) then
        ret (lambda_response 400 (error_body "Language ID is required") None)
      else
        update_other ["name"; "phonemes"; "alphabet_mappings"; "syllables"; "rules"]
          language_data
  end.

Section Handler.
(** The functions whose queries are not modelled. *)
Variable get_languages : list (string * string) -> M response.
Variable get_user_languages : option string -> M response.
Variable get_language : option string -> option string -> M response.
Variable delete_language : option string -> option string -> M response.

Definition handler (e : proxy_event) : M response :=
  try_except
    (http_method <- lift (http_method e) ;;
     let path_params := params (path e) in
     let query_params := params (query e) in
     let resource_path := resource_path e in
     if String.eqb http_method "GET" then
       if occurs "/users/{userId}/languages" resource_path then
         get_user_languages (Words.param path_params "userId")
       else if occurs "{languageId}" resource_path then
         get_language (Words.param path_params "languageId")
           (Words.param query_params "userId")
       else get_languages query_params
     else if String.eqb http_method "POST" then
       body <- lift (extract_body (to_event e)) ;;
       create_language body
     else if String.eqb http_method "PUT" then
       body <- lift (extract_body (to_event e)) ;;
       update_language (Words.param path_params "languageId") body
     else if String.eqb http_method "DELETE" then
       delete_language (Words.param path_params "languageId")
         (Words.param query_params "userId")
     else ret (lambda_response 405 (error_body "Method not allowed") None))
    (fun e => ret (lambda_response 500 (error_body (str_of_exn e)) None)).
End Handler.

End LanguagesEntry.

Module WordsEntry.
Import Py Db Driver DbUtils Gateway.
Local Open Scope py_scope.

(** [create_word] on any decoded body: after the required fields, a body
    that holds [user_id] is read with [word_data['language_id']], another
    with [word_data.get('pos', [])]. *)
Definition create_word (word_data : value) : M response :=
  match word_data with
  | PDict d => Words.create_word d
  | _ =>
      create_other ["language_id"; "word"; "ipa"]
        (fun v => match member "user_id" v with
                  | Returned true => no_string_index
                  | Returned false => no_get
                  | Raised e => e
                  end) word_data
  end.

(** [update_word] on any decoded body: [user_id] is looked for first. *)
Definition update_word (word_id : option string) (word_data : value) : M response :=
  match word_data with
  | PDict d => Words.update_word word_id d
  | _ =>
      if negb (given word_id) then
        ret (lambda_response 400 (error_body "Word ID is required") None)
      else
        update_other ["user_id"; "word"; "ipa"; "pos"; "is_root"; "embedding"] word_data
  end.

Section Handler.
(** The functions whose queries are not modelled. *)
Variable get_word : option string -> option string -> M response.
Variable delete_word : option string -> option string -> M response.

Definition handler (e : proxy_event) : M response :=
  try_except
    (http_method <- lift (http_method e) ;;
     let path_params := params (path e) in
     let query_params := params (query e) in
     let resource_path := resource_path e in
     if String.eqb http_method "GET" then
       if occurs "/languages/{languageId}/words" resource_path then
         Words.get_language_words (Words.param path_params "languageId")
           (Words.param query_params "userId")
       else if occurs "{wordId}" resource_path then
         get_word (Words.param path_params "wordId") (Words.param query_params "userId")
       else Words.get_words query_params
     else if String.eqb http_method "POST" then
       body <- lift (extract_body (to_event e)) ;;
       create_word body
     else if String.eqb http_method "PUT" then
       body <- lift (extract_body (to_event e)) ;;
       update_word (Words.param path_params "wordId") body
     else if String.eqb http_method "DELETE" then
       delete_word (Words.param path_params "wordId") (Words.param query_params "userId")
     else ret (lambda_response 405 (error_body "Method not allowed") None))
    (fun e => ret (lambda_response 500 (error_body (str_of_exn e)) None)).
End Handler.

End WordsEntry.

(* ===================================================================== *)
(** ** Vocabulary of the handlers' effects *)
(* ===================================================================== *)

Module Effects.
Import Py Db Driver DbUtils Spec.

Definition language_identity (l : language_row) : string * string * nat :=
  (l_id l, l_user_id l, l_created_at l).

Definition word_identity (w : word_row) : string * string * nat :=
  (w_id w, w_language_id w, w_created_at w).

Definition user_identity (u : user_row) : string * nat :=
  (u_user_id u, u_created_at u).

(** Whatever world it starts in, [c] leaves a database that satisfies [P] if
    it started on one. *)
Definition preserves {A : Type} (P : database -> Prop) (c : M A) : Prop :=
  forall w, P (store w) -> P (store (snd (c w))).

(** The statement is a SELECT. *)
Definition reads_only (q : statement) : bool :=
  match q with
  | SelectLanguageIdOwned _ _ | SelectWordsTranslated _ | SelectWordIdOwned _ _
  | SelectLanguageOwner _ | SelectVersions => true
  | _ => false
  end.

(** The tables other than [languages] are the same in both databases. *)
Definition same_but_languages (d d' : database) : Prop :=
  users d' = users d /\ words d' = words d /\ translations d' = translations d /\
  schema_migrations d' = schema_migrations d /\ scripts_run d' = scripts_run d.

Definition same_but_words (d d' : database) : Prop :=
  users d' = users d /\ languages d' = languages d /\ translations d' = translations d /\
  schema_migrations d' = schema_migrations d /\ scripts_run d' = scripts_run d.

Definition same_but_users (d d' : database) : Prop :=
  languages d' = languages d /\ words d' = words d /\ translations d' = translations d /\
  schema_migrations d' = schema_migrations d /\ scripts_run d' = scripts_run d.

(** Started on a database that satisfies [P], [c] leaves one that satisfies
    [Q], whether it returns or raises. *)
Definition leaves {A : Type} (P : database -> Prop) (c : M A) (Q : database -> Prop)
  : Prop :=
  forall w, P (store w) -> Q (store (snd (c w))).


(** The record a handler returns for a row of [users]. *)
Definition user_record (u : user_row) : value := PDict (zip_dict user_columns (user_tuple u)).

Definition language_record (l : language_row) : value :=
  PDict (zip_dict language_columns (language_tuple l)).

Definition word_record (x : word_row) : value :=
  PDict (zip_dict word_columns (word_tuple x)).

(** There is a user row with this id. *)
Definition user_exists (d : database) (user_id : string) : bool :=
  existsb (fun u => String.eqb (u_user_id u) user_id) (users d).

(** UNIQUE (email) holds: rows with the same email are rows of one user. *)
Definition unique_emails (d : database) : Prop :=
  forall u u', In u (users d) -> In u' (users d) -> u_email u = u_email u' ->
               u_user_id u = u_user_id u'.

(** The text a body gives for a column, or the current one. *)
Definition text_or (data : dict) (k : string) (current : string) : string :=
  match dict_get data k with
  | Some (PStr s) => s
  | _ => current
  end.

(** A user row with the fields of the body written over it. *)
Definition amended_user (data : dict) (u : user_row) : user_row :=
  {| u_user_id := u_user_id u; u_email := text_or data "email" (u_email u);
     u_username := text_or data "username" (u_username u);
     u_created_at := u_created_at u |}.

(** The body gives a string for the key, if it has it. *)
Definition text_if_present (data : dict) (k : string) : Prop :=
  forall v, dict_get data k = Some v -> exists s, v = PStr s.






(** The column values a body gives, or the current ones. *)
Definition texts_or (data : dict) (k : string) (current : list string) : list string :=
  match dict_get data k with
  | Some v => match as_text_array v with Some p => p | None => current end
  | None => current
  end.

Definition bool_or (data : dict) (k : string) (current : bool) : bool :=
  match dict_get data k with
  | Some (PBool b) => b
  | _ => current
  end.

Definition floats_or (data : dict) (k : string) (current : value) : value :=
  match dict_get data k with
  | Some v => match as_float_array v with Some e => e | None => current end
  | None => current
  end.

(** A word row with the fields of the body written over it. *)
Definition amended_word (data : dict) (x : word_row) : word_row :=
  {| w_id := w_id x; w_language_id := w_language_id x;
     w_word := text_or data "word" (w_word x);
     w_ipa := text_or data "ipa" (w_ipa x);
     w_pos := texts_or data "pos" (w_pos x);
     w_is_root := bool_or data "is_root" (w_is_root x);
     w_embedding := floats_or data "embedding" (w_embedding x);
     w_created_at := w_created_at x |}.

(** The values the body gives for the columns of a word have the types of
    the columns. *)
Definition word_fields_typed (data : dict) : Prop :=
  text_if_present data "word" /\ text_if_present data "ipa" /\
  (forall v, dict_get data "pos" = Some v -> exists p, as_text_array v = Some p) /\
  (forall v, dict_get data "is_root" = Some v -> exists b, v = PBool b) /\
  (forall v, dict_get data "embedding" = Some v -> exists e, as_float_array v = Some e).

(** The word row with this id, if there is one. *)
Definition word_row_of (d : database) (word_id : string) : option word_row :=
  find (fun x => String.eqb (w_id x) word_id) (words d).

(** The answer of a handler to an exception. *)
Definition server_error (e : exn) : response :=
  lambda_response 500 (error_body (str_of_exn e)) None.

Definition method_not_allowed : response :=
  lambda_response 405 (error_body "Method not allowed") None.

(** The decoded body is not a JSON object. *)
Definition not_an_object (v : value) : Prop := forall d, v <> PDict d.

(** No call was made: the world is as before, and the answer is a 400 or a
    500. *)
Definition turned_away (r : outcome response * world) (w : world) : Prop :=
  snd r = w /\
  exists resp, fst r = Returned resp /\ (statusCode resp = 400%Z \/ statusCode resp = 500%Z).

End Effects.

(* ===================================================================== *)
(** ** Sample requests *)
(* ===================================================================== *)

Module Requests.
Import Py Db Driver MigrationEntry.

(** A custom-resource event of CloudFormation. *)
Definition stack_event (request_type : string) : dict :=
  [("RequestType", PStr request_type);
   ("ResponseURL", PStr "https://cloudformation.example/response");
   ("StackId", PStr "stack-1");
   ("RequestId", PStr "request-1");
   ("LogicalResourceId", PStr "Migrations")].

(** The same event without its [StackId]. *)
Definition stack_event_without_stack (request_type : string) : dict :=
  [("RequestType", PStr request_type);
   ("ResponseURL", PStr "https://cloudformation.example/response");
   ("RequestId", PStr "request-1");
   ("LogicalResourceId", PStr "Migrations")].

Definition site_of (w : world) : site :=
  {| db := w; http_faults := []; requests := [] |}.

(** A stand-in for [str] on values that are not strings. *)
Definition plain (v : value) : string := "?".

End Requests.

Module Calls.
Import Py Db Driver DbUtils Gateway.

(** A JSON string literal (of a text without quotes or backslashes). *)
Definition quoted (s : string) : string :=
  String Json.dquote (s ++ String Json.dquote EmptyString).

(** A PUT on /words/W1 with a JSON body. *)
Definition put_word (text : string) : proxy_event :=
  {| method := Some "PUT"; route := Some "/words/{wordId}";
     path := Some [("wordId", "W1")]; query := None; raw_body := Some (PStr text) |}.

(** A POST with a JSON body. *)
Definition post (resource : string) (text : string) : proxy_event :=
  {| method := Some "POST"; route := Some resource; path := None; query := None;
     raw_body := Some (PStr text) |}.

(** The body [{"ipa": "melme", "translations": [{"meaning": "love"}]}]. *)
Definition ipa_and_translations : string :=
  "{" ++ quoted "ipa" ++ ": " ++ quoted "melme" ++ ", " ++ quoted "translations" ++
  ": [{" ++ quoted "meaning" ++ ": " ++ quoted "love" ++ "}]}".


(** The body [{"user_id": "mallory", "email": "alice@example.org",
    "username": "mallory"}]: the email of another user. *)
Definition taken_email : string :=
  "{" ++ quoted "user_id" ++ ": " ++ quoted "mallory" ++ ", " ++
  quoted "email" ++ ": " ++ quoted "alice@example.org" ++ ", " ++
  quoted "username" ++ ": " ++ quoted "mallory" ++ "}".

(** The body [{"user_id": "nobody", "name": "Khuzdul"}]. *)
Definition language_of_nobody : string :=
  "{" ++ quoted "user_id" ++ ": " ++ quoted "nobody" ++ ", " ++
  quoted "name" ++ ": " ++ quoted "Khuzdul" ++ "}".

(** A stand-in for a function whose query is not modelled. *)
Definition unmodelled1 (a : option string) : M response :=
  ret (lambda_response 200 PNone None).

Definition unmodelled2 (a b : option string) : M response :=
  ret (lambda_response 200 PNone None).

Definition unmodelled_list (q : list (string * string)) : M response :=
  ret (lambda_response 200 PNone None).

End Calls.

(* ===================================================================== *)
(** ** Properties *)
(* ===================================================================== *)

Import Py Db Driver DbUtils Spec Migration RunnerSpec.
Local Open Scope py_scope.

#[local] Arguments records : simpl never.

(** *** [execute_query], call by call *)

Ltac unfold_driver :=
  unfold execute_query, DbUtils.get_db_connection, connect, open_cursor, cursor_execute,
    cursor_description, cursor_rowcount, cursor_fetchall, connection_commit,
    connection_rollback, cursor_close, connection_close, next_fault,
    try_finally, try_except, bind, ret, raise, lift,
    logged, with_store, with_session, with_cur, with_faults, with_timings in *.

Ltac close_calls := cbn; rewrite <- ?app_assoc; reflexivity.

Ltac unfold_runner :=
  unfold Migration.ensure_migrations_table, Migration.get_applied_migrations,
    Migration.get_pending_migrations, Migration.apply_migration,
    Migration.get_db_connection, Migration.elapsed,
    connect, open_cursor, cursor_execute,
    cursor_description, cursor_rowcount, cursor_fetchall, connection_commit,
    connection_rollback, cursor_close, connection_close, next_fault,
    try_finally, try_except, bind, ret, raise, lift,
    logged, with_store, with_session, with_cur, with_faults, with_timings in *.

Lemma given_some (x : option string) :
  given x = true -> exists s, x = Some s /\ s <> EmptyString.
Proof.
  destruct x as [s |]; simpl; try discriminate.
  destruct (String.eqb_spec s EmptyString); simpl; try discriminate.
  intros _. exists s. auto.
Qed.

(** Every path through [execute_query], by the fault plan, the server's
    answer and the kind of result. *)
Lemma execute_query_unfold (q : statement) (fetch : bool) (w : world) (arn : string) :
  secret_arn w = Some arn ->
  execute_query q fetch w =
  let (f0, p1) := step (faults w) in
  match f0 with
  | Some e => (Raised e, with_faults (logged Connect w) p1)
  | None =>
  let (f1, p2) := step p1 in
  match f1 with
  | Some e =>
      (Raised e,
       finished w (store w) p2
         [Connect; OpenCursor; Execute q; Rollback; CloseCursor; CloseConnection])
  | None =>
  match run q (store w) with
  | Raised e =>
      (Raised e,
       finished w (store w) p2
         [Connect; OpenCursor; Execute q; Rollback; CloseCursor; CloseConnection])
  | Returned (c, d') =>
      let kept := if commits_itself q then d' else store w in
      if fetch then
        match description c with
        | None =>
            (Raised (ProgrammingError "no results to fetch"),
             finished w kept p2
               [Connect; OpenCursor; Execute q; Fetchall; Rollback; CloseCursor;
                CloseConnection])
        | Some cols =>
            let (f2, p3) := step p2 in
            match f2 with
            | Some e =>
                (Raised e,
                 finished w kept p3
                   [Connect; OpenCursor; Execute q; Fetchall; Commit; Rollback;
                    CloseCursor; CloseConnection])
            | None =>
                (Returned (records cols (tuples c)),
                 finished w d' p3
                   [Connect; OpenCursor; Execute q; Fetchall; Commit; CloseCursor;
                    CloseConnection])
            end
        end
      else
        let (f2, p3) := step p2 in
        match f2 with
        | Some e =>
            (Raised e,
             finished w kept p3
               [Connect; OpenCursor; Execute q; Commit; Rollback; CloseCursor;
                CloseConnection])
        | None =>
            (Returned (PInt (rowcount c)),
             finished w d' p3
               [Connect; OpenCursor; Execute q; Commit; CloseCursor; CloseConnection])
        end
  end end end.
Proof.
  intros Harn. unfold finished, step, records.
  unfold_driver. rewrite Harn. cbn.
  destruct (faults w) as [| [e0 |] [| [e1 |] [| [e2 |] p3]]]; cbn;
    try close_calls;
    destruct (run q (store w)) as [[c d'] | e]; cbn;
    try close_calls;
    destruct fetch; cbn;
    try close_calls;
    destruct (commits_itself q); cbn;
    destruct (description c) eqn:Hd; cbn; rewrite ?Hd; close_calls.
Qed.

Lemma execute_query_no_secret (q : statement) (fetch : bool) (w : world) :
  secret_arn w = None ->
  execute_query q fetch w = (Raised (KeyError "SECRET_ARN"), w).
Proof. intros H. unfold_driver. rewrite H. reflexivity. Qed.

Lemma available_finished (w : world) (d : database) (cs : list call) :
  available w -> available (finished w d [] cs).
Proof. intros [Hs _]. split; [exact Hs | reflexivity]. Qed.

(** With the environment in order, a fetching call ends in one of three
    ways: the server refuses the statement, the statement has no result
    set, or the rows come back and the statement is committed. *)
Lemma execute_query_available (q : statement) (w : world) :
  available w ->
  execute_query q true w =
  match run q (store w) with
  | Raised e =>
      (Raised e,
       finished w (store w) []
         [Connect; OpenCursor; Execute q; Rollback; CloseCursor; CloseConnection])
  | Returned (c, d') =>
      match description c with
      | None =>
          (Raised (ProgrammingError "no results to fetch"),
           finished w (if commits_itself q then d' else store w) []
             [Connect; OpenCursor; Execute q; Fetchall; Rollback; CloseCursor;
              CloseConnection])
      | Some cols =>
          (Returned (records cols (tuples c)),
           finished w d' []
             [Connect; OpenCursor; Execute q; Fetchall; Commit; CloseCursor;
              CloseConnection])
      end
  end.
Proof.
  intros [Hs Hf]. destruct (given_some _ Hs) as (arn & Harn & _).
  rewrite (execute_query_unfold q true w arn Harn), Hf. cbn.
  destruct (run q (store w)) as [[c d'] | e]; reflexivity.
Qed.

(** What a call leaves alone, whatever the plan: the environment apart from
    the consumed faults, and the database unless the statement changed it.
    The only statement it sends is [q]. *)
Lemma execute_query_frame (q : statement) (fetch : bool) (w : world) :
  let r := execute_query q fetch w in
  secret_arn (snd r) = secret_arn w /\
  timings (snd r) = timings w /\
  (exists cs, calls (snd r) = calls w ++ cs /\
              forall c, In c cs -> is_write c = true -> c = Execute q) /\
  (store (snd r) = store w \/
   exists c d', run q (store w) = Returned (c, d') /\ store (snd r) = d').
Proof.
  cbv zeta.
  destruct (secret_arn w) as [arn |] eqn:Harn.
  2:{ rewrite (execute_query_no_secret q fetch w Harn). cbn.
      split; [exact Harn |]. split; [reflexivity |]. split; [| left; reflexivity].
      exists []. rewrite app_nil_r. split; [reflexivity |]. intros c []. }
  rewrite (execute_query_unfold q fetch w arn Harn).
  assert (Hcalls : forall cs : list call,
             (forall c, In c cs -> c = Execute q \/ is_write c = false) ->
             forall c, In c cs -> is_write c = true -> c = Execute q).
  { intros cs H c Hc Hw. destruct (H c Hc) as [-> | Hn]; congruence. }
  unfold step.
  destruct (faults w) as [| [e0 |] [| [e1 |] [| [e2 |] p3]]]; cbn;
    try destruct (run q (store w)) as [[c d'] | e] eqn:Hrun; cbn;
    try destruct fetch; cbn;
    try destruct (description c); cbn;
    try destruct (commits_itself q); cbn;
    (split; [exact Harn |]; split; [reflexivity |]; split;
     [ eexists; split; [reflexivity |];
       apply Hcalls; cbn; intros x Hx;
       repeat (destruct Hx as [<- | Hx]; [auto |]); destruct Hx
     | first [left; reflexivity | right; eauto] ]).
Qed.

(** *** Extractors *)





(** *** Required fields of the create handlers *)

Lemma first_missing_first_absent (fields : list string) (data : dict) (field : string) :
  first_absent fields data field -> first_missing fields data = Some field.
Proof.
  intros (before & after & -> & Hbefore & Hfield).
  induction before as [| g before IH]; simpl.
  - rewrite Hfield. reflexivity.
  - rewrite (Hbefore g (or_introl eq_refl)).
    apply IH. intros g' Hg'. apply Hbefore. right. exact Hg'.
Qed.

(** C4: a create payload that lacks a required field gets the 400 response
    that names the first field lacking, in the order user_id, name
    (Language); language_id, word, ipa (Word); user_id, email, username
    (User); the world is left as it was: no driver call is made, so no
    statement runs and no row is inserted. *)
Theorem create_missing_field (data : dict) (field : string) (w : world) :
  (first_absent ["user_id"; "name"] data field ->
   Languages.create_language data w =
   (Returned (client_error ("Missing required field: " ++ field)), w)) /\
  (first_absent ["language_id"; "word"; "ipa"] data field ->
   Words.create_word data w =
   (Returned (client_error ("Missing required field: " ++ field)), w)) /\
  (first_absent ["user_id"; "email"; "username"] data field ->
   Users.create_or_update_user data w =
   (Returned (client_error ("Missing required field: " ++ field)), w)).
Proof.
  repeat split; intros H; apply first_missing_first_absent in H.
  - unfold Languages.create_language. rewrite H. reflexivity.
  - unfold Words.create_word. rewrite H. reflexivity.
  - unfold Users.create_or_update_user. rewrite H. reflexivity.
Qed.

Lemma create_missing_field_run :
  Words.create_word [("language_id", PStr "L1"); ("ipa", PStr "melme")] Sample.start =
  (Returned (client_error "Missing required field: word"), Sample.start).
Proof.
  apply (proj1 (proj2 (create_missing_field
                         [("language_id", PStr "L1"); ("ipa", PStr "melme")]
                         "word" Sample.start))).
  exists ["language_id"], ["ipa"]. repeat split.
  intros g [<- | []]. reflexivity.
Defined.

(** *** The transaction of [execute_query] *)



(** *** Updates without a recognized field *)

Lemma truthy_records_filter {A : Type} (cols : list string) (g : A -> list value)
  (f : A -> bool) (l : list A) :
  truthy (records cols (map g (filter f l))) = existsb f l.
Proof.
  induction l as [| x l IH]; [reflexivity |].
  cbn [filter existsb]. destruct (f x); [reflexivity | exact IH].
Qed.

Lemma find_filter {A : Type} (f : A -> bool) (l : list A) :
  match find f l with
  | Some x => exists rest, filter f l = x :: rest
  | None => filter f l = []
  end.
Proof.
  induction l as [| y l IH]; cbn; [reflexivity |].
  destruct (f y); [eexists; reflexivity | exact IH].
Qed.








(** *** Ownership on language update *)



Lemma given_nonempty (s : string) : s <> EmptyString -> given (Some s) = true.
Proof.
  intros H. cbn. destruct (String.eqb_spec s EmptyString); [contradiction | reflexivity].
Qed.



(** *** Listing the words of a language one does not own *)







(** *** Replacing the translations of a word *)

(** A DELETE without RETURNING has no result set: fetching after it raises,
    and the rollback undoes it. *)
Lemma delete_translations_raises (p : value) (w : world) :
  exists e w',
    execute_query (DeleteTranslations p) true w = (Raised e, w') /\
    store w' = store w.
Proof.
  destruct (secret_arn w) as [arn |] eqn:Harn.
  2:{ rewrite (execute_query_no_secret _ true w Harn). eexists _, _. split; reflexivity. }
  rewrite (execute_query_unfold _ true w arn Harn). unfold step. cbn [run].
  destruct (faults w) as [| [e0 |] [| [e1 |] p2]]; cbn;
    destruct (as_text p); cbn; eexists _, _; split; reflexivity.
Qed.

Lemma update_where_words (wid : string) (assignments : list (string * value))
  (d : database) (c : cursor) (d' : database) (p : value) :
  run (UpdateWord assignments p) d = Returned (c, d') ->
  translations d' = translations d.
Proof.
  cbn. destruct (as_text p); [| discriminate].
  destruct (update_where _ _ _) as [[all hit] |]; [| discriminate].
  intros [= _ <-]. reflexivity.
Qed.

Lemma select_word_owned_store (a b : value) (d : database) (c : cursor) (d' : database) :
  run (SelectWordIdOwned a b) d = Returned (c, d') -> d' = d.
Proof.
  cbn. destruct (as_text a), (as_text b); congruence.
Qed.

Lemma update_word_translations (word_id : option string) (data : dict) (w : world) :
  dict_in "translations" data = true ->
  exists o w',
    Words.update_word word_id data w = (o, w') /\
    translations (store w') = translations (store w) /\
    (forall resp, o = Returned resp ->
       statusCode resp = 400%Z \/ statusCode resp = 404%Z).
Proof.
  intros Ht. unfold Words.update_word.
  destruct (given word_id); cbn [negb].
  2:{ eexists _, _. split; [reflexivity |]. split; [reflexivity |].
      intros resp [= <-]. left. reflexivity. }
  assert (Hverify :
    forall w0, exists o w1,
      (match dict_get data "user_id" with
       | Some user_id =>
           verify_result <- execute_query (SelectWordIdOwned (of_option word_id) user_id)
                              true ;;
           ret (negb (truthy verify_result))
       | None => ret false
       end) w0 = (o, w1) /\ translations (store w1) = translations (store w0)).
  { intros w0. destruct (dict_get data "user_id") as [u |].
    - unfold bind, ret.
      pose proof (execute_query_frame (SelectWordIdOwned (of_option word_id) u) true w0)
        as (_ & _ & _ & Hs). cbv zeta in Hs.
      destruct (execute_query _ true w0) as [[v | e] w1]; cbn in *;
        eexists _, _; (split; [reflexivity |]);
        (destruct Hs as [-> | (c & d' & Hrun & ->)];
         [reflexivity | rewrite (select_word_owned_store _ _ _ _ _ Hrun); reflexivity]).
    - eexists _, _. split; reflexivity. }
  unfold bind at 1.
  destruct (Hverify w) as (o & w1 & -> & H1).
  destruct o as [[|] | e]; cbv beta iota; try unfold ret.
  1,3: eexists _, _; (split; [reflexivity |]); (split; [exact H1 |]);
       intros resp [= <-]; right; reflexivity.
  destruct (Words.update_fields data) as [| f fs]; cbv beta iota.
  { eexists _, _. split; [reflexivity |]. split; [exact H1 |].
    intros resp [= <-]. left; reflexivity. }
  unfold bind at 1.
  pose proof (execute_query_frame (UpdateWord (f :: fs) (of_option word_id)) true w1)
    as (_ & _ & _ & Hs). cbv zeta in Hs.
  assert (H2 : translations (store (snd (execute_query
                 (UpdateWord (f :: fs) (of_option word_id)) true w1)))
               = translations (store w)).
  { rewrite <- H1. destruct Hs as [-> | (c & d' & Hrun & ->)]; [reflexivity |].
    exact (update_where_words EmptyString _ _ _ _ _ Hrun). }
  destruct (execute_query _ true w1) as [[v | e] w2]; cbn [snd] in H2.
  2:{ eexists _, _. split; [reflexivity |]. split; [exact H2 |]. discriminate. }
  cbv beta iota. destruct (truthy v); cbn [negb]; cbv beta iota.
  2:{ eexists _, _. split; [reflexivity |]. split; [exact H2 |].
      intros resp [= <-]. right; reflexivity. }
  unfold dict_in in Ht. destruct (dict_get data "translations") as [t |]; [| discriminate].
  unfold bind.
  destruct (delete_translations_raises (of_option word_id) w2) as (e & w3 & -> & H3).
  eexists _, _. split; [reflexivity |]. split; [rewrite H3; exact H2 | discriminate].
Qed.

(** C2: [update_word] sends its DELETE through [execute_query] with the
    default [fetch=True]; the statement has no result set, so [fetchall]
    raises, the DELETE is rolled back and the error leaves the handler.
    Whatever the body and the database, an update that carries a
    [translations] key therefore leaves the translations table as it was,
    and never answers 200: the answers it can return are the 400 and 404
    of the earlier checks. *)
Theorem update_word_keeps_translations (word_id : option string) (data : dict)
  (w : world) :
  dict_in "translations" data = true ->
  let r := Words.update_word word_id data w in
  translations (store (snd r)) = translations (store w) /\
  (forall resp, fst r = Returned resp ->
     statusCode resp = 400%Z \/ statusCode resp = 404%Z).
Proof.
  intros Ht. cbv zeta.
  destruct (update_word_translations word_id data w Ht) as (o & w' & -> & H1 & H2).
  split; [exact H1 | exact H2].
Qed.

Lemma update_word_keeps_translations_run :
  let r := Words.update_word (Some "W1")
             [("word", PStr "melme");
              ("translations", PList [PDict [("meaning", PStr "C")]])] Sample.start in
  translations (store (snd r)) = [Sample.translation_a; Sample.translation_b] /\
  fst r = Raised (ProgrammingError "no results to fetch").
Proof.
  cbv zeta. split.
  - exact (proj1 (update_word_keeps_translations (Some "W1")
                    [("word", PStr "melme");
                     ("translations", PList [PDict [("meaning", PStr "C")]])]
                    Sample.start eq_refl)).
  - vm_compute. reflexivity.
Defined.

(** *** The migration runner *)

Lemma ensure_ok (w : world) (rest : list (option exn)) :
  given (secret_arn w) = true -> session w = None ->
  faults w = [] \/ faults w = None :: None :: None :: rest ->
  exists w',
    ensure_migrations_table w = (Returned tt, w') /\
    runner_at w' (ensured (store w)) (timings w)
      (match faults w with [] => [] | _ => rest end).
Proof.
  intros Hs Hn Hf. unfold runner_at, ensured. unfold_runner.
  rewrite Hn, Hs. cbn.
  destruct Hf as [Hf | Hf]; rewrite Hf; cbn;
    destruct (schema_migrations (store w)) eqn:Hl; cbn;
    eexists; (split; [reflexivity |]); cbn; rewrite ?Hl; auto.
Qed.

Lemma first_columns_singletons (vs : list value) :
  first_columns (map (fun v => [v]) vs) = Returned vs.
Proof.
  induction vs as [| v vs IH]; [reflexivity |].
  cbn [map first_columns index0]. rewrite IH. reflexivity.
Qed.

Lemma runner_at_ready (w : world) (d : database) (ts : list Z) :
  runner_at w d ts [] -> runner_ready w d ts.
Proof. intros (Hs & Hn & Hd & Ht & Hf). repeat split; auto. Qed.

Lemma applied_ok (w : world) (d : database) (ts : list Z) :
  runner_ready w d ts ->
  exists w',
    get_applied_migrations w =
    (Returned (match schema_migrations d with
               | Some rows => versions_read rows
               | None => []
               end), w') /\
    runner_at w' d ts [].
Proof.
  intros (Hs & Hn & Hd & Ht & Hf). unfold runner_at, versions_read. unfold_runner.
  subst d.
  destruct Hn as [Hn | Hn];
    repeat (progress (cbn; rewrite ?Hn, ?Hf, ?Hs));
    destruct (schema_migrations (store w)) as [rows |] eqn:Hl; cbn;
    rewrite <- ?(map_map PStr (fun v => [v])), ?first_columns_singletons;
    eexists; (split; [reflexivity |]); cbn; auto.
Qed.

(** The read fails: the result is the empty list, and the connection is
    kept as it was. *)


Lemma existsb_insert_sorted {A : Type} (f : A -> bool) (le : A -> A -> bool) (x : A)
  (l : list A) :
  existsb f (insert_sorted le x l) = f x || existsb f l.
Proof.
  induction l as [| y l IH]; cbn; [reflexivity |].
  destruct (le x y); cbn; [reflexivity |].
  rewrite IH. destruct (f x), (f y); reflexivity.
Qed.

Lemma existsb_sort_by {A : Type} (f : A -> bool) (le : A -> A -> bool) (l : list A) :
  existsb f (sort_by le l) = existsb f l.
Proof.
  induction l as [| x l IH]; [reflexivity |].
  change (sort_by le (x :: l)) with (insert_sorted le x (sort_by le l)).
  rewrite existsb_insert_sorted, IH. reflexivity.
Qed.

Lemma contains_versions_read (rows : list ledger_row) (v : string) :
  contains (versions_read rows) (PStr v) = existsb (String.eqb v) (map m_version rows).
Proof.
  unfold contains, versions_read.
  rewrite <- (existsb_sort_by (String.eqb v) String.leb).
  induction (sort_by String.leb (map m_version rows)) as [| x l IH]; [reflexivity |].
  cbn. rewrite <- IH. reflexivity.
Qed.

Lemma pending_ok (w : world) (d : database) (ts : list Z) :
  runner_ready w d ts ->
  exists w',
    get_pending_migrations w = (Returned (unrecorded d), w') /\
    runner_at w' d ts [].
Proof.
  intros Hw. destruct (applied_ok w d ts Hw) as (w' & Ha & Hw').
  unfold get_pending_migrations, bind. rewrite Ha. unfold ret.
  exists w'. split; [| exact Hw'].
  f_equal. f_equal. unfold unrecorded, is_recorded, recorded.
  apply filter_ext. intros m.
  destruct (schema_migrations d) as [rows |]; [| reflexivity].
  rewrite contains_versions_read. reflexivity.
Qed.

Lemma apply_ok (w : world) (d : database) (ts : list Z) (rows : list ledger_row)
  (m : migration) :
  runner_at w d ts [] -> schema_migrations d = Some rows ->
  exists w',
    apply_migration m w = (Returned (hd 0%Z ts), w') /\
    runner_at w' (record_migration d rows m (hd 0%Z ts)) (tl ts) [].
Proof.
  intros (Hs & Hn & Hd & Ht & Hf) Hl. unfold runner_at, record_migration. unfold_runner.
  destruct ts as [| t ts'];
    repeat (progress (cbn; rewrite ?Hn, ?Hf, ?Hl, ?Ht));
    eexists; (split; [reflexivity |]); cbn; subst d; auto.
Qed.

Lemma apply_each_ok (ms : list migration) :
  forall (w : world) (d : database) (ts : list Z) (rows : list ledger_row)
         (acc : list value) (tot : Z),
    runner_at w d ts [] -> schema_migrations d = Some rows ->
    exists w',
      apply_each ms acc tot w =
      (Returned (acc ++ entries ms ts, (tot + total ms ts)%Z), w') /\
      runner_at w' (record_all d ms ts) (skipn (length ms) ts) [].
Proof.
  induction ms as [| m ms IH]; intros w d ts rows acc tot Hw Hl.
  - cbn. rewrite app_nil_r, Z.add_0_r. exists w. split; [reflexivity | exact Hw].
  - cbn [apply_each record_all entries total]. rewrite Hl. unfold bind.
    destruct (apply_ok w d ts rows m Hw Hl) as (w1 & -> & Hw1).
    destruct (IH w1 _ (tl ts) _ (acc ++ [applied_entry m (hd 0%Z ts)])
                (tot + hd 0%Z ts)%Z Hw1 eq_refl) as (w2 & -> & Hw2).
    exists w2. rewrite <- app_assoc, Z.add_assoc. split; [reflexivity |].
    destruct ts as [| t ts']; cbn [length skipn tl] in *;
      rewrite ?skipn_nil in *; exact Hw2.
Qed.

Lemma scripts_record_all (ms : list migration) :
  forall (d : database) (ts : list Z) (rows : list ledger_row),
    schema_migrations d = Some rows ->
    scripts_run (record_all d ms ts) = scripts_run d ++ map sql ms.
Proof.
  induction ms as [| m ms IH]; intros d ts rows Hl; cbn [record_all map].
  - rewrite app_nil_r. reflexivity.
  - rewrite Hl. erewrite IH by reflexivity. cbn. rewrite <- app_assoc. reflexivity.
Qed.

Lemma versions_upsert_new (rows : list ledger_row) (v : string) (t : Z) (ds : string)
  (now : nat) :
  existsb (String.eqb v) (map m_version rows) = false ->
  map m_version (ledger_upsert rows v t ds now) = map m_version rows ++ [v].
Proof.
  intros H. unfold ledger_upsert.
  assert (E : existsb (fun r => String.eqb (m_version r) v) rows = false).
  { rewrite <- H. clear H. induction rows as [| r rows IH]; [reflexivity |].
    cbn. rewrite IH, (String.eqb_sym v). reflexivity. }
  rewrite E, map_app. reflexivity.
Qed.

Lemma recorded_record_all (ms : list migration) :
  forall (d : database) (ts : list Z) (rows : list ledger_row),
    schema_migrations d = Some rows ->
    NoDup (map version ms) ->
    (forall m, In m ms -> is_recorded d (version m) = false) ->
    recorded (record_all d ms ts) = recorded d ++ map version ms.
Proof.
  induction ms as [| m ms IH]; intros d ts rows Hl Hnd Hnew; cbn [record_all map].
  - rewrite app_nil_r. reflexivity.
  - rewrite Hl. inversion Hnd as [| ? ? Hm Hnd']; subst.
    assert (Hv : existsb (String.eqb (version m)) (map m_version rows) = false).
    { specialize (Hnew m (or_introl eq_refl)).
      unfold is_recorded, recorded in Hnew. rewrite Hl in Hnew. exact Hnew. }
    erewrite IH; [| reflexivity | exact Hnd' |].
    + unfold recorded at 1. cbn. unfold recorded. rewrite Hl.
      rewrite (versions_upsert_new _ _ _ _ _ Hv), <- app_assoc. reflexivity.
    + intros m' Hm'. unfold is_recorded, recorded. cbn.
      rewrite (versions_upsert_new _ _ _ _ _ Hv), existsb_app. cbn.
      specialize (Hnew m' (or_intror Hm')).
      unfold is_recorded, recorded in Hnew. rewrite Hl in Hnew. rewrite Hnew. cbn.
      rewrite orb_false_r. apply String.eqb_neq. intros E. apply Hm.
      rewrite <- E. apply in_map. exact Hm'.
Qed.

Lemma recorded_ensured (d : database) : recorded (ensured d) = recorded d.
Proof.
  unfold ensured, recorded. destruct (schema_migrations d) eqn:H; [rewrite H |];
    reflexivity.
Qed.

Lemma unrecorded_ensured (d : database) : unrecorded (ensured d) = unrecorded d.
Proof.
  unfold unrecorded, is_recorded. rewrite recorded_ensured. reflexivity.
Qed.

Lemma ledger_ensured (d : database) :
  exists rows, schema_migrations (ensured d) = Some rows /\ map m_version rows = recorded d.
Proof.
  unfold ensured, recorded. destruct (schema_migrations d) as [rows |] eqn:H.
  - exists rows. split; [exact H | reflexivity].
  - exists []. split; reflexivity.
Qed.

Lemma run_ok (w : world) :
  available w -> session w = None ->
  exists w',
    run_migrations w = (Returned (run_report (unrecorded (store w)) (timings w)), w') /\
    runner_at w' (record_all (ensured (store w)) (unrecorded (store w)) (timings w))
      (skipn (length (unrecorded (store w))) (timings w)) [].
Proof.
  intros [Hs Hf] Hn. unfold run_migrations, try_except, bind.
  destruct (ensure_ok w [] Hs Hn (or_introl Hf)) as (w1 & -> & Hw1).
  rewrite Hf in Hw1.
  destruct (pending_ok w1 _ _ (runner_at_ready _ _ _ Hw1)) as (w2 & -> & Hw2).
  rewrite unrecorded_ensured.
  destruct (ledger_ensured (store w)) as (rows & Hrows & _).
  destruct (unrecorded (store w)) as [| m ms] eqn:Hp.
  - unfold ret. exists w2. split; [reflexivity | exact Hw2].
  - destruct (apply_each_ok (m :: ms) w2 _ _ rows [] 0%Z Hw2 Hrows) as (w3 & -> & Hw3).
    unfold ret. exists w3. split; [reflexivity | exact Hw3].
Qed.

Lemma length_insert_sorted {A : Type} (le : A -> A -> bool) (x : A) (l : list A) :
  length (insert_sorted le x l) = S (length l).
Proof.
  induction l as [| y l IH]; cbn; [reflexivity |].
  destruct (le x y); cbn; [reflexivity | rewrite IH; reflexivity].
Qed.

Lemma length_sort_by {A : Type} (le : A -> A -> bool) (l : list A) :
  length (sort_by le l) = length l.
Proof.
  induction l as [| x l IH]; [reflexivity |].
  change (sort_by le (x :: l)) with (insert_sorted le x (sort_by le l)).
  rewrite length_insert_sorted, IH. reflexivity.
Qed.

Lemma status_ok (w : world) :
  available w -> session w = None ->
  fst (get_status w) = Returned (status_report (store w)).
Proof.
  intros [Hs Hf] Hn. unfold get_status, try_except, bind.
  destruct (ensure_ok w [] Hs Hn (or_introl Hf)) as (w1 & -> & Hw1).
  rewrite Hf in Hw1.
  destruct (applied_ok w1 _ _ (runner_at_ready _ _ _ Hw1)) as (w2 & -> & Hw2).
  destruct (pending_ok w2 _ _ (runner_at_ready _ _ _ Hw2)) as (w3 & -> & Hw3).
  unfold ret, status_report. cbn [fst].
  rewrite unrecorded_ensured.
  destruct (ledger_ensured (store w)) as (rows & Hrows & Hrec).
  rewrite Hrows, <- Hrec. unfold versions_read.
  rewrite !length_map, length_sort_by, ?length_map. reflexivity.
Qed.

Lemma close_runner (w : world) (d : database) (ts : list Z) :
  runner_at w d ts [] ->
  let w' := snd (close_connection w) in
  available w' /\ session w' = None /\ store w' = d.
Proof.
  intros (Hs & Hn & Hd & Ht & Hf). unfold close_connection, connection_close.
  rewrite Hn. cbn. repeat split; auto.
Qed.

Lemma unrecorded_versions (d : database) :
  NoDup (map version (unrecorded d)) /\
  StronglySorted (fun a b => String.ltb a b = true) (map version (unrecorded d)) /\
  (forall m, In m (unrecorded d) -> is_recorded d (version m) = false).
Proof.
  split; [| split].
  - unfold unrecorded, get_migrations. cbn [filter version].
    destruct (is_recorded d "20250101_120000"), (is_recorded d "20250102_143000"),
      (is_recorded d "20250103_091500"); cbn;
      repeat constructor; cbn; intuition discriminate.
  - unfold unrecorded, get_migrations. cbn [filter version].
    destruct (is_recorded d "20250101_120000"), (is_recorded d "20250102_143000"),
      (is_recorded d "20250103_091500"); cbn;
      repeat constructor.
  - intros m Hm. apply filter_In in Hm. destruct Hm as [_ Hm].
    apply negb_true_iff in Hm. exact Hm.
Qed.

(** C1: for every ledger state, with the environment in order and a new
    runner: [get_pending_migrations] returns exactly the known migrations
    (versions 20250101_120000, 20250102_143000, 20250103_091500) whose
    version the ledger does not record, in ascending version order;
    [run_migrations] succeeds, runs the scripts of exactly those migrations
    in that order, reports them in that order, and adds their versions to
    the ledger.  In particular, when the ledger records the first two
    versions, the third alone is pending, its script alone is run, and
    [get_status] of the next invocation reports applied_count 3 and
    pending_count 0. *)
Theorem pending_and_run (w : world) :
  available w -> session w = None ->
  map version get_migrations =
    ["20250101_120000"; "20250102_143000"; "20250103_091500"] /\
  fst (get_pending_migrations w) = Returned (unrecorded (store w)) /\
  StronglySorted (fun a b => String.ltb a b = true)
    (map version (unrecorded (store w))) /\
  (exists result w',
     run_migrations w = (Returned result, w') /\
     subscript result "success" = Returned (PBool true) /\
     subscript result "applied_migrations" =
       Returned (PList (entries (unrecorded (store w)) (timings w))) /\
     scripts_run (store w') = scripts_run (store w) ++ map sql (unrecorded (store w)) /\
     recorded (store w') = recorded (store w) ++ map version (unrecorded (store w)) /\
     (recorded (store w) = ["20250101_120000"; "20250102_143000"] ->
      map version (unrecorded (store w)) = ["20250103_091500"] /\
      scripts_run (store w') = scripts_run (store w) ++ [user_preferences_migration] /\
      exists status,
        fst (get_status (snd (close_connection w'))) = Returned status /\
        subscript status "applied_count" = Returned (PInt 3) /\
        subscript status "pending_count" = Returned (PInt 0))).
Proof.
  intros Hav Hn.
  destruct (unrecorded_versions (store w)) as (Hnd & Hsorted & Hnew).
  split; [reflexivity |]. split; [| split; [exact Hsorted |]].
  - destruct Hav as [Hs Hf].
    destruct (pending_ok w (store w) (timings w)) as (w' & -> & _); [| reflexivity].
    repeat split; auto.
  - destruct (run_ok w Hav Hn) as (w' & Hrun & Hw').
    destruct (ledger_ensured (store w)) as (rows & Hrows & Hrec).
    assert (Hscripts : scripts_run (store w') =
                       scripts_run (store w) ++ map sql (unrecorded (store w))).
    { destruct Hw' as (_ & _ & -> & _).
      rewrite (scripts_record_all _ _ _ rows Hrows).
      unfold ensured. destruct (schema_migrations (store w)); reflexivity. }
    assert (Hledger : recorded (store w') =
                      recorded (store w) ++ map version (unrecorded (store w))).
    { destruct Hw' as (_ & _ & -> & _).
      rewrite (recorded_record_all _ _ _ rows Hrows Hnd).
      - rewrite recorded_ensured. reflexivity.
      - intros m Hm. unfold is_recorded. rewrite recorded_ensured. exact (Hnew m Hm). }
    exists (run_report (unrecorded (store w)) (timings w)), w'.
    split; [exact Hrun |].
    split; [destruct (unrecorded (store w)); reflexivity |].
    split; [destruct (unrecorded (store w)); reflexivity |].
    split; [exact Hscripts |]. split; [exact Hledger |].
    intros Htwo.
    assert (Hthird : unrecorded (store w) =
                     [ {| version := "20250103_091500";
                          m_desc := "Add user preferences table";
                          sql := user_preferences_migration |} ]).
    { unfold unrecorded, is_recorded. rewrite Htwo. reflexivity. }
    rewrite Hthird in *. split; [reflexivity |]. split; [exact Hscripts |].
    destruct (close_runner w' _ _ Hw') as (Hav' & Hn' & Hd').
    exists (status_report (store (snd (close_connection w')))).
    split; [exact (status_ok _ Hav' Hn') |].
    assert (Hall : recorded (store (snd (close_connection w'))) =
                   ["20250101_120000"; "20250102_143000"; "20250103_091500"]).
    { rewrite Hd'. destruct Hw' as (_ & _ & <- & _). rewrite Hledger, Htwo. reflexivity. }
    unfold status_report, unrecorded, is_recorded. rewrite Hall. split; reflexivity.
Qed.



Lemma versions_upsert (rows : list ledger_row) (v : string) (t : Z) (ds : string)
  (now : nat) :
  map m_version (ledger_upsert rows v t ds now) =
  if existsb (String.eqb v) (map m_version rows)
  then map m_version rows else map m_version rows ++ [v].
Proof.
  unfold ledger_upsert.
  assert (E : existsb (fun r => String.eqb (m_version r) v) rows =
              existsb (String.eqb v) (map m_version rows)).
  { induction rows as [| r rows IH]; [reflexivity |].
    cbn. rewrite IH, (String.eqb_sym v). reflexivity. }
  rewrite E. destruct (existsb _ (map m_version rows)).
  - rewrite map_map. apply map_ext. intros r.
    destruct (String.eqb (m_version r) v); reflexivity.
  - rewrite map_app. reflexivity.
Qed.

Lemma is_recorded_upsert (rows : list ledger_row) (v v' : string) (t : Z) (ds : string)
  (now : nat) :
  existsb (String.eqb v') (map m_version (ledger_upsert rows v t ds now)) =
  existsb (String.eqb v') (map m_version rows) || String.eqb v' v.
Proof.
  rewrite versions_upsert.
  destruct (existsb (String.eqb v) (map m_version rows)) eqn:E.
  - destruct (String.eqb_spec v' v) as [-> |]; [rewrite E |]; 
      rewrite ?orb_true_r, ?orb_false_r; reflexivity.
  - rewrite existsb_app. cbn. rewrite orb_false_r. reflexivity.
Qed.

(** What one [apply_migration] does to the ledger and to the scripts run,
    whatever fails. *)

Lemma apply_frame (m : migration) (w : world) :
  synced w ->
  let r := apply_migration m w in
  synced (snd r) /\
  match fst r with
  | Returned _ =>
      is_recorded (store (snd r)) (version m) = true /\
      (forall v, is_recorded (store w) v = true -> is_recorded (store (snd r)) v = true) /\
      scripts_run (store (snd r)) = scripts_run (store w) ++ [sql m]
  | Raised _ =>
      schema_migrations (store (snd r)) = schema_migrations (store w) /\
      (scripts_run (store (snd r)) = scripts_run (store w) \/
       scripts_run (store (snd r)) = scripts_run (store w) ++ [sql m])
  end.
Proof.
  intros Hsync. cbv zeta. unfold synced, is_recorded, recorded in *. unfold_runner.
  destruct Hsync as [Hn | Hn]; rewrite Hn; cbn.
  - destruct (given (secret_arn w)); cbn; [| auto].
    destruct (faults w) as [| [e0 |] [| [e1 |] [| [e2 |] [| [e3 |] p4]]]]; cbn; auto;
      destruct (timings w); cbn; auto;
      destruct (schema_migrations (store w)) eqn:Hl; cbn; rewrite ?Hl; cbn; auto;
      (split; [right; reflexivity |]; split;
       [ rewrite is_recorded_upsert, String.eqb_refl, orb_true_r; reflexivity
       | split; [intros v Hv; rewrite is_recorded_upsert, Hv; reflexivity
                | reflexivity] ]).
  - destruct (faults w) as [| [e0 |] [| [e1 |] [| [e2 |] p4]]];
      destruct (timings w);
      destruct (schema_migrations (store w)) eqn:Hl;
      repeat (progress (cbn; rewrite ?Hn, ?Hl)); auto;
      (split; [right; reflexivity |]; split;
       [ rewrite is_recorded_upsert, String.eqb_refl, orb_true_r; reflexivity
       | split; [intros v Hv; rewrite is_recorded_upsert, Hv; reflexivity
                | reflexivity] ]).
Qed.

Lemma ensure_synced (w : world) :
  synced w -> synced (snd (ensure_migrations_table w)).
Proof.
  intros Hsync. unfold synced in *. unfold_runner.
  destruct Hsync as [Hn | Hn].
  - rewrite Hn. destruct (given (secret_arn w)); cbn; [| auto].
    destruct (faults w) as [| [e0 |] [| [e1 |] [| [e2 |] p3]]]; cbn; auto;
      destruct (schema_migrations (store w)); cbn; auto.
  - destruct (faults w) as [| [e0 |] [| [e1 |] p2]] eqn:Hf;
      destruct (schema_migrations (store w)) eqn:Hl;
      repeat (progress (cbn; rewrite ?Hn, ?Hl, ?Hf)); auto.
Qed.

Lemma applied_synced (w : world) :
  synced w -> synced (snd (get_applied_migrations w)).
Proof.
  intros Hsync. unfold synced in *. unfold_runner.
  destruct Hsync as [Hn | Hn].
  - rewrite Hn. destruct (given (secret_arn w)); cbn; [| auto].
    destruct (faults w) as [| [e0 |] [| [e1 |] p2]]; cbn; auto;
      destruct (schema_migrations (store w)); cbn; auto;
      destruct (first_columns _); cbn; auto.
  - destruct (faults w) as [| [e0 |] p1] eqn:Hf;
      destruct (schema_migrations (store w)) eqn:Hl;
      repeat (progress (cbn; rewrite ?Hn, ?Hl, ?Hf)); auto;
      destruct (first_columns _); cbn; auto.
Qed.

Lemma pending_synced (w : world) :
  synced w -> synced (snd (get_pending_migrations w)).
Proof.
  intros Hsync. unfold get_pending_migrations, bind.
  pose proof (applied_synced w Hsync) as H.
  destruct (get_applied_migrations w) as [[vs | e] w']; exact H.
Qed.

Lemma apply_each_frame (ms : list migration) :
  forall (w w' : world) (acc : list value) (tot : Z) (done : list value * Z),
    synced w ->
    apply_each ms acc tot w = (Returned done, w') ->
    synced w' /\
    (forall m, In m ms -> is_recorded (store w') (version m) = true) /\
    (forall v, is_recorded (store w) v = true -> is_recorded (store w') v = true) /\
    scripts_run (store w') = scripts_run (store w) ++ map sql ms.
Proof.
  induction ms as [| m ms IH]; intros w w' acc tot done Hsync Hrun.
  - cbn in Hrun. injection Hrun as _ <-.
    split; [exact Hsync |]. split; [intros m [] |]. split; [auto |].
    cbn. rewrite app_nil_r. reflexivity.
  - cbn [apply_each] in Hrun. unfold bind in Hrun.
    pose proof (apply_frame m w Hsync) as Hf. cbv zeta in Hf.
    destruct (apply_migration m w) as [[t | e] w1]; [| discriminate].
    cbn [fst snd] in Hf. destruct Hf as (Hs1 & Hm & Hkeep & Hscr).
    destruct (IH w1 w' _ _ done Hs1 Hrun) as (Hs' & Hall & Hkeep' & Hscr').
    split; [exact Hs' |]. split; [| split].
    + intros m' [<- | Hm']; [apply Hkeep'; exact Hm | apply Hall; exact Hm'].
    + intros v Hv. apply Hkeep', Hkeep, Hv.
    + rewrite Hscr', Hscr, <- app_assoc. reflexivity.
Qed.

(** C5: in a run of a new runner whose pending list is [before ++ m ::
    after], where the migrations of [before] are applied and the
    application of [m] raises [e], the run ends in the world that failed
    application left (nothing of [after] is attempted) and returns the
    failure record with the three keys success, message and error, built
    from [e] alone; every version recorded when [m] was tried is still
    recorded, those of [before] among them, and their scripts stay run,
    followed at most by the script of [m]. *)
Theorem failed_migration_aborts (w w0 w1 w2 : world) (before after : list migration)
  (m : migration) (done : list value * Z) (e : exn) :
  session w = None ->
  (ensure_migrations_table ;; get_pending_migrations) w =
    (Returned (before ++ m :: after), w0) ->
  apply_each before [] 0%Z w0 = (Returned done, w1) ->
  apply_migration m w1 = (Raised e, w2) ->
  run_migrations w =
    (Returned (PDict [("success", PBool false);
                      ("message", PStr ("Migration failed: " ++ str_of_exn e));
                      ("error", PStr (str_of_exn e))]), w2) /\
  (forall v, is_recorded (store w1) v = true -> is_recorded (store w2) v = true) /\
  (forall m', In m' before -> is_recorded (store w2) (version m') = true) /\
  (exists rest, scripts_run (store w2) = scripts_run (store w0) ++ map sql before ++ rest /\
                (rest = [] \/ rest = [sql m])).
Proof.
  intros Hn Hpending Hbefore Hfail.
  assert (Hsync0 : synced w0).
  { unfold bind in Hpending.
    pose proof (ensure_synced w (or_introl Hn)) as H1.
    destruct (ensure_migrations_table w) as [[[] | e0] wa]; [| discriminate].
    pose proof (pending_synced wa H1) as H2. rewrite Hpending in H2. exact H2. }
  destruct (apply_each_frame before w0 w1 [] 0%Z done Hsync0 Hbefore)
    as (Hsync1 & Hrec & _ & Hscr).
  pose proof (apply_frame m w1 Hsync1) as Hf. cbv zeta in Hf. rewrite Hfail in Hf.
  cbn [fst snd] in Hf. destruct Hf as (_ & Hledger & Hscripts).
  split; [| split; [| split]].
  - unfold run_migrations, try_except, bind in *.
    destruct (ensure_migrations_table w) as [[[] | e0] wa]; [| discriminate].
    rewrite Hpending.
    assert (Hloop : apply_each (before ++ m :: after) [] 0%Z w0 = (Raised e, w2)).
    { clear Hpending Hrec Hscr Hsync0 Hsync1 Hledger Hscripts.
      revert Hbefore. generalize (@nil value) 0%Z. revert w0.
      induction before as [| b before IH]; intros w0 acc tot Hb; cbn in *.
      - injection Hb as _ <-. unfold bind. rewrite Hfail. reflexivity.
      - unfold bind in *. destruct (apply_migration b w0) as [[t | e'] wb];
          [| discriminate].
        exact (IH _ _ _ Hb). }
    destruct (before ++ m :: after) as [| x xs] eqn:Hx;
      [destruct before; discriminate |].
    rewrite Hloop. reflexivity.
  - intros v Hv. unfold is_recorded, recorded in *. rewrite Hledger. exact Hv.
  - intros m' Hm'. unfold is_recorded, recorded in *. rewrite Hledger.
    exact (Hrec m' Hm').
  - destruct Hscripts as [-> | ->]; rewrite Hscr.
    + exists []. rewrite app_nil_r. auto.
    + exists [sql m]. rewrite <- app_assoc. auto.
Qed.

Lemma pending_and_run_run :
  fst (get_pending_migrations Sample.two_applied) = Returned [Sample.third_migration].
Proof.
  exact (proj1 (proj2 (pending_and_run Sample.two_applied
                         (conj eq_refl eq_refl) eq_refl))).
Defined.


Lemma failed_migration_aborts_run :
  fst (run_migrations Sample.second_fails) =
  Returned (PDict [("success", PBool false);
                   ("message",
                    PStr "Migration failed: syntax error in migration script");
                   ("error", PStr "syntax error in migration script")]) /\
  recorded (store (snd (run_migrations Sample.second_fails))) = ["20250101_120000"].
Proof.
  pose (w0 := snd ((ensure_migrations_table ;; get_pending_migrations)
                     Sample.second_fails)).
  pose (w1 := snd (apply_each [Sample.first_migration] [] 0%Z w0)).
  pose (w2 := snd (apply_migration Sample.second_migration w1)).
  destruct (failed_migration_aborts Sample.second_fails w0 w1 w2
              [Sample.first_migration] [Sample.third_migration]
              Sample.second_migration
              ([applied_entry Sample.first_migration 0%Z], 0%Z) Sample.bad_script)
    as (Hrun & _); try (vm_compute; reflexivity).
  split; [rewrite Hrun; reflexivity | vm_compute; reflexivity].
Defined.

(** X1: when the ledger records every known migration, a run of a new runner
    with the environment in order applies nothing: it reports success with
    applied_count 0 and leaves the database, ledger and scripts run, as it
    was. *)
Theorem rerun_applies_nothing (w : world) :
  available w -> session w = None ->
  (forall m, In m get_migrations -> is_recorded (store w) (version m) = true) ->
  exists result w',
    run_migrations w = (Returned result, w') /\
    subscript result "success" = Returned (PBool true) /\
    subscript result "message" = Returned (PStr "No pending migrations") /\
    subscript result "applied_count" = Returned (PInt 0) /\
    store w' = store w.
Proof.
  intros Hav Hn Hall.
  destruct (run_ok w Hav Hn) as (w' & Hrun & Hw').
  assert (Hnone : unrecorded (store w) = []).
  { unfold unrecorded.
    induction get_migrations as [| m ms IH]; [reflexivity |].
    cbn [filter]. rewrite (Hall m (or_introl eq_refl)). cbn [negb].
    apply IH. intros m' Hm'. apply Hall. right. exact Hm'. }
  rewrite Hnone in *. cbn [record_all] in Hw'.
  exists (run_report [] (timings w)), w'.
  split; [exact Hrun |]. repeat (split; [reflexivity |]).
  destruct Hw' as (_ & _ & -> & _).
  unfold ensured. destruct (schema_migrations (store w)) eqn:Hl; [reflexivity |].
  specialize (Hall _ (or_introl eq_refl)).
  unfold is_recorded, recorded in Hall. rewrite Hl in Hall. discriminate.
Qed.

Lemma rerun_applies_nothing_run :
  exists result w',
    run_migrations Sample.all_applied = (Returned result, w') /\
    subscript result "applied_count" = Returned (PInt 0) /\
    store w' = store Sample.all_applied.
Proof.
  destruct (rerun_applies_nothing Sample.all_applied (conj eq_refl eq_refl) eq_refl)
    as (result & w' & Hrun & _ & _ & Hcount & Hstore).
  - intros m [<- | [<- | [<- | []]]]; reflexivity.
  - exists result, w'. auto.
Defined.

(* ===================================================================== *)
(** ** Further properties of the handlers and the runner *)
(* ===================================================================== *)

From Stdlib Require Import Permutation.
Import Effects.

(** *** What the handlers leave alone *)

Lemma update_where_rows {A : Type} (sel : A -> bool) (f : A -> option A) (rows : list A)
  (all hit : list A) :
  update_where sel f rows = Some (all, hit) ->
  Forall2 (fun r r' => if sel r then f r = Some r' else r' = r) rows all.
Proof.
  revert all hit. induction rows as [| r rows IH]; intros all hit; cbn.
  - intros [= <- <-]. constructor.
  - destruct (update_where sel f rows) as [[all' hit'] |]; [| discriminate].
    destruct (sel r) eqn:Hs.
    + destruct (f r) as [r' |] eqn:Hf; [| discriminate].
      intros [= <- <-]. constructor; [rewrite Hs; exact Hf | eapply IH; reflexivity].
    + intros [= <- <-]. constructor; [rewrite Hs; reflexivity | eapply IH; reflexivity].
Qed.

Lemma update_where_map {A B : Type} (g : A -> B) (sel : A -> bool) (f : A -> option A)
  (rows all hit : list A) :
  (forall r r', f r = Some r' -> g r' = g r) ->
  update_where sel f rows = Some (all, hit) ->
  map g all = map g rows.
Proof.
  intros Hg H. apply update_where_rows in H.
  induction H as [| r r' rows all Hr _ IH]; [reflexivity |].
  cbn. rewrite IH. f_equal.
  destruct (sel r); [exact (Hg _ _ Hr) | congruence].
Qed.

Lemma update_where_others {A : Type} (sel : A -> bool) (f : A -> option A)
  (rows all hit : list A) :
  update_where sel f rows = Some (all, hit) ->
  forall i r, nth_error rows i = Some r -> sel r = false -> nth_error all i = Some r.
Proof.
  intros H. apply update_where_rows in H.
  induction H as [| r r' rows all Hr _ IH]; intros i x Hi Hx.
  - destruct i; discriminate.
  - destruct i as [| i]; cbn in *.
    + injection Hi as ->. rewrite Hx in Hr. congruence.
    + exact (IH i x Hi Hx).
Qed.

Lemma assign_language_identity (assignments : list (string * value)) :
  forall l l', assign_language assignments l = Some l' ->
               language_identity l' = language_identity l.
Proof.
  induction assignments as [| [col v] rest IH]; intros l l'; cbn.
  - congruence.
  - repeat match goal with
           | |- context [if ?b then _ else _] => destruct b
           end;
      try discriminate;
      try (destruct (as_text v); cbn; [| discriminate]);
      intros H; rewrite (IH _ _ H); reflexivity.
Qed.

Lemma assign_word_identity (assignments : list (string * value)) :
  forall w w', assign_word assignments w = Some w' -> word_identity w' = word_identity w.
Proof.
  induction assignments as [| [col v] rest IH]; intros w w'; cbn.
  - congruence.
  - repeat match goal with
           | |- context [if ?b then _ else _] => destruct b
           end;
      try discriminate;
      try (destruct (as_text v); cbn; [| discriminate]);
      try (destruct (as_text_array v); cbn; [| discriminate]);
      try (destruct (as_bool v); cbn; [| discriminate]);
      try (destruct (as_float_array v); cbn; [| discriminate]);
      intros H; rewrite (IH _ _ H); reflexivity.
Qed.

Lemma assign_user_identity (assignments : list (string * value)) :
  forall u u', assign_user assignments u = Some u' -> user_identity u' = user_identity u.
Proof.
  induction assignments as [| [col v] rest IH]; intros u u'; cbn.
  - congruence.
  - repeat match goal with
           | |- context [if ?b then _ else _] => destruct b
           end;
      try discriminate;
      try (destruct (as_text v); cbn; [| discriminate]);
      intros H; rewrite (IH _ _ H); reflexivity.
Qed.

Lemma preserves_ret {A : Type} (P : database -> Prop) (a : A) : preserves P (ret a).
Proof. intros w H. exact H. Qed.

Lemma preserves_lift {A : Type} (P : database -> Prop) (o : outcome A) :
  preserves P (lift o).
Proof. intros w H. exact H. Qed.

Lemma preserves_bind {A B : Type} (P : database -> Prop) (c : M A) (k : A -> M B) :
  preserves P c -> (forall a, preserves P (k a)) -> preserves P (bind c k).
Proof.
  intros Hc Hk w H. unfold bind. specialize (Hc w H).
  destruct (c w) as [[a | e] w1]; cbn [snd] in *; [apply Hk; exact Hc | exact Hc].
Qed.

Lemma preserves_execute (P : database -> Prop) (q : statement) (fetch : bool) :
  (forall d c d', P d -> run q d = Returned (c, d') -> P d') ->
  preserves P (execute_query q fetch).
Proof.
  intros Hq w H.
  destruct (execute_query_frame q fetch w) as (_ & _ & _ & [-> | (c & d' & Hrun & ->)]);
    [exact H | exact (Hq _ _ _ H Hrun)].
Qed.

Lemma run_reads_only (q : statement) (d : database) (c : cursor) (d' : database) :
  reads_only q = true -> run q d = Returned (c, d') -> d' = d.
Proof.
  destruct q; try discriminate; intros _; cbn.
  - destruct (as_text language_id), (as_text user_id); congruence.
  - destruct language_id as [p |]; [destruct (as_text p) |]; congruence.
  - destruct (as_text word_id), (as_text user_id); congruence.
  - destruct (as_text language_id); congruence.
  - destruct (schema_migrations d); congruence.
Qed.

Lemma preserves_select (P : database -> Prop) (q : statement) (fetch : bool) :
  reads_only q = true -> preserves P (execute_query q fetch).
Proof.
  intros Hq. apply preserves_execute. intros d c d' H Hrun.
  rewrite (run_reads_only q d c d' Hq Hrun). exact H.
Qed.

(** A statement without a result set, fetched: the call raises and the
    statement is rolled back. *)
Lemma insert_translation_raises (a b c : value) (w : world) :
  exists e w',
    execute_query (InsertTranslation a b c) true w = (Raised e, w') /\
    store w' = store w.
Proof.
  destruct (secret_arn w) as [arn |] eqn:Harn.
  2:{ rewrite (execute_query_no_secret _ true w Harn). eexists _, _. split; reflexivity. }
  rewrite (execute_query_unfold _ true w arn Harn). unfold step. cbn [run].
  destruct (faults w) as [| [e0 |] [| [e1 |] p2]]; cbn;
    destruct (as_text a), (as_text b), (as_text c); cbn;
    try destruct (existsb _ _); cbn; eexists _, _; split; reflexivity.
Qed.

Lemma preserves_insert_translations (P : database -> Prop) (word_id : value)
  (entries : list value) :
  preserves P (Words.insert_translations word_id entries).
Proof.
  induction entries as [| t rest IH]; cbn [Words.insert_translations].
  - apply preserves_ret.
  - apply preserves_bind; [apply preserves_lift |]. intros meaning.
    apply preserves_bind; [| intros _; exact IH].
    destruct (truthy meaning); [| apply preserves_ret].
    apply preserves_bind; [apply preserves_lift |]. intros code.
    apply preserves_bind; [apply preserves_lift |]. intros m'.
    apply preserves_bind; [| intros _; apply preserves_ret].
    intros w H.
    destruct (insert_translation_raises word_id code m' w) as (e & w' & -> & Hs).
    cbn [snd]. rewrite Hs. exact H.
Qed.

Lemma of_option_text (x : option string) (s : string) :
  as_text (of_option x) = Some s -> x = Some s.
Proof. destruct x; cbn; congruence. Qed.

(** X2: whatever the identifier, the body and the environment,
    [update_language] leaves every table other than languages as it was; in
    languages it adds and removes no row and changes no row's id, owner or
    creation time; and a row whose id is not the one given stays where it
    is, unchanged. *)
Theorem update_language_touches (language_id : option string) (data : dict) (w : world) :
  let d := store w in
  let d' := store (snd (Languages.update_language language_id data w)) in
  same_but_languages d d' /\
  map language_identity (languages d') = map language_identity (languages d) /\
  (forall i l, nth_error (languages d) i = Some l -> language_id <> Some (l_id l) ->
               nth_error (languages d') i = Some l).
Proof.
  cbv zeta.
  set (P := fun d' : database =>
    same_but_languages (store w) d' /\
    map language_identity (languages d') = map language_identity (languages (store w)) /\
    (forall i l, nth_error (languages (store w)) i = Some l ->
                 language_id <> Some (l_id l) -> nth_error (languages d') i = Some l)).
  assert (H0 : P (store w)).
  { unfold P, same_but_languages. repeat split; auto. }
  assert (Hp : preserves P (Languages.update_language language_id data)).
  2:{ exact (Hp w H0). }
  clear H0. unfold Languages.update_language.
  destruct (given language_id); cbn [negb]; [| apply preserves_ret].
  destruct (Languages.update_fields data) as [| f fs]; [apply preserves_ret |].
  apply preserves_bind.
  { unfold Languages.verify_owner. destruct (dict_get data "user_id") as [supplied |];
      [| apply preserves_ret].
    apply preserves_bind; [apply preserves_select; reflexivity |]. intros v.
    destruct (truthy v); cbn [negb]; [| apply preserves_ret].
    apply preserves_bind; [apply preserves_lift |]. intros first.
    apply preserves_bind; [apply preserves_lift |]. intros owner.
    destruct (py_ne owner supplied); apply preserves_ret. }
  intros [r |]; [apply preserves_ret |].
  apply preserves_bind.
  2:{ intros v. destruct (truthy v); cbn [negb]; [| apply preserves_ret].
      apply preserves_bind; [apply preserves_lift |]. intros row. apply preserves_ret. }
  apply preserves_execute. intros d c d' (Hs & Hm & Ho). cbn [run].
  destruct (as_text (of_option language_id)) as [lid |] eqn:Hid; [| discriminate].
  apply of_option_text in Hid.
  destruct (update_where _ _ (languages d)) as [[all hit] |] eqn:Hu; [| discriminate].
  intros [= _ <-]. unfold P, same_but_languages in *. cbn.
  split; [exact Hs |]. split.
  - rewrite <- Hm. eapply update_where_map; [| exact Hu].
    intros r r'. apply assign_language_identity.
  - intros i l Hi Hl. eapply update_where_others; [exact Hu | exact (Ho i l Hi Hl) |].
    cbv beta. destruct (String.eqb_spec (l_id l) lid); [subst; congruence | reflexivity].
Qed.

Lemma leaves_bind {A B : Type} (P R Q : database -> Prop) (c : M A) (k : A -> M B) :
  leaves P c R -> (forall d, R d -> Q d) -> (forall a, leaves R (k a) Q) ->
  leaves P (bind c k) Q.
Proof.
  intros Hc HRQ Hk w H. unfold bind. specialize (Hc w H).
  destruct (c w) as [[a | e] w1]; cbn [snd] in *; [apply Hk; exact Hc | apply HRQ; exact Hc].
Qed.

Lemma leaves_lift_bind {A B : Type} (P Q : database -> Prop) (o : outcome A)
  (k : A -> M B) :
  (forall d, P d -> Q d) -> (forall a, o = Returned a -> leaves P (k a) Q) ->
  leaves P (bind (lift o) k) Q.
Proof.
  intros HPQ Hk w H. unfold bind, lift.
  destruct o as [a | e]; [exact (Hk a eq_refl w H) | apply HPQ; exact H].
Qed.

Lemma preserves_delete_translations (P : database -> Prop) (p : value) :
  preserves P (execute_query (DeleteTranslations p) true).
Proof.
  intros w H. destruct (delete_translations_raises p w) as (e & w' & -> & Hs).
  cbn [snd]. rewrite Hs. exact H.
Qed.

(** X3: whatever the identifier, the body and the environment,
    [update_word] leaves every table other than words as it was (the
    translations among them, whatever the body holds); in words it adds and
    removes no row and changes no row's id, language or creation time; and a
    row whose id is not the one given stays where it is, unchanged. *)
Theorem update_word_touches (word_id : option string) (data : dict) (w : world) :
  let d := store w in
  let d' := store (snd (Words.update_word word_id data w)) in
  same_but_words d d' /\
  map word_identity (words d') = map word_identity (words d) /\
  (forall i x, nth_error (words d) i = Some x -> word_id <> Some (w_id x) ->
               nth_error (words d') i = Some x).
Proof.
  cbv zeta.
  set (P := fun d' : database =>
    same_but_words (store w) d' /\
    map word_identity (words d') = map word_identity (words (store w)) /\
    (forall i x, nth_error (words (store w)) i = Some x ->
                 word_id <> Some (w_id x) -> nth_error (words d') i = Some x)).
  assert (H0 : P (store w)).
  { unfold P, same_but_words. repeat split; auto. }
  assert (Hp : preserves P (Words.update_word word_id data)).
  2:{ exact (Hp w H0). }
  clear H0. unfold Words.update_word.
  destruct (given word_id); cbn [negb]; [| apply preserves_ret].
  apply preserves_bind.
  { destruct (dict_get data "user_id") as [supplied |]; [| apply preserves_ret].
    apply preserves_bind; [apply preserves_select; reflexivity |]. intros v.
    apply preserves_ret. }
  intros [|]; [apply preserves_ret |].
  destruct (Words.update_fields data) as [| f fs]; [apply preserves_ret |].
  apply preserves_bind.
  2:{ intros v. destruct (truthy v); cbn [negb]; [| apply preserves_ret].
      apply preserves_bind.
      - destruct (dict_get data "translations") as [ts |]; [| apply preserves_ret].
        apply preserves_bind; [apply preserves_delete_translations |]. intros _.
        apply preserves_bind; [apply preserves_lift |]. intros entries.
        apply preserves_insert_translations.
      - intros _. apply preserves_bind; [apply preserves_lift |]. intros row.
        apply preserves_ret. }
  apply preserves_execute. intros d c d' (Hs & Hm & Ho). cbn [run].
  destruct (as_text (of_option word_id)) as [wid |] eqn:Hid; [| discriminate].
  apply of_option_text in Hid.
  destruct (update_where _ _ (words d)) as [[all hit] |] eqn:Hu; [| discriminate].
  intros [= _ <-]. unfold P, same_but_words in *. cbn.
  split; [exact Hs |]. split.
  - rewrite <- Hm. eapply update_where_map; [| exact Hu].
    intros r r'. apply assign_word_identity.
  - intros i x Hi Hx. eapply update_where_others; [exact Hu | exact (Ho i x Hi Hx) |].
    cbv beta. destruct (String.eqb_spec (w_id x) wid); [subst; congruence | reflexivity].
Qed.

(** X4: whatever the identifier, the body and the environment,
    [update_user] leaves every table other than users as it was; in users it
    adds and removes no row and changes no row's id or creation time; and a
    row of another user stays where it is, unchanged. *)
Theorem update_user_touches (user_id : option string) (data : dict) (w : world) :
  let d := store w in
  let d' := store (snd (Users.update_user user_id data w)) in
  same_but_users d d' /\
  map user_identity (users d') = map user_identity (users d) /\
  (forall i u, nth_error (users d) i = Some u -> user_id <> Some (u_user_id u) ->
               nth_error (users d') i = Some u).
Proof.
  cbv zeta.
  set (P := fun d' : database =>
    same_but_users (store w) d' /\
    map user_identity (users d') = map user_identity (users (store w)) /\
    (forall i u, nth_error (users (store w)) i = Some u ->
                 user_id <> Some (u_user_id u) -> nth_error (users d') i = Some u)).
  assert (H0 : P (store w)).
  { unfold P, same_but_users. repeat split; auto. }
  assert (Hp : preserves P (Users.update_user user_id data)).
  2:{ exact (Hp w H0). }
  clear H0. unfold Users.update_user.
  destruct (given user_id); cbn [negb]; [| apply preserves_ret].
  destruct (_ ++ _) as [| f fs]; [apply preserves_ret |].
  apply preserves_bind.
  2:{ intros v. destruct (truthy v); cbn [negb]; [| apply preserves_ret].
      apply preserves_bind; [apply preserves_lift |]. intros row. apply preserves_ret. }
  apply preserves_execute. intros d c d' (Hs & Hm & Ho). cbn [run].
  destruct (as_text (of_option user_id)) as [uid |] eqn:Hid; [| discriminate].
  apply of_option_text in Hid.
  destruct (update_where _ _ (users d)) as [[all hit] |] eqn:Hu; [| discriminate].
  destruct (existsb _ hit); [discriminate |].
  intros [= _ <-]. unfold P, same_but_users in *. cbn.
  split; [exact Hs |]. split.
  - rewrite <- Hm. eapply update_where_map; [| exact Hu].
    intros r r'. apply assign_user_identity.
  - intros i x Hi Hx. eapply update_where_others; [exact Hu | exact (Ho i x Hi Hx) |].
    cbv beta. destruct (String.eqb_spec (u_user_id x) uid); [subst; congruence | reflexivity].
Qed.

(** X5: whatever the body and the environment, [create_word] leaves
    users, languages, translations, the ledger and the scripts run as they
    were: no translation of a payload is ever stored.  The words table is as
    before or has one row more at its end, whose id is the fresh one and
    whose language is the body's language_id. *)
Theorem create_word_touches (data : dict) (w : world) :
  let d := store w in
  let d' := store (snd (Words.create_word data w)) in
  same_but_words d d' /\
  (words d' = words d \/
   exists x, words d' = words d ++ [x] /\ w_id x = fresh_id (clock d) /\
             Returned (PStr (w_language_id x)) = item data "language_id").
Proof.
  cbv zeta.
  set (P := fun d' : database => d' = store w).
  set (Q := fun d' : database =>
    same_but_words (store w) d' /\
    (words d' = words (store w) \/
     exists x, words d' = words (store w) ++ [x] /\ w_id x = fresh_id (clock (store w)) /\
               Returned (PStr (w_language_id x)) = item data "language_id")).
  assert (HPQ : forall d, P d -> Q d).
  { intros d ->. unfold Q, same_but_words. repeat split; auto. }
  assert (Hp : leaves P (Words.create_word data) Q).
  2:{ exact (Hp w eq_refl). }
  unfold Words.create_word.
  destruct (first_missing _ data); [intros w0 H0; apply HPQ; exact H0 |].
  apply leaves_lift_bind; [exact HPQ |]. intros lid Hlid.
  apply (leaves_bind P P Q); [| exact HPQ |].
  { destruct (dict_get data "user_id") as [supplied |]; [| apply preserves_ret].
    apply preserves_bind; [apply preserves_select; reflexivity |]. intros v.
    apply preserves_ret. }
  intros [|]; [intros w0 H0; apply HPQ; exact H0 |].
  apply (leaves_bind P P Q); [apply preserves_lift | exact HPQ |]. intros word.
  apply (leaves_bind P P Q); [apply preserves_lift | exact HPQ |]. intros ipa.
  apply (leaves_bind P Q Q); [| auto |].
  2:{ intros v. apply preserves_bind; [apply preserves_lift |]. intros row.
      apply preserves_bind; [apply preserves_lift |]. intros wid.
      apply preserves_bind.
      - destruct (dict_get data "translations") as [ts |]; [| apply preserves_ret].
        apply preserves_bind; [apply preserves_lift |]. intros entries.
        apply preserves_insert_translations.
      - intros _. apply preserves_bind; [apply preserves_lift |]. intros row'.
        apply preserves_ret. }
  intros w0 H0. unfold P in H0.
  destruct (execute_query_frame (InsertWord lid word ipa (get_or data "pos" (PList []))
              (get_or data "is_root" (PBool false)) (get_or data "embedding" PNone))
              true w0) as (_ & _ & _ & [-> | (c & d' & Hrun & ->)]);
    [apply HPQ; exact H0 |].
  rewrite H0 in Hrun. cbn [run] in Hrun.
  destruct (as_text lid) as [l |] eqn:Hl; [| discriminate].
  destruct lid; try discriminate. injection Hl as ->.
  repeat match type of Hrun with
         | context [match ?x with _ => _ end] => destruct x; try discriminate
         end.
  injection Hrun as _ <-. unfold Q, same_but_words. cbn.
  split; [repeat split |]. right. eexists. split; [reflexivity |].
  cbn. split; [reflexivity | symmetry; exact Hlid].
Qed.

(** *** The word listing *)







(** X6: with a non-empty languageId in the query string, [get_words]
    is [get_language_words] called with the languageId and the userId of the
    query: same outcome and same calls, in every environment. *)
Theorem get_words_by_language (query_params : list (string * string)) (w : world) :
  given (Words.param query_params "languageId") = true ->
  Words.get_words query_params w =
  Words.get_language_words (Words.param query_params "languageId")
    (Words.param query_params "userId") w.
Proof.
  intros Hl. unfold Words.get_words, Words.get_language_words. rewrite Hl. cbn [negb andb].
  destruct (given (Words.param query_params "userId")); unfold bind, ret.
  - destruct (execute_query _ true w) as [[v | e] w1]; [| reflexivity].
    destruct (truthy v); reflexivity.
  - reflexivity.
Qed.

Lemma get_words_by_language_run :
  Words.get_words [("languageId", "L1"); ("userId", "alice")] Sample.start =
  Words.get_language_words (Some "L1") (Some "alice") Sample.start.
Proof.
  exact (get_words_by_language [("languageId", "L1"); ("userId", "alice")] Sample.start
           eq_refl).
Defined.


(** *** Users *)


Lemma update_where_hit {A : Type} (sel : A -> bool) (f : A -> option A)
  (rows all hit : list A) :
  update_where sel f rows = Some (all, hit) ->
  (existsb sel rows = false -> hit = [] /\ all = rows) /\
  (forall r', In r' hit -> exists r, In r rows /\ sel r = true /\ f r = Some r') /\
  (existsb sel rows = true -> hit <> []).
Proof.
  revert all hit. induction rows as [| r rows IH]; intros all hit; cbn.
  - intros [= <- <-]. cbn. repeat split; auto; try discriminate. intros r' [].
  - destruct (update_where sel f rows) as [[all' hit'] |]; [| discriminate].
    destruct (IH _ _ eq_refl) as (H1 & H2 & H3).
    destruct (sel r) eqn:Hs; cbn.
    + destruct (f r) as [r' |] eqn:Hf; [| discriminate].
      intros [= <- <-].
      split; [discriminate |]. split; [| discriminate].
      intros x [<- | Hx]; [exists r; auto |].
      destruct (H2 x Hx) as (r0 & Hr0 & Hsel & Hfr). exists r0. auto.
    + intros [= <- <-].
      split; [intros E; destruct (H1 E) as [-> ->]; auto |].
      split; [| exact H3].
      intros x Hx. destruct (H2 x Hx) as (r0 & Hr0 & Hsel & Hfr). exists r0. auto.
Qed.

(** What a row rewritten by the upsert holds. *)
Lemma upsert_rows (uid em un : string) (rows all hit : list user_row) :
  update_where (fun u => String.eqb (u_user_id u) uid)
    (fun u => Some {| u_user_id := u_user_id u; u_email := em; u_username := un;
                      u_created_at := u_created_at u |}) rows = Some (all, hit) ->
  map user_identity all = map user_identity rows /\
  (forall u, In u all -> u_user_id u = uid -> u_email u = em /\ u_username u = un) /\
  (forall i u, nth_error rows i = Some u -> u_user_id u <> uid -> nth_error all i = Some u) /\
  (forall u, In u hit -> u_user_id u = uid /\ u_email u = em /\ u_username u = un /\ In u all).
Proof.
  intros H. split; [| split; [| split]].
  - eapply update_where_map; [| exact H]. intros r r' [= <-]. reflexivity.
  - apply update_where_rows in H. induction H as [| r r' rows all Hr _ IH]; [intros u [] |].
    intros u [<- | Hu] Hid; [| exact (IH u Hu Hid)].
    destruct (String.eqb_spec (u_user_id r) uid) as [E | E].
    + injection Hr as <-. cbn. auto.
    + subst r'. contradiction.
  - intros i u Hi Hu. eapply update_where_others; [exact H | exact Hi |].
    cbv beta. destruct (String.eqb_spec (u_user_id u) uid); [contradiction | reflexivity].
  - revert all hit H. induction rows as [| r rows IH]; intros all hit; cbn.
    + intros [= <- <-] u [].
    + destruct (update_where _ _ rows) as [[all' hit'] |]; [| discriminate].
      specialize (IH _ _ eq_refl).
      destruct (String.eqb_spec (u_user_id r) uid) as [E | E].
      * intros [= <- <-] u [<- | Hu]; cbn; [auto |].
        destruct (IH u Hu) as (? & ? & ? & ?). auto.
      * intros [= <- <-] u Hu. destruct (IH u Hu) as (? & ? & ? & ?). cbn. auto.
Qed.

Lemma upsert_user_outcome (data : dict) (uid em un : string) (w : world) :
  available w ->
  dict_get data "user_id" = Some (PStr uid) ->
  dict_get data "email" = Some (PStr em) ->
  dict_get data "username" = Some (PStr un) ->
  let d := store w in
  let r := Users.create_or_update_user data w in
  let d' := store (snd r) in
  if email_taken d uid em then
    (exists msg, fst r = Raised (IntegrityError msg)) /\ d' = d
  else
    same_but_users d d' /\
    (exists u, fst r = Returned (lambda_response 201 (user_record u) None) /\
               In u (users d') /\ u_user_id u = uid) /\
    (forall u, In u (users d') -> u_user_id u = uid -> u_email u = em /\ u_username u = un) /\
    (forall i u, nth_error (users d) i = Some u -> u_user_id u <> uid ->
                 nth_error (users d') i = Some u) /\
    if user_exists d uid
    then map user_identity (users d') = map user_identity (users d)
    else users d' = users d ++ [{| u_user_id := uid; u_email := em; u_username := un;
                                   u_created_at := clock d |}].
Proof.
  intros Hav Hu He Hn. cbv zeta. unfold Users.create_or_update_user.
  assert (Hin : forall k v, dict_get data k = Some v -> dict_in k data = true).
  { intros k v H. unfold dict_in. rewrite H. reflexivity. }
  cbn [first_missing]. rewrite (Hin _ _ Hu), (Hin _ _ He), (Hin _ _ Hn). cbn [negb].
  unfold item, lift, bind, ret. rewrite Hu, He, Hn.
  rewrite (execute_query_available _ w Hav). cbn [run as_text]. unfold user_exists.
  destruct (email_taken (store w) uid em).
  { cbn. split; [eexists; reflexivity | reflexivity]. }
  destruct (existsb _ (users (store w))) eqn:Hex.
  - destruct (update_where _ _ (users (store w))) as [[all hit] |] eqn:Hup.
    2:{ exfalso. clear - Hup. induction (users (store w)) as [| r rows IH]; cbn in Hup;
          [discriminate |].
        destruct (update_where _ _ rows) as [[a h] |]; [| auto].
        destruct (String.eqb _ _); discriminate. }
    destruct (upsert_rows _ _ _ _ _ _ Hup) as (H1 & H2 & H3 & H4).
    destruct (update_where_hit _ _ _ _ _ Hup) as (_ & _ & Hne).
    specialize (Hne Hex). destruct hit as [| h hit]; [congruence |].
    unfold records. cbn. unfold same_but_users. cbn.
    split; [repeat split |]. split.
    { exists h. destruct (H4 h (or_introl eq_refl)) as (? & ? & ? & ?). auto. }
    split; [exact H2 |]. split; [exact H3 | exact H1].
  - unfold records. cbn. unfold same_but_users. cbn.
    split; [repeat split |]. split.
    { exists {| u_user_id := uid; u_email := em; u_username := un;
                u_created_at := clock (store w) |}.
      split; [reflexivity |]. split; [| reflexivity].
      apply in_or_app. right. left. reflexivity. }
    split; [| split; [| reflexivity]].
    + intros u Hin' Hid. apply in_app_or in Hin'. destruct Hin' as [Hin' | [<- | []]].
      * exfalso. rewrite <- Bool.not_true_iff_false in Hex. apply Hex.
        apply existsb_exists. exists u. split; [exact Hin' |].
        rewrite Hid. apply String.eqb_refl.
      * cbn. auto.
    + intros i u Hi _.
      rewrite nth_error_app1; [exact Hi |].
      apply nth_error_Some. congruence.
Qed.

(** X8: with the environment in order and a body whose user_id, email and
    username are strings, [create_or_update_user] raises the IntegrityError
    of the UNIQUE constraint and leaves the database as it was when the
    email belongs to another user.  Otherwise it answers 201 with a row of
    that user_id, touches no other table, leaves every row of another user
    where it was, and afterwards every row of that user_id holds the body's
    email and username: when the user existed no row is added and ids and
    creation times are kept, when not one row with the clock's time stamp is
    added at the end. *)
Theorem upsert_user (data : dict) (uid em un : string) (w : world) :
  available w ->
  dict_get data "user_id" = Some (PStr uid) ->
  dict_get data "email" = Some (PStr em) ->
  dict_get data "username" = Some (PStr un) ->
  let d := store w in
  let r := Users.create_or_update_user data w in
  let d' := store (snd r) in
  if email_taken d uid em then
    (exists msg, fst r = Raised (IntegrityError msg)) /\ d' = d
  else
    same_but_users d d' /\
    (exists u, fst r = Returned (lambda_response 201 (user_record u) None) /\
               In u (users d') /\ u_user_id u = uid) /\
    (forall u, In u (users d') -> u_user_id u = uid -> u_email u = em /\ u_username u = un) /\
    (forall i u, nth_error (users d) i = Some u -> u_user_id u <> uid ->
                 nth_error (users d') i = Some u) /\
    if user_exists d uid
    then map user_identity (users d') = map user_identity (users d)
    else users d' = users d ++ [{| u_user_id := uid; u_email := em; u_username := un;
                                   u_created_at := clock d |}].
Proof. exact (upsert_user_outcome data uid em un w). Qed.

Lemma update_where_total {A : Type} (sel : A -> bool) (f : A -> option A) (g : A -> A)
  (rows : list A) :
  (forall r, f r = Some (g r)) ->
  update_where sel f rows =
  Some (map (fun r => if sel r then g r else r) rows, map g (filter sel rows)).
Proof.
  intros Hf. induction rows as [| r rows IH]; [reflexivity |].
  cbn. rewrite IH, Hf. destruct (sel r); reflexivity.
Qed.

Lemma with_users_same (d : database) : with_users d (users d) = d.
Proof. destruct d; reflexivity. Qed.

Lemma with_languages_same (d : database) : with_languages d (languages d) = d.
Proof. destruct d; reflexivity. Qed.

Lemma with_words_same (d : database) : with_words d (words d) = d.
Proof. destruct d; reflexivity. Qed.

Lemma map_if_Forall2 {A : Type} (sel : A -> bool) (g : A -> A) (rows : list A) :
  Forall2 (fun r r' => r' = if sel r then g r else r) rows
    (map (fun r => if sel r then g r else r) rows).
Proof. induction rows; constructor; auto. Qed.

Lemma filter_none {A : Type} (sel : A -> bool) (rows : list A) :
  existsb sel rows = false -> filter sel rows = [].
Proof.
  induction rows as [| r rows IH]; [reflexivity |]. cbn.
  destruct (sel r); [discriminate | exact IH].
Qed.

Lemma map_if_none {A : Type} (sel : A -> bool) (g : A -> A) (rows : list A) :
  existsb sel rows = false -> map (fun r => if sel r then g r else r) rows = rows.
Proof.
  induction rows as [| r rows IH]; [reflexivity |]. cbn.
  destruct (sel r); [discriminate |]. intros H. rewrite (IH H). reflexivity.
Qed.

Lemma filter_some {A : Type} (sel : A -> bool) (rows : list A) :
  existsb sel rows = true -> exists r rest, filter sel rows = r :: rest /\ sel r = true /\ In r rows.
Proof.
  induction rows as [| r rows IH]; [discriminate |]. cbn.
  destruct (sel r) eqn:E.
  - intros _. exists r, (filter sel rows). auto.
  - intros H. destruct (IH H) as (r0 & rest & ? & ? & ?). exists r0, rest. auto.
Qed.

Lemma assign_user_amended (data : dict) (u : user_row) :
  text_if_present data "email" -> text_if_present data "username" ->
  assign_user
    ((if dict_in "email" data then [("email", get_or data "email" PNone)] else []) ++
     (if dict_in "username" data then [("username", get_or data "username" PNone)] else []))
    u = Some (amended_user data u).
Proof.
  intros He Hn. unfold dict_in, get_or, amended_user, text_or.
  destruct (dict_get data "email") as [e |] eqn:E1;
    [destruct (He e E1) as (s & ->) |];
    (destruct (dict_get data "username") as [n |] eqn:E2;
     [destruct (Hn n E2) as (s' & ->) |]); cbn; try reflexivity.
  destruct u; reflexivity.
Qed.

(** X9: with the environment in order, a non-empty user id and a body
    that has email or username (strings), on a database whose emails are
    unique and where the body's email belongs to no other user:
    [update_user] answers 200 with the amended row when the user exists; in
    users the rows of that id have the body's values written over them (a
    field the body lacks keeps its value), every other row is as before, and
    no other table changes.  When no row has that id it answers 404, User
    not found, and the database is as it was. *)
Theorem update_user_changes (uid : string) (data : dict) (w : world) :
  available w ->
  uid <> EmptyString ->
  dict_in "email" data = true \/ dict_in "username" data = true ->
  text_if_present data "email" ->
  text_if_present data "username" ->
  unique_emails (store w) ->
  (forall s, dict_get data "email" = Some (PStr s) -> email_taken (store w) uid s = false) ->
  let d := store w in
  let r := Users.update_user (Some uid) data w in
  let d' := store (snd r) in
  if user_exists d uid then
    same_but_users d d' /\
    Forall2 (fun u u' => u' = if String.eqb (u_user_id u) uid then amended_user data u else u)
      (users d) (users d') /\
    exists u, In u (users d) /\ u_user_id u = uid /\
              fst r = Returned (lambda_response 200 (user_record (amended_user data u)) None)
  else
    fst r = Returned (lambda_response 404 (error_body "User not found") None) /\ d' = d.
Proof.
  intros Hav Huid Hsome He Hn Huniq Hfree. cbv zeta. unfold Users.update_user.
  rewrite (given_nonempty _ Huid). cbn [negb of_option].
  pose proof (fun u => assign_user_amended data u He Hn) as Hassign.
  destruct (_ ++ _) as [| f fs] eqn:Hfields.
  { exfalso. destruct Hsome as [H | H]; rewrite H in Hfields;
      [| destruct (dict_in "email" data)]; discriminate. }
  unfold bind. rewrite (execute_query_available _ w Hav). cbn [run as_text].
  rewrite (update_where_total _ _ (amended_user data) _ Hassign).
  unfold user_exists.
  destruct (existsb _ (users (store w))) eqn:Hex.
  - assert (Hok : existsb (fun u => email_taken (store w) uid (u_email u))
                    (map (amended_user data)
                       (filter (fun u => String.eqb (u_user_id u) uid) (users (store w))))
                  = false).
    { apply Bool.not_true_iff_false. intros H. apply existsb_exists in H.
      destruct H as (u' & Hin & Htaken). apply in_map_iff in Hin.
      destruct Hin as (u & <- & Hu). apply filter_In in Hu. destruct Hu as (Hu & Hid).
      apply String.eqb_eq in Hid.
      cbn in Htaken. unfold text_or in Htaken.
      destruct (dict_get data "email") as [v |] eqn:Hv.
      - destruct (He v Hv) as (s & ->). rewrite (Hfree s eq_refl) in Htaken.
        discriminate.
      - unfold email_taken in Htaken. apply existsb_exists in Htaken.
        destruct Htaken as (u2 & Hu2 & Hc). apply andb_prop in Hc. destruct Hc as (E1 & E2).
        apply String.eqb_eq in E1. apply negb_true_iff in E2.
        apply String.eqb_neq in E2. apply E2.
        rewrite (Huniq u2 u Hu2 Hu E1). exact Hid. }
    rewrite Hok. destruct (filter_some _ _ Hex) as (u & rest & Hfil & Hsel & Hin).
    rewrite Hfil. unfold records. cbn. unfold same_but_users. cbn.
    split; [repeat split |]. split; [apply map_if_Forall2 |].
    exists u. apply String.eqb_eq in Hsel. auto.
  - rewrite (filter_none _ _ Hex), (map_if_none _ _ _ Hex). cbn.
    rewrite with_users_same. split; reflexivity.
Qed.

(** *** Languages *)

Lemma create_language_outcome (data : dict) (uid name : string) (w : world) :
  available w ->
  dict_get data "user_id" = Some (PStr uid) ->
  dict_get data "name" = Some (PStr name) ->
  none_of ["phonemes"; "alphabet_mappings"; "syllables"; "rules"] data ->
  let d := store w in
  let r := Languages.create_language data w in
  let d' := store (snd r) in
  if user_exists d uid then
    let row := {| l_id := fresh_id (clock d); l_user_id := uid; l_name := name;
                  l_phonemes := Languages.default_phonemes;
                  l_alphabet_mappings := Languages.default_alphabet_mappings;
                  l_syllables := "CV"; l_rules := EmptyString;
                  l_created_at := clock d |} in
    fst r = Returned (lambda_response 201 (language_record row) None) /\
    languages d' = languages d ++ [row] /\
    same_but_languages d d'
  else
    (exists msg, fst r = Raised (IntegrityError msg)) /\ d' = d.
Proof.
  intros Hav Hu Hn Hnone. cbv zeta. unfold Languages.create_language.
  assert (Hin : forall k v, dict_get data k = Some v -> dict_in k data = true).
  { intros k v H. unfold dict_in. rewrite H. reflexivity. }
  assert (Hout : forall k dflt,
             In k ["phonemes"; "alphabet_mappings"; "syllables"; "rules"] ->
             get_or data k dflt = dflt).
  { intros k dflt Hk. specialize (Hnone k Hk). unfold dict_in in Hnone. unfold get_or.
    destruct (dict_get data k); [discriminate | reflexivity]. }
  cbn [first_missing]. rewrite (Hin _ _ Hu), (Hin _ _ Hn). cbn [negb].
  rewrite !Hout by (cbn; tauto).
  unfold item, lift, bind, ret. rewrite Hu, Hn.
  rewrite (execute_query_available _ w Hav). cbn [run as_text]. unfold user_exists.
  destruct (existsb _ (users (store w))).
  - unfold records, same_but_languages. cbn. repeat split.
  - cbn. split; [eexists; reflexivity | reflexivity].
Qed.

(** X10: with the environment in order and a body that has strings
    for user_id and name and none of the optional fields: when the user
    exists, [create_language] answers 201 with the new row, added at the end
    of languages with a fresh id, the clock's time stamp and the defaults
    (empty phoneme lists, empty alphabet mappings, syllables CV, empty
    rules), no other table changing; when no such user exists the foreign
    key raises IntegrityError and nothing is stored. *)
Theorem create_language_defaults (data : dict) (uid name : string) (w : world) :
  available w ->
  dict_get data "user_id" = Some (PStr uid) ->
  dict_get data "name" = Some (PStr name) ->
  none_of ["phonemes"; "alphabet_mappings"; "syllables"; "rules"] data ->
  let d := store w in
  let r := Languages.create_language data w in
  let d' := store (snd r) in
  if user_exists d uid then
    let row := {| l_id := fresh_id (clock d); l_user_id := uid; l_name := name;
                  l_phonemes := Languages.default_phonemes;
                  l_alphabet_mappings := Languages.default_alphabet_mappings;
                  l_syllables := "CV"; l_rules := EmptyString;
                  l_created_at := clock d |} in
    fst r = Returned (lambda_response 201 (language_record row) None) /\
    languages d' = languages d ++ [row] /\
    same_but_languages d d'
  else
    (exists msg, fst r = Raised (IntegrityError msg)) /\ d' = d.
Proof. exact (create_language_outcome data uid name w). Qed.



(** *** Creating a word *)




(** *** The runner, whatever fails *)

Lemma ensure_frame (w : world) :
  synced w ->
  let w' := snd (ensure_migrations_table w) in
  synced w' /\ (store w' = store w \/ store w' = ensured (store w)).
Proof.
  intros Hsync. cbv zeta. split; [exact (ensure_synced w Hsync) |].
  unfold synced, ensured in *. unfold_runner.
  destruct Hsync as [Hn | Hn].
  - rewrite Hn. destruct (given (secret_arn w)); cbn; [| auto].
    destruct (faults w) as [| [e0 |] [| [e1 |] [| [e2 |] p3]]]; cbn; auto;
      destruct (schema_migrations (store w)); cbn; auto.
  - destruct (faults w) as [| [e0 |] [| [e1 |] p2]] eqn:Hf;
      destruct (schema_migrations (store w)) eqn:Hl;
      repeat (progress (cbn; rewrite ?Hn, ?Hl, ?Hf)); auto.
Qed.

Lemma applied_store (w : world) : store (snd (get_applied_migrations w)) = store w.
Proof.
  unfold_runner.
  destruct (session w) as [d |] eqn:Hn.
  - destruct (faults w) as [| [e0 |] p1] eqn:Hf;
      repeat (progress (cbn; rewrite ?Hn, ?Hf)); auto;
      destruct (schema_migrations d) eqn:Hl; cbn; auto;
      destruct (first_columns _); cbn; auto.
  - destruct (given (secret_arn w)); cbn; [| auto].
    destruct (faults w) as [| [e0 |] [| [e1 |] p2]]; cbn; auto;
      destruct (schema_migrations (store w)); cbn; auto;
      destruct (first_columns _); cbn; auto.
Qed.

Lemma pending_store (w : world) : store (snd (get_pending_migrations w)) = store w.
Proof.
  unfold get_pending_migrations, bind. pose proof (applied_store w) as H.
  destruct (get_applied_migrations w) as [[vs | e] w']; exact H.
Qed.

Lemma ensured_tables (d : database) :
  users (ensured d) = users d /\ languages (ensured d) = languages d /\
  words (ensured d) = words d /\ translations (ensured d) = translations d /\
  scripts_run (ensured d) = scripts_run d.
Proof. unfold ensured. destruct (schema_migrations d); cbn; auto. Qed.

(** X13: in every environment, whatever fails, when the runner's
    connection holds nothing uncommitted, [get_status] returns a report (it
    does not raise), runs no script, adds and removes no recorded version,
    and leaves the entity tables as they were. *)
Theorem get_status_reads (w : world) :
  synced w ->
  let r := get_status w in
  let d := store w in
  let d' := store (snd r) in
  (exists report, fst r = Returned report) /\
  scripts_run d' = scripts_run d /\ recorded d' = recorded d /\
  users d' = users d /\ languages d' = languages d /\ words d' = words d /\
  translations d' = translations d.
Proof.
  intros Hsync. cbv zeta.
  assert (Hgo : exists o w', get_status w = (Returned o, w') /\
                  (store w' = store w \/ store w' = ensured (store w))).
  { unfold get_status, try_except, bind.
    pose proof (ensure_frame w Hsync) as (_ & He).
    destruct (ensure_migrations_table w) as [[[] | e] w1]; cbn [snd] in He;
      [| unfold ret; eexists _, _; split; [reflexivity | exact He]].
    pose proof (applied_store w1) as Ha.
    destruct (get_applied_migrations w1) as [[vs | e] w2]; cbn [snd] in Ha;
      [| unfold ret; eexists _, _; split; [reflexivity | rewrite Ha; exact He]].
    pose proof (pending_store w2) as Hp.
    destruct (get_pending_migrations w2) as [[ms | e] w3]; cbn [snd] in Hp;
      unfold ret; eexists _, _; (split; [reflexivity | rewrite Hp, Ha; exact He]). }
  destruct Hgo as (o & w' & -> & Hs). cbn [fst snd].
  split; [eexists; reflexivity |].
  destruct (ensured_tables (store w)) as (H1 & H2 & H3 & H4 & H5).
  destruct Hs as [-> | ->]; rewrite ?recorded_ensured; auto 10.
Qed.

Lemma get_status_reads_run :
  let r := get_status Sample.all_applied_read_fails in
  (exists report, fst r = Returned report) /\
  scripts_run (store (snd r)) =
    [initial_schema_migration; etymology_tables_migration; user_preferences_migration].
Proof.
  destruct (get_status_reads Sample.all_applied_read_fails) as (H1 & H2 & _).
  - left. reflexivity.
  - split; [exact H1 | exact H2].
Defined.

Lemma ledger_upsert_recorded (rows : list ledger_row) (v : string) (t : Z) (ds : string)
  (now : nat) :
  existsb (fun r => String.eqb (m_version r) v) rows = true ->
  Forall2 (fun r r' =>
             r' = if String.eqb (m_version r) v
                  then {| m_version := m_version r; m_applied_at := now;
                          m_execution_time_ms := t; m_description := m_description r |}
                  else r)
    rows (ledger_upsert rows v t ds now).
Proof.
  intros H. unfold ledger_upsert. rewrite H. clear H.
  induction rows; constructor; auto.
Qed.

(** X14: [apply_migration] of a migration whose version the ledger
    already records, on a held connection with nothing left to fail, runs
    the script again and returns the elapsed time; the ledger keeps its rows
    and their order: a row of that version keeps its version and its
    description and gets the clock's time stamp and the new timing, every
    other row is unchanged. *)
Theorem reapply_recorded (m : migration) (w : world) (d : database) (ts : list Z)
  (rows : list ledger_row) :
  runner_at w d ts [] ->
  schema_migrations d = Some rows ->
  is_recorded d (version m) = true ->
  let r := apply_migration m w in
  let d' := store (snd r) in
  fst r = Returned (hd 0%Z ts) /\
  scripts_run d' = scripts_run d ++ [sql m] /\
  recorded d' = recorded d /\
  exists rows',
    schema_migrations d' = Some rows' /\
    Forall2 (fun r r' =>
               r' = if String.eqb (m_version r) (version m)
                    then {| m_version := m_version r; m_applied_at := clock d;
                            m_execution_time_ms := hd 0%Z ts;
                            m_description := m_description r |}
                    else r) rows rows'.
Proof.
  intros Hw Hrows Hrec. cbv zeta.
  destruct (apply_ok w d ts rows m Hw Hrows) as (w' & -> & (_ & _ & Hd & _)).
  cbn [fst snd]. rewrite Hd. unfold record_migration, recorded. cbn.
  rewrite Hrows, versions_upsert.
  unfold is_recorded, recorded in Hrec. rewrite Hrows in Hrec. rewrite Hrec.
  split; [reflexivity |]. split; [reflexivity |]. split; [reflexivity |].
  eexists. split; [reflexivity |]. apply ledger_upsert_recorded.
  rewrite <- Hrec. clear. induction rows as [| r rows IH]; [reflexivity |].
  cbn. rewrite IH, (String.eqb_sym (version m)). reflexivity.
Qed.

Lemma apply_each_length (ms : list migration) :
  forall (w w' : world) (acc : list value) (tot : Z) (done : list value * Z),
    apply_each ms acc tot w = (Returned done, w') ->
    length (fst done) = (length acc + length ms)%nat.
Proof.
  induction ms as [| m ms IH]; intros w w' acc tot done Hrun.
  - cbn in Hrun. injection Hrun as <- _. cbn. lia.
  - cbn [apply_each] in Hrun. unfold bind in Hrun.
    destruct (apply_migration m w) as [[t | e] w1]; [| discriminate].
    rewrite (IH _ _ _ _ _ Hrun), length_app. cbn. lia.
Qed.

Lemma apply_each_keeps (ms : list migration) :
  forall (w w' : world) (acc : list value) (tot : Z) (o : outcome (list value * Z)),
    synced w ->
    apply_each ms acc tot w = (o, w') ->
    forall v, is_recorded (store w) v = true -> is_recorded (store w') v = true.
Proof.
  induction ms as [| m ms IH]; intros w w' acc tot o Hsync Hrun v Hv.
  - cbn in Hrun. injection Hrun as _ <-. exact Hv.
  - cbn [apply_each] in Hrun. unfold bind in Hrun.
    pose proof (apply_frame m w Hsync) as Hf. cbv zeta in Hf.
    destruct (apply_migration m w) as [[t | e] w1]; cbn [fst snd] in Hf.
    + destruct Hf as (Hs1 & _ & Hkeep & _).
      exact (IH _ _ _ _ _ Hs1 Hrun v (Hkeep v Hv)).
    + injection Hrun as _ <-. destruct Hf as (_ & Hl & _).
      unfold is_recorded, recorded in *. rewrite Hl. exact Hv.
Qed.

(** X15: in every environment, whatever fails, when the runner's
    connection holds nothing uncommitted, [run_migrations] returns a report
    and does not raise.  Either the report is the failure record of an
    exception, or its success is true, the scripts run have grown by the
    scripts of some migrations, in order, applied_count is their number, and
    each of their versions is recorded afterwards.  In both cases every
    version recorded before the call is recorded after it. *)
Theorem run_migrations_reports (w : world) :
  synced w ->
  exists report w',
    run_migrations w = (Returned report, w') /\
    ((exists ms,
        subscript report "success" = Returned (PBool true) /\
        subscript report "applied_count" = Returned (PInt (Z.of_nat (length ms))) /\
        scripts_run (store w') = scripts_run (store w) ++ map sql ms /\
        (forall m, In m ms -> is_recorded (store w') (version m) = true)) \/
     (exists e, report = failure e)) /\
    (forall v, is_recorded (store w) v = true -> is_recorded (store w') v = true).
Proof.
  intros Hsync. unfold run_migrations, try_except, bind.
  pose proof (ensure_frame w Hsync) as (Hs1 & He).
  assert (Hrec1 : recorded (store (snd (ensure_migrations_table w))) = recorded (store w)).
  { destruct He as [-> | ->]; [reflexivity | apply recorded_ensured]. }
  assert (Hscr1 : scripts_run (store (snd (ensure_migrations_table w))) =
                  scripts_run (store w)).
  { destruct He as [-> | ->]; [reflexivity | apply ensured_tables]. }
  destruct (ensure_migrations_table w) as [[[] | e] w1]; cbn [snd] in *.
  2:{ unfold ret. eexists _, _. split; [reflexivity |].
      split; [right; eexists; reflexivity |].
      unfold is_recorded. rewrite Hrec1. auto. }
  pose proof (pending_store w1) as Hp. pose proof (pending_synced w1 Hs1) as Hs2.
  destruct (get_pending_migrations w1) as [[ms | e] w2]; cbn [snd] in *.
  2:{ unfold ret. eexists _, _. split; [reflexivity |].
      split; [right; eexists; reflexivity |].
      unfold is_recorded. rewrite Hp, Hrec1. auto. }
  destruct ms as [| m ms].
  { unfold ret. eexists _, _. split; [reflexivity |]. split.
    - left. exists []. split; [reflexivity |]. split; [reflexivity |].
      split; [cbn; rewrite app_nil_r, Hp; exact Hscr1 | intros m []].
    - unfold is_recorded. rewrite Hp, Hrec1. auto. }
  destruct (apply_each (m :: ms) [] 0%Z w2) as [[done | e] w3] eqn:Hrun.
  - destruct (apply_each_frame _ _ _ _ _ _ Hs2 Hrun) as (_ & Hall & Hkeep & Hscr).
    pose proof (apply_each_length _ _ _ _ _ _ Hrun) as Hlen.
    unfold ret. eexists _, _. split; [reflexivity |]. split.
    + left. exists (m :: ms). split; [reflexivity |]. split.
      { cbn [subscript dict_get String.eqb Ascii.eqb Bool.eqb]. rewrite Hlen. reflexivity. }
      split; [rewrite Hscr, Hp, Hscr1; reflexivity | exact Hall].
    + intros v Hv. apply Hkeep. unfold is_recorded in *. rewrite Hp, Hrec1. exact Hv.
  - unfold ret. eexists _, _. split; [reflexivity |].
    split; [right; eexists; reflexivity |].
    intros v Hv. apply (apply_each_keeps _ _ _ _ _ _ Hs2 Hrun).
    unfold is_recorded in *. rewrite Hp, Hrec1. exact Hv.
Qed.

Lemma run_migrations_reports_run :
  exists report w',
    run_migrations Sample.second_fails = (Returned report, w') /\
    report = failure Sample.bad_script /\
    is_recorded (store w') "20250101_120000" = true.
Proof.
  destruct (run_migrations_reports Sample.second_fails) as (report & w' & Hrun & _ & _).
  - left. reflexivity.
  - exists report, w'. split; [exact Hrun |].
    vm_compute in Hrun. injection Hrun as <- <-. split; reflexivity.
Defined.

(** *** The Lambda entry point of the migrations *)

Import MigrationEntry.

Lemma run_migrations_returns (w : world) :
  exists report w', run_migrations w = (Returned report, w').
Proof.
  unfold run_migrations, try_except.
  destruct (bind _ _ w) as [[v | e] w']; [| unfold ret]; eexists _, _; reflexivity.
Qed.

Lemma get_status_returns (w : world) :
  exists report w', get_status w = (Returned report, w').
Proof.
  unfold get_status, try_except.
  destruct (bind _ _ w) as [[v | e] w']; [| unfold ret]; eexists _, _; reflexivity.
Qed.

Lemma close_connection_closes (w : world) :
  exists w', close_connection w = (Returned tt, w') /\ session w' = None /\
             store w' = store w /\
             (session w = None -> w' = w).
Proof.
  unfold close_connection, connection_close.
  destruct (session w) eqn:Hn; eexists; (split; [reflexivity |]); cbn; auto.
  repeat split; auto. discriminate.
Qed.

(** The three identifiers the response needs. *)
Lemma send_cfn_response_outcome (event : dict) (log status : string) (data : value)
  (s : site) :
  (exists k, In k ["StackId"; "RequestId"; "LogicalResourceId"] /\
             dict_in k event = false /\
             forall status' data',
               send_cfn_response event log status' data' s = (Raised (KeyError k), s)) \/
  (exists s',
     send_cfn_response event log status data s = (Returned tt, s') /\
     db s' = db s /\
     (requests s' = requests s \/
      exists r, requests s' = requests s ++ [r] /\
                item event "ResponseURL" = Returned (url r) /\
                subscript (payload r) "Status" = Returned (PStr status) /\
                subscript (payload r) "Data" = Returned data /\
                subscript (payload r) "PhysicalResourceId" = Returned (PStr log))).
Proof.
  unfold send_cfn_response, item, dict_in. unfold bind_h, unit_h, lift_h, on_db, try_except_h, try_finally_h in *.
  destruct (dict_get event "StackId") eqn:H1.
  2:{ left. exists "StackId". rewrite H1. cbn. auto. }
  destruct (dict_get event "RequestId") eqn:H2.
  2:{ left. exists "RequestId". rewrite H2. cbn. auto. }
  destruct (dict_get event "LogicalResourceId") eqn:H3.
  2:{ left. exists "LogicalResourceId". rewrite H3. cbn. auto 6. }
  right. destruct (dict_get event "ResponseURL") as [u |].
  2:{ eexists. split; [reflexivity |]. auto. }
  unfold http_put. destruct (http_faults s) as [| [e |] rest];
    (eexists; split; [reflexivity |]; split; [reflexivity |]); cbn;
    first [left; reflexivity | right; eexists; split; [reflexivity |]; cbn; auto].
Qed.

Lemma handler_sends (render : value -> string) (event : dict) (log : string) (s : site) :
  exists o s',
    handler render event log s = (o, s') /\
    session (db s') = None /\
    (requests s' = requests s \/
     exists r, requests s' = requests s ++ [r] /\
               subscript (payload r) "Status" = Returned (PStr "SUCCESS")).
Proof.
  unfold handler.
  unfold bind_h at 1. unfold on_db at 1. unfold new_runner at 1. cbv iota beta.
  set (s0 := {| db := with_session (db s) None; http_faults := http_faults s;
                requests := requests s |}).
  change (requests s) with (requests s0).
  unfold try_finally_h.
  match goal with
  | |- context [let (_, _) := ?c s0 in _] =>
      assert (Hbody : exists o s1, c s0 = (o, s1) /\
                (requests s1 = requests s0 \/
                 exists r, requests s1 = requests s0 ++ [r] /\
                           subscript (payload r) "Status" = Returned (PStr "SUCCESS")))
  end.
  2:{ destruct Hbody as (o & s1 & -> & Hreq).
      unfold on_db. destruct (close_connection_closes (db s1)) as (w' & -> & Hn & _).
      eexists _, _. split; [reflexivity |]. cbn. split; [exact Hn | exact Hreq]. }
  assert (Hsend : forall data s1 (k : unit -> Act value),
    (forall s2, requests (snd (k tt s2)) = requests s2 /\ exists v, fst (k tt s2) = Returned v) ->
    exists o s2,
      try_except_h
        (bind_h (if dict_in "ResponseURL" event
                 then send_cfn_response event log "SUCCESS" data
                 else unit_h tt) k)
        (fun e =>
           let error_result :=
             PDict [("success", PBool false); ("error", PStr (str_of_exn e))] in
           bind_h (if dict_in "ResponseURL" event
                   then send_cfn_response event log "FAILED" error_result
                   else unit_h tt) (fun _ => unit_h error_result)) s1 = (o, s2) /\
      (requests s2 = requests s1 \/
       exists r, requests s2 = requests s1 ++ [r] /\
                 subscript (payload r) "Status" = Returned (PStr "SUCCESS"))).
  { intros data s1 k Hk. unfold try_except_h, bind_h.
    destruct (dict_in "ResponseURL" event).
    - destruct (send_cfn_response_outcome event log "SUCCESS" data s1)
        as [(key & _ & _ & Hraise) | (s2 & Hsent & _ & Hreq)].
      + rewrite !Hraise. eexists _, _. split; [reflexivity |]. left. reflexivity.
      + rewrite Hsent. destruct (Hk s2) as (Hr & v & Hv).
        destruct (k tt s2) as [o s3]. cbn in *. subst o.
        eexists _, _. split; [reflexivity |]. rewrite Hr.
        destruct Hreq as [-> | (r & -> & _ & Hst & _)]; [left; reflexivity |].
        right. exists r. auto.
    - unfold unit_h at 1. destruct (Hk s1) as (Hr & v & Hv).
      destruct (k tt s1) as [o s3]. cbn in *. subst o.
      eexists _, _. split; [reflexivity |]. left. exact Hr. }
  destruct (contains _ _).
  { unfold try_except_h at 1. unfold bind_h at 1. unfold on_db at 1.
    destruct (run_migrations_returns (db s0)) as (report & w' & ->).
    cbv iota beta.
    specialize (Hsend report {| db := w'; http_faults := http_faults s0;
                               requests := requests s0 |} (fun _ => unit_h report)).
    apply Hsend. intros s2. split; [reflexivity | eexists; reflexivity]. }
  destruct (py_eq _ (PStr "Delete")).
  { apply Hsend. intros s2. split; [reflexivity | eexists; reflexivity]. }
  unfold try_except_h, on_db.
  destruct (py_eq _ (PStr "up")).
  { destruct (run_migrations_returns (db s0)) as (report & w' & ->).
    eexists _, _. split; [reflexivity |]. left. reflexivity. }
  destruct (py_eq _ (PStr "status")).
  { destruct (get_status_returns (db s0)) as (report & w' & ->).
    eexists _, _. split; [reflexivity |]. left. reflexivity. }
  unfold unit_h. eexists _, _. split; [reflexivity |]. left. reflexivity.
Qed.

(** X16: for every event, log stream and state, the migration
    [handler] ends with the runner's connection closed and has made at most
    one PUT request, whose Status is SUCCESS: a FAILED status is never
    delivered to CloudFormation. *)
Theorem handler_sends_success (render : value -> string) (event : dict) (log : string)
  (s : site) :
  let s' := snd (handler render event log s) in
  session (db s') = None /\
  (requests s' = requests s \/
   exists r, requests s' = requests s ++ [r] /\
             subscript (payload r) "Status" = Returned (PStr "SUCCESS")).
Proof.
  cbv zeta. destruct (handler_sends render event log s) as (o & s' & -> & H).
  exact H.
Qed.

(** X17: for a Create or Update event that has ResponseURL, StackId,
    RequestId and LogicalResourceId, when the PUT request does not fail:
    the [handler] runs the migrations on a new runner, returns their report,
    closes the connection, and sends to the ResponseURL one request whose
    Status is SUCCESS and whose Data is that report, whatever the report
    says; a run that failed is reported to CloudFormation as SUCCESS. *)
Theorem handler_create_reports (render : value -> string) (event : dict) (log : string)
  (target stack_id request_id logical_id : value) (s : site) :
  contains [PStr "Create"; PStr "Update"] (get_or event "RequestType" PNone) = true ->
  dict_get event "ResponseURL" = Some target ->
  dict_get event "StackId" = Some stack_id ->
  dict_get event "RequestId" = Some request_id ->
  dict_get event "LogicalResourceId" = Some logical_id ->
  hd None (http_faults s) = None ->
  let run := run_migrations (with_session (db s) None) in
  let r := handler render event log s in
  exists report,
    fst run = Returned report /\
    fst r = Returned report /\
    requests (snd r) =
      requests s ++
      [{| url := target;
          payload :=
            PDict [("Status", PStr "SUCCESS");
                   ("Reason", PStr ("See CloudWatch Log Stream: " ++ log));
                   ("PhysicalResourceId", PStr log);
                   ("StackId", stack_id);
                   ("RequestId", request_id);
                   ("LogicalResourceId", logical_id);
                   ("Data", report)] |}] /\
    store (db (snd r)) = store (snd run) /\
    session (db (snd r)) = None.
Proof.
  intros Hct Hurl Hsid Hrid Hlid Hhttp. cbv zeta.
  destruct (run_migrations_returns (with_session (db s) None)) as (report & w' & Hrun).
  exists report. rewrite Hrun. cbn [fst snd]. split; [reflexivity |].
  assert (Hgo : exists s',
    handler render event log s = (Returned report, s') /\
    requests s' =
      requests s ++
      [{| url := target;
          payload :=
            PDict [("Status", PStr "SUCCESS");
                   ("Reason", PStr ("See CloudWatch Log Stream: " ++ log));
                   ("PhysicalResourceId", PStr log);
                   ("StackId", stack_id);
                   ("RequestId", request_id);
                   ("LogicalResourceId", logical_id);
                   ("Data", report)] |}] /\
    store (db s') = store w' /\ session (db s') = None).
  2:{ destruct Hgo as (s' & -> & H). split; [reflexivity | exact H]. }
  unfold handler. rewrite Hct. unfold dict_in. rewrite Hurl.
  unfold send_cfn_response, item. rewrite Hurl, Hsid, Hrid, Hlid.
  unfold bind_h, unit_h, lift_h, on_db, try_except_h, try_finally_h in *. unfold new_runner at 1. cbv iota beta. cbn [db http_faults requests].
  rewrite Hrun. cbv iota beta. cbn [db http_faults requests]. unfold http_put.
  cbn [db http_faults requests].
  destruct (close_connection_closes w') as (w2 & Hclose & Hn & Hst & _).
  destruct (http_faults s) as [| [e |] rest]; [| discriminate |];
    cbn [db http_faults requests]; rewrite Hclose; cbv iota beta;
    (eexists; split; [reflexivity |]); cbn [db requests]; auto.
Qed.

Lemma handler_create_reports_run :
  let r := handler Requests.plain (Requests.stack_event "Create") "stream-1"
             (Requests.site_of Sample.second_fails) in
  exists report,
    fst r = Returned report /\
    subscript report "success" = Returned (PBool false) /\
    exists sent,
      requests (snd r) = [sent] /\
      subscript (payload sent) "Status" = Returned (PStr "SUCCESS") /\
      subscript (payload sent) "Data" = Returned report.
Proof.
  destruct (handler_create_reports Requests.plain (Requests.stack_event "Create")
              "stream-1" (PStr "https://cloudformation.example/response")
              (PStr "stack-1") (PStr "request-1") (PStr "Migrations")
              (Requests.site_of Sample.second_fails)
              eq_refl eq_refl eq_refl eq_refl eq_refl eq_refl)
    as (report & Hrun & Hr & Hreq & _).
  exists report. split; [exact Hr |].
  vm_compute in Hrun. injection Hrun as <-.
  split; [reflexivity |].
  eexists. split; [exact Hreq |]. split; reflexivity.
Defined.

(** X18: for a Create or Update event that has ResponseURL and lacks
    StackId, RequestId or LogicalResourceId: the migrations are run (the
    database is as [run_migrations] leaves it), no request is made, the
    connection is closed, and the [handler] raises the KeyError of a missing
    identifier. *)
Theorem handler_missing_identifier (render : value -> string) (event : dict)
  (log : string) (s : site) :
  contains [PStr "Create"; PStr "Update"] (get_or event "RequestType" PNone) = true ->
  dict_in "ResponseURL" event = true ->
  (exists k, In k ["StackId"; "RequestId"; "LogicalResourceId"] /\ dict_in k event = false) ->
  let run := run_migrations (with_session (db s) None) in
  let r := handler render event log s in
  (exists k, In k ["StackId"; "RequestId"; "LogicalResourceId"] /\
             dict_in k event = false /\ fst r = Raised (KeyError k)) /\
  requests (snd r) = requests s /\
  store (db (snd r)) = store (snd run) /\
  session (db (snd r)) = None.
Proof.
  intros Hct Hurl Hmiss. cbv zeta.
  destruct (run_migrations_returns (with_session (db s) None)) as (report & w' & Hrun).
  rewrite Hrun. cbn [snd].
  assert (Hgo : exists k s',
    handler render event log s = (Raised (KeyError k), s') /\
    In k ["StackId"; "RequestId"; "LogicalResourceId"] /\ dict_in k event = false /\
    requests s' = requests s /\ store (db s') = store w' /\ session (db s') = None).
  2:{ destruct Hgo as (k & s' & -> & H1 & H2 & H3). cbn [fst snd].
      split; [exists k; auto | exact H3]. }
  unfold handler. rewrite Hct, Hurl.
  unfold bind_h at 1. unfold on_db at 1. unfold new_runner at 1. cbv iota beta.
  unfold try_finally_h, try_except_h. unfold bind_h at 1. unfold on_db at 1.
  cbn [db http_faults requests]. rewrite Hrun. cbv iota beta.
  set (s1 := {| db := w'; http_faults := http_faults s; requests := requests s |}).
  destruct (send_cfn_response_outcome event log "SUCCESS" report s1)
    as [(k & Hk & Hno & Hraise) | (s2 & Hsent & _)].
  - unfold bind_h. rewrite !Hraise. unfold on_db.
    destruct (close_connection_closes (db s1)) as (w2 & -> & Hn & Hst & _).
    exists k. eexists. split; [reflexivity |]. cbn. auto.
  - exfalso. destruct Hmiss as (k & Hk & Hno).
    unfold send_cfn_response, item in Hsent. unfold bind_h, unit_h, lift_h, on_db, try_except_h, try_finally_h in *. unfold dict_in in Hno.
    cbn in Hk. destruct Hk as [<- | [<- | [<- | []]]];
      repeat match type of Hsent with
             | context [dict_get event ?key] =>
                 destruct (dict_get event key); try discriminate
             end.
Qed.

Lemma handler_missing_identifier_run :
  let r := handler Requests.plain (Requests.stack_event_without_stack "Create") "stream-1"
             (Requests.site_of Sample.two_applied) in
  fst r = Raised (KeyError "StackId") /\
  requests (snd r) = [] /\
  scripts_run (store (db (snd r))) =
    [initial_schema_migration; etymology_tables_migration; user_preferences_migration].
Proof.
  destruct (handler_missing_identifier Requests.plain
              (Requests.stack_event_without_stack "Create") "stream-1"
              (Requests.site_of Sample.two_applied) eq_refl eq_refl)
    as (_ & Hreq & Hst & _).
  - exists "StackId". split; [left; reflexivity | reflexivity].
  - split; [vm_compute; reflexivity |]. split; [exact Hreq |].
    rewrite Hst. vm_compute. reflexivity.
Defined.

(** X19: for an event whose RequestType is neither Create nor Update
    and that is a Delete or a direct invocation with an action other than up
    and status: the [handler] makes no call on the database (its side is as
    at the start, with a new runner).  For an unknown action it returns
    success false with the error Unknown action followed by the action, and
    makes no request; for a Delete without ResponseURL it returns success
    true with the message No action taken. *)
Theorem handler_no_action (render : value -> string) (event : dict) (log : string)
  (s : site) :
  let request_type := get_or event "RequestType" PNone in
  let action := get_or event "action" (PStr "up") in
  contains [PStr "Create"; PStr "Update"] request_type = false ->
  py_eq request_type (PStr "Delete") = true \/
  (py_eq action (PStr "up") = false /\ py_eq action (PStr "status") = false) ->
  let r := handler render event log s in
  db (snd r) = with_session (db s) None /\
  (py_eq request_type (PStr "Delete") = false ->
   snd r = {| db := with_session (db s) None; http_faults := http_faults s;
              requests := requests s |} /\
   fst r = Returned (PDict [("success", PBool false);
                            ("error", PStr ("Unknown action: " ++ format_value render action))])) /\
  (py_eq request_type (PStr "Delete") = true ->
   dict_in "ResponseURL" event = false ->
   fst r = Returned (PDict [("success", PBool true); ("message", PStr "No action taken")])).
Proof.
  cbv zeta. intros Hct Hcase.
  assert (Hclose : forall (o : outcome value) s1,
             db s1 = with_session (db s) None ->
             (let (o0, s'') := on_db close_connection s1 in
              match o0 with
              | Returned _ => (o, s'')
              | Raised e => (Raised e, s'')
              end) = (o, s1)).
  { intros o s1 Hs1. unfold on_db.
    destruct (close_connection_closes (db s1)) as (w2 & -> & _ & _ & Hsame).
    rewrite Hsame by (rewrite Hs1; reflexivity). destruct s1; reflexivity. }
  assert (Hgo : exists o s',
    handler render event log s = (o, s') /\
    db s' = with_session (db s) None /\
    (py_eq (get_or event "RequestType" PNone) (PStr "Delete") = false ->
     s' = {| db := with_session (db s) None; http_faults := http_faults s;
             requests := requests s |} /\
     o = Returned (PDict [("success", PBool false);
                          ("error", PStr ("Unknown action: " ++
                             format_value render (get_or event "action" (PStr "up"))))])) /\
    (py_eq (get_or event "RequestType" PNone) (PStr "Delete") = true ->
     dict_in "ResponseURL" event = false ->
     o = Returned (PDict [("success", PBool true); ("message", PStr "No action taken")]))).
  2:{ destruct Hgo as (o & s' & -> & H). exact H. }
  unfold handler. rewrite Hct.
  unfold bind_h at 1. unfold on_db at 1. unfold new_runner at 1. cbv iota beta.
  set (s0 := {| db := with_session (db s) None; http_faults := http_faults s;
                requests := requests s |}).
  unfold try_finally_h, try_except_h.
  destruct (py_eq (get_or event "RequestType" PNone) (PStr "Delete")) eqn:Hdel.
  - destruct (dict_in "ResponseURL" event) eqn:Hurl.
    + unfold bind_h.
      destruct (send_cfn_response_outcome event log "SUCCESS"
                  (PDict [("message", PStr "No action taken on stack deletion")]) s0)
        as [(k & _ & _ & Hraise) | (s2 & Hsent & Hdb & _)].
      * rewrite !Hraise. rewrite Hclose by reflexivity.
        eexists _, _. split; [reflexivity |]. split; [reflexivity |].
        split; discriminate.
      * rewrite Hsent. unfold unit_h. rewrite Hclose by exact Hdb.
        eexists _, _. split; [reflexivity |]. split; [exact Hdb |].
        split; discriminate.
    + unfold bind_h, unit_h. rewrite Hclose by reflexivity.
      eexists _, _. split; [reflexivity |]. split; [reflexivity |].
      split; [discriminate | reflexivity].
  - destruct Hcase as [? | [-> ->]]; [discriminate |].
    unfold unit_h. rewrite Hclose by reflexivity.
    eexists _, _. split; [reflexivity |]. split; [reflexivity |].
    split; [auto | discriminate].
Qed.

Lemma handler_no_action_run :
  let r := handler Requests.plain [("action", PStr "down")] "stream-1"
             (Requests.site_of Sample.two_applied) in
  db (snd r) = Sample.two_applied /\
  fst r = Returned (PDict [("success", PBool false);
                           ("error", PStr "Unknown action: down")]).
Proof.
  destruct (handler_no_action Requests.plain [("action", PStr "down")] "stream-1"
              (Requests.site_of Sample.two_applied) eq_refl)
    as (Hdb & Hunknown & _).
  - right. split; reflexivity.
  - split; [exact Hdb | exact (proj2 (Hunknown eq_refl))].
Defined.

(** *** Words of someone else *)








(** *** Updating a word *)

Lemma assign_word_amended (data : dict) (x : word_row) :
  word_fields_typed data ->
  assign_word (Words.update_fields data) x = Some (amended_word data x).
Proof.
  intros (Hw & Hi & Hp & Hr & He).
  unfold Words.update_fields, dict_in, get_or, amended_word, text_or, texts_or, bool_or,
    floats_or.
  destruct (dict_get data "word") as [v1 |] eqn:E1;
    [destruct (Hw v1 E1) as (s1 & ->) |];
    (destruct (dict_get data "ipa") as [v2 |] eqn:E2;
     [destruct (Hi v2 E2) as (s2 & ->) |]);
    (destruct (dict_get data "pos") as [v3 |] eqn:E3;
     [destruct (Hp v3 eq_refl) as (p & Hp3) |]);
    (destruct (dict_get data "is_root") as [v4 |] eqn:E4;
     [destruct (Hr v4 eq_refl) as (b & ->) |]);
    (destruct (dict_get data "embedding") as [v5 |] eqn:E5;
     [destruct (He v5 eq_refl) as (e & He5) |]);
    cbn; rewrite ?Hp3; cbn; rewrite ?He5; cbn; try reflexivity; destruct x; reflexivity.
Qed.

Lemma some_field_word (data : dict) :
  (exists f, In f ["word"; "ipa"; "pos"; "is_root"; "embedding"] /\ dict_in f data = true) ->
  exists a rest, Words.update_fields data = a :: rest.
Proof.
  intros (f & Hf & Hin). unfold Words.update_fields.
  cbn in Hf.
  destruct (dict_in "word" data) eqn:H1; [eexists _, _; reflexivity |].
  destruct (dict_in "ipa" data) eqn:H2; [eexists _, _; reflexivity |].
  destruct (dict_in "pos" data) eqn:H3; [eexists _, _; reflexivity |].
  destruct (dict_in "is_root" data) eqn:H4; [eexists _, _; reflexivity |].
  destruct (dict_in "embedding" data) eqn:H5; [eexists _, _; reflexivity |].
  exfalso. intuition (subst; congruence).
Qed.

(** An update of an existing word by someone entitled to it: the columns
    are written and committed; then the reply, or, when the body has
    translations, the error of the DELETE that is fetched. *)
Lemma update_word_available (wid : string) (data : dict) (row : word_row) (w : world) :
  available w ->
  wid <> EmptyString ->
  (exists f, In f ["word"; "ipa"; "pos"; "is_root"; "embedding"] /\ dict_in f data = true) ->
  word_fields_typed data ->
  word_row_of (store w) wid = Some row ->
  (forall supplied, dict_get data "user_id" = Some supplied ->
     exists uid, supplied = PStr uid /\ owns_word (store w) uid wid = true) ->
  exists w1,
    Words.update_word (Some wid) data w =
      (if dict_in "translations" data
       then Raised (ProgrammingError "no results to fetch")
       else Returned (lambda_response 200 (word_record (amended_word data row)) None), w1) /\
    store w1 =
      with_words (store w)
        (map (fun x => if String.eqb (w_id x) wid then amended_word data x else x)
           (words (store w))).
Proof.
  intros Hav Hwid Hfields Htyped Hrow Hown.
  destruct (some_field_word data Hfields) as (a & rest & Hf).
  pose proof (fun x => assign_word_amended data x Htyped) as Hassign.
  rewrite Hf in Hassign.
  unfold word_row_of in Hrow.
  pose proof (find_filter (fun x => String.eqb (w_id x) wid) (words (store w))) as Hfind.
  rewrite Hrow in Hfind. destruct Hfind as (more & Hfil).
  set (answer := lambda_response 200 (word_record (amended_word data row)) None).
  set (after := with_words (store w)
                  (map (fun x => if String.eqb (w_id x) wid then amended_word data x else x)
                     (words (store w)))).
  assert (Hupdate : forall w0, available w0 -> store w0 = store w ->
    exists w1,
      (result <- execute_query (UpdateWord (a :: rest) (PStr wid)) true ;;
       if negb (truthy result) then
         ret (lambda_response 404 (error_body "Word not found") None)
       else
         (match dict_get data "translations" with
          | Some translations =>
              execute_query (DeleteTranslations (PStr wid)) true ;;
              entries <- lift (iterate translations) ;;
              Words.insert_translations (PStr wid) entries
          | None => ret tt
          end) ;;
         row <- lift (index0 result) ;;
         ret (lambda_response 200 row None)) w0 =
      (if dict_in "translations" data
       then Raised (ProgrammingError "no results to fetch")
       else Returned answer, w1) /\
      store w1 = after).
  { intros w0 Hav0 Hs0. unfold bind at 1.
    rewrite (execute_query_available _ w0 Hav0). cbn [run as_text]. rewrite Hs0.
    rewrite (update_where_total _ _ (amended_word data) _ Hassign), Hfil.
    cbn [description result_set tuples]. unfold records. cbn [map truthy negb].
    unfold dict_in. destruct (dict_get data "translations") as [ts |].
    - unfold bind at 1. unfold bind at 1.
      rewrite (execute_query_available (DeleteTranslations (PStr wid))) by
        (apply available_finished; exact Hav0).
      cbn. eexists. split; reflexivity.
    - cbn. eexists. split; reflexivity. }
  unfold Words.update_word.
  rewrite (given_nonempty wid Hwid), Hf. cbn [negb of_option].
  destruct (dict_get data "user_id") as [supplied |] eqn:Hsup.
  - destruct (Hown supplied eq_refl) as (uid & -> & Hyes).
    unfold bind at 1. unfold bind at 1.
    rewrite (execute_query_available _ w Hav). cbn [run as_text].
    cbn [description result_set tuples]. rewrite truthy_records_filter.
    fold (owns_word (store w) uid wid). rewrite Hyes. cbn [ret negb].
    apply Hupdate; [apply available_finished; exact Hav | reflexivity].
  - unfold bind at 1. cbn [ret]. apply Hupdate; [exact Hav | reflexivity].
Qed.

(** X22: with the environment in order, a non-empty id of an existing
    word and a body with a recognized field (of the column's type), without
    translations, that has no user_id or the user_id of an owner:
    [update_word] answers 200 with the amended row; the rows of that id have
    the body's values written over them (a field the body lacks keeps its
    value), every other row is as before, and no other table changes. *)
Theorem update_word_changes (wid : string) (data : dict) (row : word_row) (w : world) :
  available w ->
  wid <> EmptyString ->
  (exists f, In f ["word"; "ipa"; "pos"; "is_root"; "embedding"] /\ dict_in f data = true) ->
  word_fields_typed data ->
  dict_in "translations" data = false ->
  word_row_of (store w) wid = Some row ->
  (forall supplied, dict_get data "user_id" = Some supplied ->
     exists uid, supplied = PStr uid /\ owns_word (store w) uid wid = true) ->
  let d := store w in
  let r := Words.update_word (Some wid) data w in
  let d' := store (snd r) in
  fst r = Returned (lambda_response 200 (word_record (amended_word data row)) None) /\
  Forall2 (fun x x' => x' = if String.eqb (w_id x) wid then amended_word data x else x)
    (words d) (words d') /\
  same_but_words d d'.
Proof.
  intros Hav Hwid Hfields Htyped Hnt Hrow Hown. cbv zeta.
  destruct (update_word_available wid data row w Hav Hwid Hfields Htyped Hrow Hown)
    as (w1 & -> & Hst).
  rewrite Hnt. cbn [fst snd]. rewrite Hst.
  split; [reflexivity |]. split; [apply map_if_Forall2 |].
  unfold same_but_words. cbn. repeat split.
Qed.

(** *** Runs on the sample data *)

Lemma available_start : available Sample.start.
Proof. split; reflexivity. Qed.

Lemma upsert_user_run :
  let r := Users.create_or_update_user
             [("user_id", PStr "alice"); ("email", PStr "alice@example.net");
              ("username", PStr "alice")] Sample.start in
  map user_identity (users (store (snd r))) = [("alice", 0); ("mallory", 1)] /\
  nth_error (users (store (snd r))) 1 = Some Sample.mallory /\
  forall u, In u (users (store (snd r))) -> u_user_id u = "alice" ->
            u_email u = "alice@example.net" /\ u_username u = "alice".
Proof.
  pose proof (upsert_user
                [("user_id", PStr "alice"); ("email", PStr "alice@example.net");
                 ("username", PStr "alice")] "alice" "alice@example.net" "alice"
                Sample.start available_start eq_refl eq_refl eq_refl) as H.
  cbv zeta in H.
  change (email_taken (store Sample.start) "alice" "alice@example.net") with false in H.
  change (user_exists (store Sample.start) "alice") with true in H.
  cbv iota in H. destruct H as (_ & _ & Hrows & Hothers & Hids).
  split; [exact Hids |]. split; [| exact Hrows].
  apply (Hothers 1 Sample.mallory eq_refl). discriminate.
Defined.

Lemma update_user_changes_run :
  let r := Users.update_user (Some "mallory") [("username", PStr "mal")] Sample.start in
  exists u,
    fst r = Returned (lambda_response 200 (user_record u) None) /\
    u_username u = "mal" /\ u_email u = "mallory@example.org".
Proof.
  pose proof (update_user_changes "mallory" [("username", PStr "mal")] Sample.start
                available_start) as H.
  cbv zeta in H.
  change (user_exists (store Sample.start) "mallory") with true in H. cbv iota in H.
  destruct H as (_ & _ & u & Hin & Hid & Hr).
  - discriminate.
  - right. reflexivity.
  - intros v Hv. discriminate.
  - intros v [= <-]. eexists. reflexivity.
  - intros a b [<- | [<- | []]] [<- | [<- | []]]; cbn; congruence.
  - intros s0 Hs0. discriminate.
  - exists (amended_user [("username", PStr "mal")] u). split; [exact Hr |].
    destruct Hin as [<- | [<- | []]]; [discriminate Hid | split; reflexivity].
Defined.

Lemma create_language_defaults_run :
  let r := Languages.create_language [("user_id", PStr "mallory"); ("name", PStr "Khuzdul")]
             Sample.start in
  exists row,
    languages (store (snd r)) = [Sample.quenya; row] /\
    l_user_id row = "mallory" /\ l_syllables row = "CV" /\
    l_phonemes row = Languages.default_phonemes.
Proof.
  pose proof (create_language_defaults [("user_id", PStr "mallory"); ("name", PStr "Khuzdul")]
                "mallory" "Khuzdul" Sample.start available_start eq_refl eq_refl) as H.
  cbv zeta in H.
  change (user_exists (store Sample.start) "mallory") with true in H. cbv iota in H.
  destruct H as (_ & Hrows & _).
  - intros f [<- | [<- | [<- | [<- | []]]]]; reflexivity.
  - eexists. split; [exact Hrows |]. repeat split.
Defined.


Lemma update_word_changes_run :
  let r := Words.update_word (Some "W1") [("ipa", PStr "melme"); ("is_root", PBool false)]
             Sample.start in
  exists row,
    fst r = Returned (lambda_response 200 (word_record row) None) /\
    w_is_root row = false /\ w_word row = "melme" /\ w_language_id row = "L1".
Proof.
  destruct (update_word_changes "W1" [("ipa", PStr "melme"); ("is_root", PBool false)]
              Sample.melme Sample.start available_start) as (Hr & _).
  - discriminate.
  - exists "ipa". split; [cbn; tauto | reflexivity].
  - repeat split; intros v Hv; try discriminate; injection Hv as <-; eexists; reflexivity.
  - reflexivity.
  - reflexivity.
  - intros v Hv. discriminate.
  - eexists. split; [exact Hr |]. repeat split.
Defined.


Lemma reapply_recorded_run :
  let w := snd (get_db_connection Sample.all_applied) in
  let r := apply_migration Sample.first_migration w in
  recorded (store (snd r)) = ["20250101_120000"; "20250102_143000"; "20250103_091500"] /\
  scripts_run (store (snd r)) =
    [initial_schema_migration; etymology_tables_migration; user_preferences_migration;
     initial_schema_migration].
Proof.
  destruct (reapply_recorded Sample.first_migration
              (snd (get_db_connection Sample.all_applied))
              (store Sample.all_applied) [] Sample.all_recorded) as (_ & Hs & Hr & _).
  - repeat split.
  - reflexivity.
  - reflexivity.
  - split; [exact Hr | exact Hs].
Defined.

(** *** The entry points of the resources *)

Import Gateway.

(** The parameter maps the handlers read are those of the extractors. *)
Lemma params_extracted (e : proxy_event) :
  extract_path_params (to_event e) = strings (params (path e)) /\
  extract_query_params (to_event e) = strings (params (query e)).
Proof.
  unfold extract_path_params, extract_query_params, to_event, params, strings. cbn.
  destruct (path e) as [[| p ps] |], (query e) as [[| q qs] |]; split; reflexivity.
Qed.

(** X23: a PUT on an existing word, by someone entitled to it, whose
    body is a JSON object with a recognized field (of the column's type)
    and a translations key, with the environment in order: the words
    [handler] answers 500 with the error no results to fetch; the columns of
    the word have been written and committed; the translations are as they
    were. *)
Theorem put_word_translations_fails
  (get_word delete_word : option string -> option string -> M response)
  (e : proxy_event) (wid : string) (data : dict) (row : word_row) (w : world) :
  available w ->
  method e = Some "PUT" ->
  Words.param (params (path e)) "wordId" = Some wid ->
  wid <> EmptyString ->
  extract_body (to_event e) = Returned (PDict data) ->
  (exists f, In f ["word"; "ipa"; "pos"; "is_root"; "embedding"] /\ dict_in f data = true) ->
  word_fields_typed data ->
  dict_in "translations" data = true ->
  word_row_of (store w) wid = Some row ->
  (forall supplied, dict_get data "user_id" = Some supplied ->
     exists uid, supplied = PStr uid /\ owns_word (store w) uid wid = true) ->
  let r := WordsEntry.handler get_word delete_word e w in
  fst r = Returned (lambda_response 500 (error_body "no results to fetch") None) /\
  words (store (snd r)) =
    map (fun x => if String.eqb (w_id x) wid then amended_word data x else x)
      (words (store w)) /\
  translations (store (snd r)) = translations (store w).
Proof.
  intros Hav Hm Hp Hwid Hbody Hfields Htyped Htr Hrow Hown. cbv zeta.
  destruct (update_word_available wid data row w Hav Hwid Hfields Htyped Hrow Hown)
    as (w1 & Hrun & Hst).
  rewrite Htr in Hrun.
  unfold WordsEntry.handler, try_except, bind, lift, http_method. rewrite Hm.
  cbn [String.eqb Ascii.eqb Bool.eqb]. rewrite Hbody, Hp.
  cbn [WordsEntry.update_word]. rewrite Hrun. cbn [fst snd ret]. rewrite Hst.
  split; [reflexivity |]. split; reflexivity.
Qed.

Lemma put_word_translations_fails_run :
  let r := WordsEntry.handler Calls.unmodelled2 Calls.unmodelled2
             (Calls.put_word Calls.ipa_and_translations) Sample.start in
  fst r = Returned (lambda_response 500 (error_body "no results to fetch") None) /\
  translations (store (snd r)) = [Sample.translation_a; Sample.translation_b].
Proof.
  destruct (put_word_translations_fails Calls.unmodelled2 Calls.unmodelled2
              (Calls.put_word Calls.ipa_and_translations) "W1"
              [("ipa", PStr "melme");
               ("translations", PList [PDict [("meaning", PStr "love")]])]
              Sample.melme Sample.start available_start eq_refl eq_refl)
    as (Hr & _ & Ht).
  - discriminate.
  - vm_compute. reflexivity.
  - exists "ipa". split; [cbn; tauto | reflexivity].
  - repeat split; intros v Hv; try discriminate; injection Hv as <-; eexists; reflexivity.
  - reflexivity.
  - reflexivity.
  - intros v Hv. discriminate.
  - split; [exact Hr | exact Ht].
Defined.



(** X25: a POST of a user whose email belongs to another user, with
    the environment in order: the users [handler] answers 500 (the
    constraint violation is not turned into a 4xx) and the database is as it
    was. *)
Theorem post_user_email_taken (get_user : option string -> M response)
  (e : proxy_event) (data : dict) (uid em un : string) (w : world) :
  available w ->
  method e = Some "POST" ->
  extract_body (to_event e) = Returned (PDict data) ->
  dict_get data "user_id" = Some (PStr uid) ->
  dict_get data "email" = Some (PStr em) ->
  dict_get data "username" = Some (PStr un) ->
  email_taken (store w) uid em = true ->
  let r := UsersEntry.handler get_user e w in
  (exists msg, fst r = Returned (lambda_response 500 (error_body msg) None)) /\
  store (snd r) = store w.
Proof.
  intros Hav Hm Hbody Hu He Hn Htaken. cbv zeta.
  pose proof (upsert_user_outcome data uid em un w Hav Hu He Hn) as H.
  cbv zeta in H. rewrite Htaken in H. destruct H as ((msg & Hmsg) & Hst).
  unfold UsersEntry.handler, try_except, bind, lift, http_method. rewrite Hm.
  cbn [String.eqb Ascii.eqb Bool.eqb]. rewrite Hbody.
  cbn [UsersEntry.create_or_update_user].
  destruct (Users.create_or_update_user data w) as [o w1]. cbn [fst snd] in *. subst o.
  cbn [fst snd ret]. split; [exists msg; reflexivity | exact Hst].
Qed.

Lemma post_user_email_taken_run :
  let r := UsersEntry.handler Calls.unmodelled1 (Calls.post "/users" Calls.taken_email)
             Sample.start in
  statusCode (match fst r with Returned resp => resp | Raised _ => lambda_response 0 PNone None end)
    = 500%Z /\
  users (store (snd r)) = [Sample.alice; Sample.mallory].
Proof.
  destruct (post_user_email_taken Calls.unmodelled1 (Calls.post "/users" Calls.taken_email)
              [("user_id", PStr "mallory"); ("email", PStr "alice@example.org");
               ("username", PStr "mallory")] "mallory" "alice@example.org" "mallory"
              Sample.start available_start eq_refl) as ((msg & Hr) & Hst).
  - vm_compute. reflexivity.
  - reflexivity.
  - reflexivity.
  - reflexivity.
  - reflexivity.
  - cbv zeta. rewrite Hr, Hst. split; reflexivity.
Defined.

(** X26: a POST of a language for a user_id that no user has, with
    the environment in order: the languages [handler] answers 500 and the
    database is as it was. *)
Theorem post_language_unknown_user
  (get_languages : list (string * string) -> M response)
  (get_user_languages : option string -> M response)
  (get_language delete_language : option string -> option string -> M response)
  (e : proxy_event) (data : dict) (uid name : string) (w : world) :
  available w ->
  method e = Some "POST" ->
  extract_body (to_event e) = Returned (PDict data) ->
  dict_get data "user_id" = Some (PStr uid) ->
  dict_get data "name" = Some (PStr name) ->
  none_of ["phonemes"; "alphabet_mappings"; "syllables"; "rules"] data ->
  user_exists (store w) uid = false ->
  let r := LanguagesEntry.handler get_languages get_user_languages get_language
             delete_language e w in
  (exists msg, fst r = Returned (lambda_response 500 (error_body msg) None)) /\
  store (snd r) = store w.
Proof.
  intros Hav Hm Hbody Hu Hn Hnone Hex. cbv zeta.
  pose proof (create_language_outcome data uid name w Hav Hu Hn Hnone) as H.
  cbv zeta in H. rewrite Hex in H. destruct H as ((msg & Hmsg) & Hst).
  unfold LanguagesEntry.handler, try_except, bind, lift, http_method. rewrite Hm.
  cbn [String.eqb Ascii.eqb Bool.eqb]. rewrite Hbody.
  cbn [LanguagesEntry.create_language].
  destruct (Languages.create_language data w) as [o w1]. cbn [fst snd] in *. subst o.
  cbn [fst snd ret]. split; [exists msg; reflexivity | exact Hst].
Qed.

Lemma post_language_unknown_user_run :
  let r := LanguagesEntry.handler Calls.unmodelled_list Calls.unmodelled1 Calls.unmodelled2
             Calls.unmodelled2 (Calls.post "/languages" Calls.language_of_nobody)
             Sample.start in
  (exists msg, fst r = Returned (lambda_response 500 (error_body msg) None)) /\
  languages (store (snd r)) = [Sample.quenya].
Proof.
  destruct (post_language_unknown_user Calls.unmodelled_list Calls.unmodelled1
              Calls.unmodelled2 Calls.unmodelled2
              (Calls.post "/languages" Calls.language_of_nobody)
              [("user_id", PStr "nobody"); ("name", PStr "Khuzdul")] "nobody" "Khuzdul"
              Sample.start available_start eq_refl) as (Hr & Hst).
  - vm_compute. reflexivity.
  - reflexivity.
  - reflexivity.
  - intros f [<- | [<- | [<- | [<- | []]]]]; reflexivity.
  - reflexivity.
  - split; [exact Hr | rewrite Hst; reflexivity].
Defined.

Lemma create_other_pure (fields : list string) (f : value -> exn) (v : value) (w : world) :
  exists o, create_other fields f v w = (o, w) /\
            forall resp, o = Returned resp -> statusCode resp = 400%Z.
Proof.
  unfold create_other, bind, lift, ret, raise.
  destruct (first_not_in fields v) as [[field |] | e]; eexists; (split; [reflexivity |]);
    intros resp H; inversion H; reflexivity.
Qed.

Lemma update_other_pure (fields : list string) (v : value) (w : world) :
  exists o, update_other fields v w = (o, w) /\
            forall resp, o = Returned resp -> statusCode resp = 400%Z.
Proof.
  unfold update_other, bind, lift, ret, raise.
  destruct (first_in fields v) as [[field |] | e]; eexists; (split; [reflexivity |]);
    intros resp H; inversion H; reflexivity.
Qed.

(** A computation that makes no call, under the handler's [except]. *)
Lemma turned_away_of (c : M response) (w : world) :
  (exists o, c w = (o, w) /\ forall resp, o = Returned resp -> statusCode resp = 400%Z) ->
  turned_away
    (match c w with
     | (Returned a, w') => (Returned a, w')
     | (Raised e, w') => ret (server_error e) w'
     end) w.
Proof.
  intros (o & -> & Ho). destruct o as [resp | e]; cbn.
  - split; [reflexivity |]. exists resp. split; [reflexivity |]. left. exact (Ho resp eq_refl).
  - split; [reflexivity |]. eexists. split; [reflexivity |]. right. reflexivity.
Qed.

Lemma users_other_body (v : value) (uid : option string) (w : world) :
  not_an_object v ->
  (exists o, UsersEntry.create_or_update_user v w = (o, w) /\
             forall resp, o = Returned resp -> statusCode resp = 400%Z) /\
  (exists o, UsersEntry.update_user uid v w = (o, w) /\
             forall resp, o = Returned resp -> statusCode resp = 400%Z).
Proof.
  intros Hv. unfold UsersEntry.create_or_update_user, UsersEntry.update_user.
  destruct v; try (exfalso; eapply Hv; reflexivity);
    (split; [apply create_other_pure |]);
    (destruct (given uid); cbn [negb];
     [apply update_other_pure
     | eexists; split; [reflexivity |]; intros resp [= <-]; reflexivity]).
Qed.

Lemma languages_other_body (v : value) (lid : option string) (w : world) :
  not_an_object v ->
  (exists o, LanguagesEntry.create_language v w = (o, w) /\
             forall resp, o = Returned resp -> statusCode resp = 400%Z) /\
  (exists o, LanguagesEntry.update_language lid v w = (o, w) /\
             forall resp, o = Returned resp -> statusCode resp = 400%Z).
Proof.
  intros Hv. unfold LanguagesEntry.create_language, LanguagesEntry.update_language.
  destruct v; try (exfalso; eapply Hv; reflexivity);
    (split; [apply create_other_pure |]);
    (destruct (given lid); cbn [negb];
     [apply update_other_pure
     | eexists; split; [reflexivity |]; intros resp [= <-]; reflexivity]).
Qed.

Lemma words_other_body (v : value) (wid : option string) (w : world) :
  not_an_object v ->
  (exists o, WordsEntry.create_word v w = (o, w) /\
             forall resp, o = Returned resp -> statusCode resp = 400%Z) /\
  (exists o, WordsEntry.update_word wid v w = (o, w) /\
             forall resp, o = Returned resp -> statusCode resp = 400%Z).
Proof.
  intros Hv. unfold WordsEntry.create_word, WordsEntry.update_word.
  destruct v; try (exfalso; eapply Hv; reflexivity);
    (split; [apply create_other_pure |]);
    (destruct (given wid); cbn [negb];
     [apply update_other_pure
     | eexists; split; [reflexivity |]; intros resp [= <-]; reflexivity]).
Qed.

(** X27: the users [handler] returns a response for every event and
    never raises, whatever [get_user] does.  An event without httpMethod is
    answered 500 with the quoted key as error; a method other than GET, POST
    and PUT is answered 405; a POST or PUT whose body cannot be decoded is
    answered 500 with the decoder's error; a POST or PUT whose body decodes
    to something that is not an object is answered 400 or 500.  In these
    four cases no call is made: the world is as before. *)
Theorem users_handler_contains (get_user : option string -> M response)
  (e : proxy_event) (w : world) :
  let r := UsersEntry.handler get_user e w in
  (exists resp, fst r = Returned resp) /\
  (method e = None -> r = (Returned (server_error (KeyError "httpMethod")), w)) /\
  (forall m, method e = Some m -> ~ In m ["GET"; "POST"; "PUT"] ->
             r = (Returned method_not_allowed, w)) /\
  (method e = Some "POST" \/ method e = Some "PUT" ->
   (forall err, extract_body (to_event e) = Raised err ->
                r = (Returned (server_error err), w)) /\
   (forall v, extract_body (to_event e) = Returned v -> not_an_object v ->
              turned_away r w)).
Proof.
  cbv zeta. split; [| split; [| split]].
  - unfold UsersEntry.handler, try_except.
    match goal with |- context [match ?c with _ => _ end] => destruct c as [[resp | err] w1] end;
      eexists; reflexivity.
  - intros Hm. unfold UsersEntry.handler, try_except, bind, lift, http_method.
    rewrite Hm. reflexivity.
  - intros m Hm Hnot. unfold UsersEntry.handler, try_except, bind, lift, http_method.
    rewrite Hm.
    destruct (String.eqb_spec m "GET"); [exfalso; apply Hnot; subst m; cbn; auto 6 |].
    destruct (String.eqb_spec m "POST"); [exfalso; apply Hnot; subst m; cbn; auto 6 |].
    destruct (String.eqb_spec m "PUT"); [exfalso; apply Hnot; subst m; cbn; auto 6 |]. reflexivity.
  - intros Hm. split.
    + intros err Herr. unfold UsersEntry.handler, try_except, bind, lift, http_method.
      destruct Hm as [-> | ->]; cbn [String.eqb Ascii.eqb Bool.eqb]; rewrite Herr;
        reflexivity.
    + intros v Hv Hnot. unfold UsersEntry.handler, try_except, bind, lift, http_method.
      destruct (users_other_body v (Words.param (params (path e)) "userId") w Hnot)
        as (Hc & Hu).
      destruct Hm as [-> | ->]; cbn [String.eqb Ascii.eqb Bool.eqb]; rewrite Hv;
        apply turned_away_of; assumption.
Qed.

(** X28: the languages [handler] returns a response for every event
    and never raises, whatever the functions behind GET and DELETE do.  An
    event without httpMethod is answered 500 with the quoted key as error; a
    method other than GET, POST, PUT and DELETE is answered 405; a POST or
    PUT whose body cannot be decoded is answered 500 with the decoder's
    error; a POST or PUT whose body decodes to something that is not an
    object is answered 400 or 500.  In these four cases no call is made:
    the world is as before. *)
Theorem languages_handler_contains
  (get_languages : list (string * string) -> M response)
  (get_user_languages : option string -> M response)
  (get_language delete_language : option string -> option string -> M response)
  (e : proxy_event) (w : world) :
  let r := LanguagesEntry.handler get_languages get_user_languages get_language
             delete_language e w in
  (exists resp, fst r = Returned resp) /\
  (method e = None -> r = (Returned (server_error (KeyError "httpMethod")), w)) /\
  (forall m, method e = Some m -> ~ In m ["GET"; "POST"; "PUT"; "DELETE"] ->
             r = (Returned method_not_allowed, w)) /\
  (method e = Some "POST" \/ method e = Some "PUT" ->
   (forall err, extract_body (to_event e) = Raised err ->
                r = (Returned (server_error err), w)) /\
   (forall v, extract_body (to_event e) = Returned v -> not_an_object v ->
              turned_away r w)).
Proof.
  cbv zeta. split; [| split; [| split]].
  - unfold LanguagesEntry.handler, try_except.
    match goal with |- context [match ?c with _ => _ end] => destruct c as [[resp | err] w1] end;
      eexists; reflexivity.
  - intros Hm. unfold LanguagesEntry.handler, try_except, bind, lift, http_method.
    rewrite Hm. reflexivity.
  - intros m Hm Hnot. unfold LanguagesEntry.handler, try_except, bind, lift, http_method.
    rewrite Hm.
    destruct (String.eqb_spec m "GET"); [exfalso; apply Hnot; subst m; cbn; auto 6 |].
    destruct (String.eqb_spec m "POST"); [exfalso; apply Hnot; subst m; cbn; auto 6 |].
    destruct (String.eqb_spec m "PUT"); [exfalso; apply Hnot; subst m; cbn; auto 6 |].
    destruct (String.eqb_spec m "DELETE"); [exfalso; apply Hnot; subst m; cbn; auto 6 |]. reflexivity.
  - intros Hm. split.
    + intros err Herr. unfold LanguagesEntry.handler, try_except, bind, lift, http_method.
      destruct Hm as [-> | ->]; cbn [String.eqb Ascii.eqb Bool.eqb]; rewrite Herr;
        reflexivity.
    + intros v Hv Hnot. unfold LanguagesEntry.handler, try_except, bind, lift, http_method.
      destruct (languages_other_body v (Words.param (params (path e)) "languageId") w Hnot)
        as (Hc & Hu).
      destruct Hm as [-> | ->]; cbn [String.eqb Ascii.eqb Bool.eqb]; rewrite Hv;
        apply turned_away_of; assumption.
Qed.

(** X29: the words [handler] returns a response for every event and
    never raises, whatever [get_word] and [delete_word] do.  An event
    without httpMethod is answered 500 with the quoted key as error; a
    method other than GET, POST, PUT and DELETE is answered 405; a POST or
    PUT whose body cannot be decoded is answered 500 with the decoder's
    error; a POST or PUT whose body decodes to something that is not an
    object is answered 400 or 500.  In these four cases no call is made:
    the world is as before. *)
Theorem words_handler_contains
  (get_word delete_word : option string -> option string -> M response)
  (e : proxy_event) (w : world) :
  let r := WordsEntry.handler get_word delete_word e w in
  (exists resp, fst r = Returned resp) /\
  (method e = None -> r = (Returned (server_error (KeyError "httpMethod")), w)) /\
  (forall m, method e = Some m -> ~ In m ["GET"; "POST"; "PUT"; "DELETE"] ->
             r = (Returned method_not_allowed, w)) /\
  (method e = Some "POST" \/ method e = Some "PUT" ->
   (forall err, extract_body (to_event e) = Raised err ->
                r = (Returned (server_error err), w)) /\
   (forall v, extract_body (to_event e) = Returned v -> not_an_object v ->
              turned_away r w)).
Proof.
  cbv zeta. split; [| split; [| split]].
  - unfold WordsEntry.handler, try_except.
    match goal with |- context [match ?c with _ => _ end] => destruct c as [[resp | err] w1] end;
      eexists; reflexivity.
  - intros Hm. unfold WordsEntry.handler, try_except, bind, lift, http_method.
    rewrite Hm. reflexivity.
  - intros m Hm Hnot. unfold WordsEntry.handler, try_except, bind, lift, http_method.
    rewrite Hm.
    destruct (String.eqb_spec m "GET"); [exfalso; apply Hnot; subst m; cbn; auto 6 |].
    destruct (String.eqb_spec m "POST"); [exfalso; apply Hnot; subst m; cbn; auto 6 |].
    destruct (String.eqb_spec m "PUT"); [exfalso; apply Hnot; subst m; cbn; auto 6 |].
    destruct (String.eqb_spec m "DELETE"); [exfalso; apply Hnot; subst m; cbn; auto 6 |]. reflexivity.
  - intros Hm. split.
    + intros err Herr. unfold WordsEntry.handler, try_except, bind, lift, http_method.
      destruct Hm as [-> | ->]; cbn [String.eqb Ascii.eqb Bool.eqb]; rewrite Herr;
        reflexivity.
    + intros v Hv Hnot. unfold WordsEntry.handler, try_except, bind, lift, http_method.
      destruct (words_other_body v (Words.param (params (path e)) "wordId") w Hnot)
        as (Hc & Hu).
      destruct Hm as [-> | ->]; cbn [String.eqb Ascii.eqb Bool.eqb]; rewrite Hv;
        apply turned_away_of; assumption.
Qed.
